(** * The Moment document type: a shallow embedding and its properties

    Source: [erpnext/moments/doctype/moment/moment.py], class [Moment].

    Python values are modelled as follows.
    - [str] is a list of Unicode code points ([pystr]); [len] is [length].
    - [int] is [Z]; [float] is a binary64 [float].
    - [None] is the [None] of an option, or [PNone] inside a [pyval].
    - [frappe.throw] raises [ValidationError]; the other exceptions a method
      can raise ([AttributeError], [TypeError], [OverflowError],
      [DoesNotExistError], [RecursionError]) are kept apart from it.
    - The document ([self]) and the database are threaded explicitly through
      every method ([action]).
    - The hosting framework is outside the source file. Its primitives
      follow its documented behaviour: [frappe.db.exists] is a lookup;
      [frappe.get_doc(doctype, filters)] yields the first matching record
      and raises [DoesNotExistError] when there is none; a document is a
      truthy object; [insert], [save] and [delete] of the record types
      other than Moment append, update and remove a row; [save] and
      [insert] of a Moment run the hooks of the class around the write of
      its row; [now()] reads a clock and gives a text. *)

From Stdlib Require Import String Ascii.
From Stdlib Require Import List ZArith NArith Lia Bool Floats Sorted.
Import ListNotations.

(** ** Strings *)

Module Str.

Definition char := N.
Bind Scope N_scope with char.
Definition pystr := list char.

(** An ASCII literal as a [pystr]. *)
Definition lit (s : string) : pystr :=
  map N_of_ascii (list_ascii_of_string s).

Arguments lit : simpl never.

(** The double quote, which a literal cannot hold. *)
Definition dq : char := 34%N.

Fixpoint eqb (a b : pystr) : bool :=
  match a, b with
  | [], [] => true
  | x :: a', y :: b' => N.eqb x y && eqb a' b'
  | _, _ => false
  end.

(** [strip_prefix p s] is [Some rest] when [s = p ++ rest]. *)
Fixpoint strip_prefix (p s : pystr) : option pystr :=
  match p with
  | [] => Some s
  | x :: p' =>
      match s with
      | [] => None
      | y :: s' => if N.eqb x y then strip_prefix p' s' else None
      end
  end.

Definition starts_with (p s : pystr) : bool :=
  match strip_prefix p s with Some _ => true | None => false end.

(** Python's [w in s] on strings. *)
Fixpoint contains (w s : pystr) : bool :=
  starts_with w s ||
  match s with
  | [] => false
  | _ :: t => contains w t
  end.

(** [s.replace(old, new)]: non-overlapping occurrences, left to right.
    The fuel is the number of scanning steps; [S (length s)] always
    suffices ([replace_equation]). *)
Fixpoint replace_fuel (fuel : nat) (old new s : pystr) : pystr :=
  match fuel with
  | O => s
  | S fuel' =>
      match strip_prefix old s with
      | Some rest => new ++ replace_fuel fuel' old new rest
      | None =>
          match s with
          | [] => []
          | c :: t => c :: replace_fuel fuel' old new t
          end
      end
  end.

Definition replace (old new s : pystr) : pystr :=
  match old with
  | [] => new ++ flat_map (fun c => c :: new) s
  | _ => replace_fuel (S (length s)) old new s
  end.

(** [span p s]: the longest prefix of [s] whose characters satisfy [p], and
    the rest. *)
Fixpoint span (p : char -> bool) (s : pystr) : pystr * pystr :=
  match s with
  | [] => ([], [])
  | c :: t =>
      if p c then let (a, b) := span p t in (c :: a, b) else ([], s)
  end.

Definition is_digit (c : char) : bool := (48 <=? c)%N && (c <=? 57)%N.
Definition is_upper (c : char) : bool := (65 <=? c)%N && (c <=? 90)%N.
Definition is_lower (c : char) : bool := (97 <=? c)%N && (c <=? 122)%N.
Definition is_alpha (c : char) : bool := is_upper c || is_lower c.
Definition is_ascii (c : char) : bool := (c <? 128)%N.
Definition is_hex (c : char) : bool :=
  is_digit c || ((97 <=? c)%N && (c <=? 102)%N) || ((65 <=? c)%N && (c <=? 70)%N).

(** A prop-level reading of [w in s], used to state properties. *)
Definition occurs (w s : pystr) : Prop :=
  exists pre suf, s = pre ++ w ++ suf.

End Str.

Import Str.

(** ** Python values *)

#[warning="-register-all"] Inductive pyval : Type :=
| PNone
| PBool (b : bool)
| PInt (n : Z)
| PFloat (x : float)
| PStr (s : pystr)
| PList (l : list pyval)
| PDict (d : list (pystr * pyval)).

Definition is_empty {A : Type} (l : list A) : bool :=
  match l with [] => true | _ => false end.

(** Truth value of a Python object. *)
Definition truthy (v : pyval) : bool :=
  match v with
  | PNone => false
  | PBool b => b
  | PInt n => negb (Z.eqb n 0)
  | PFloat x => negb (PrimFloat.eqb x PrimFloat.zero)
  | PStr s => negb (is_empty s)
  | PList l => negb (is_empty l)
  | PDict d => negb (is_empty d)
  end.

(** Truth value of a string attribute that may be [None]. *)
Definition truthy_str (o : option pystr) : bool :=
  match o with
  | Some (_ :: _) => true
  | _ => false
  end.

(** [d.get(k)]. *)
Fixpoint dict_get (d : list (pystr * pyval)) (k : pystr) : pyval :=
  match d with
  | [] => PNone
  | (k', v) :: d' => if Str.eqb k' k then v else dict_get d' k
  end.

(** [x or 0] on a counter that may be [None]. *)
Definition or0 (x : option Z) : Z :=
  match x with
  | None => 0
  | Some n => if Z.eqb n 0 then 0 else n
  end.

Definition opt_int (x : option Z) : pyval :=
  match x with Some n => PInt n | None => PNone end.

Definition opt_str (x : option pystr) : pyval :=
  match x with Some s => PStr s | None => PNone end.

(** An optional string inside an f-string: [None] prints as its name. *)
Definition fmt (x : option pystr) : pystr :=
  match x with Some s => s | None => lit "None" end.

Definition opt_str_eqb (a b : option pystr) : bool :=
  match a, b with
  | Some x, Some y => Str.eqb x y
  | None, None => true
  | _, _ => false
  end.

(** The text [json.dumps] produces is represented by the value it encodes;
    [json.loads] gives the value back. Such a text is never empty. *)
Record json_text := Dumps { loads : pyval }.

Definition timestamp := N.

(** ** Exceptions *)

Inductive exn : Type :=
| ValidationError (msg : pystr)
| AttributeError
| TypeError
| OverflowError
| DatabaseError
| DoesNotExistError
| RecursionError.

Inductive result (A : Type) : Type :=
| Ok (a : A)
| Raise (e : exn).

Arguments Ok {A} a.
Arguments Raise {A} e.

(** [len(v)]. *)
Definition py_len (v : pyval) : result Z :=
  match v with
  | PStr s => Ok (Z.of_nat (List.length s))
  | PList l => Ok (Z.of_nat (List.length l))
  | PDict d => Ok (Z.of_nat (List.length d))
  | _ => Raise TypeError
  end.

(** Conversion of an [int] operand in mixed arithmetic: rounding to nearest
    even, [OverflowError] when the result is not finite. *)
Definition float_of_int (n : Z) : result float :=
  let x := SF2Prim (binary_normalize prec emax n 0 false) in
  if PrimFloat.is_infinity x then Raise OverflowError else Ok x.

(** ** The document and the tables *)

(** The [mentions] attribute holds child rows (each with a [user]) until
    [extract_mentions] overwrites it with a JSON text. *)
Record MentionRow := { row_user : pystr }.

Inductive mentions_field : Type :=
| MentionRows (rows : list MentionRow)
| MentionsText (t : json_text).

Record Moment := mkMoment {
  moment_id : option pystr;
  name : option pystr;
  content : option pystr;
  attachments : list pystr;
  author : option pystr;
  moment_type : option pystr;
  mentions : mentions_field;
  location : list (pystr * pyval);
  privacy : option pystr;
  status : option pystr;
  posted_date : option timestamp;
  hashtags : option json_text;
  visibility : option pystr;
  preview : option json_text;
  ai_analysis : option json_text;
  engagement_score : option float;
  likes_count : option Z;
  comments_count : option Z;
  shares_count : option Z;
  views_count : option Z;
  external_platform_id : option pystr
}.

Definition set_content (v : option pystr) (m : Moment) : Moment :=
  {| moment_id := moment_id m;
     name := name m;
     content := v;
     attachments := attachments m;
     author := author m;
     moment_type := moment_type m;
     mentions := mentions m;
     location := location m;
     privacy := privacy m;
     status := status m;
     posted_date := posted_date m;
     hashtags := hashtags m;
     visibility := visibility m;
     preview := preview m;
     ai_analysis := ai_analysis m;
     engagement_score := engagement_score m;
     likes_count := likes_count m;
     comments_count := comments_count m;
     shares_count := shares_count m;
     views_count := views_count m;
     external_platform_id := external_platform_id m |}.

Definition set_moment_type (v : option pystr) (m : Moment) : Moment :=
  {| moment_id := moment_id m;
     name := name m;
     content := content m;
     attachments := attachments m;
     author := author m;
     moment_type := v;
     mentions := mentions m;
     location := location m;
     privacy := privacy m;
     status := status m;
     posted_date := posted_date m;
     hashtags := hashtags m;
     visibility := visibility m;
     preview := preview m;
     ai_analysis := ai_analysis m;
     engagement_score := engagement_score m;
     likes_count := likes_count m;
     comments_count := comments_count m;
     shares_count := shares_count m;
     views_count := views_count m;
     external_platform_id := external_platform_id m |}.

Definition set_mentions (v : mentions_field) (m : Moment) : Moment :=
  {| moment_id := moment_id m;
     name := name m;
     content := content m;
     attachments := attachments m;
     author := author m;
     moment_type := moment_type m;
     mentions := v;
     location := location m;
     privacy := privacy m;
     status := status m;
     posted_date := posted_date m;
     hashtags := hashtags m;
     visibility := visibility m;
     preview := preview m;
     ai_analysis := ai_analysis m;
     engagement_score := engagement_score m;
     likes_count := likes_count m;
     comments_count := comments_count m;
     shares_count := shares_count m;
     views_count := views_count m;
     external_platform_id := external_platform_id m |}.

Definition set_privacy (v : option pystr) (m : Moment) : Moment :=
  {| moment_id := moment_id m;
     name := name m;
     content := content m;
     attachments := attachments m;
     author := author m;
     moment_type := moment_type m;
     mentions := mentions m;
     location := location m;
     privacy := v;
     status := status m;
     posted_date := posted_date m;
     hashtags := hashtags m;
     visibility := visibility m;
     preview := preview m;
     ai_analysis := ai_analysis m;
     engagement_score := engagement_score m;
     likes_count := likes_count m;
     comments_count := comments_count m;
     shares_count := shares_count m;
     views_count := views_count m;
     external_platform_id := external_platform_id m |}.

Definition set_status (v : option pystr) (m : Moment) : Moment :=
  {| moment_id := moment_id m;
     name := name m;
     content := content m;
     attachments := attachments m;
     author := author m;
     moment_type := moment_type m;
     mentions := mentions m;
     location := location m;
     privacy := privacy m;
     status := v;
     posted_date := posted_date m;
     hashtags := hashtags m;
     visibility := visibility m;
     preview := preview m;
     ai_analysis := ai_analysis m;
     engagement_score := engagement_score m;
     likes_count := likes_count m;
     comments_count := comments_count m;
     shares_count := shares_count m;
     views_count := views_count m;
     external_platform_id := external_platform_id m |}.

Definition set_posted_date (v : option timestamp) (m : Moment) : Moment :=
  {| moment_id := moment_id m;
     name := name m;
     content := content m;
     attachments := attachments m;
     author := author m;
     moment_type := moment_type m;
     mentions := mentions m;
     location := location m;
     privacy := privacy m;
     status := status m;
     posted_date := v;
     hashtags := hashtags m;
     visibility := visibility m;
     preview := preview m;
     ai_analysis := ai_analysis m;
     engagement_score := engagement_score m;
     likes_count := likes_count m;
     comments_count := comments_count m;
     shares_count := shares_count m;
     views_count := views_count m;
     external_platform_id := external_platform_id m |}.

Definition set_hashtags (v : option json_text) (m : Moment) : Moment :=
  {| moment_id := moment_id m;
     name := name m;
     content := content m;
     attachments := attachments m;
     author := author m;
     moment_type := moment_type m;
     mentions := mentions m;
     location := location m;
     privacy := privacy m;
     status := status m;
     posted_date := posted_date m;
     hashtags := v;
     visibility := visibility m;
     preview := preview m;
     ai_analysis := ai_analysis m;
     engagement_score := engagement_score m;
     likes_count := likes_count m;
     comments_count := comments_count m;
     shares_count := shares_count m;
     views_count := views_count m;
     external_platform_id := external_platform_id m |}.

Definition set_visibility (v : option pystr) (m : Moment) : Moment :=
  {| moment_id := moment_id m;
     name := name m;
     content := content m;
     attachments := attachments m;
     author := author m;
     moment_type := moment_type m;
     mentions := mentions m;
     location := location m;
     privacy := privacy m;
     status := status m;
     posted_date := posted_date m;
     hashtags := hashtags m;
     visibility := v;
     preview := preview m;
     ai_analysis := ai_analysis m;
     engagement_score := engagement_score m;
     likes_count := likes_count m;
     comments_count := comments_count m;
     shares_count := shares_count m;
     views_count := views_count m;
     external_platform_id := external_platform_id m |}.

Definition set_preview (v : option json_text) (m : Moment) : Moment :=
  {| moment_id := moment_id m;
     name := name m;
     content := content m;
     attachments := attachments m;
     author := author m;
     moment_type := moment_type m;
     mentions := mentions m;
     location := location m;
     privacy := privacy m;
     status := status m;
     posted_date := posted_date m;
     hashtags := hashtags m;
     visibility := visibility m;
     preview := v;
     ai_analysis := ai_analysis m;
     engagement_score := engagement_score m;
     likes_count := likes_count m;
     comments_count := comments_count m;
     shares_count := shares_count m;
     views_count := views_count m;
     external_platform_id := external_platform_id m |}.

Definition set_ai_analysis (v : option json_text) (m : Moment) : Moment :=
  {| moment_id := moment_id m;
     name := name m;
     content := content m;
     attachments := attachments m;
     author := author m;
     moment_type := moment_type m;
     mentions := mentions m;
     location := location m;
     privacy := privacy m;
     status := status m;
     posted_date := posted_date m;
     hashtags := hashtags m;
     visibility := visibility m;
     preview := preview m;
     ai_analysis := v;
     engagement_score := engagement_score m;
     likes_count := likes_count m;
     comments_count := comments_count m;
     shares_count := shares_count m;
     views_count := views_count m;
     external_platform_id := external_platform_id m |}.

Definition set_engagement_score (v : option float) (m : Moment) : Moment :=
  {| moment_id := moment_id m;
     name := name m;
     content := content m;
     attachments := attachments m;
     author := author m;
     moment_type := moment_type m;
     mentions := mentions m;
     location := location m;
     privacy := privacy m;
     status := status m;
     posted_date := posted_date m;
     hashtags := hashtags m;
     visibility := visibility m;
     preview := preview m;
     ai_analysis := ai_analysis m;
     engagement_score := v;
     likes_count := likes_count m;
     comments_count := comments_count m;
     shares_count := shares_count m;
     views_count := views_count m;
     external_platform_id := external_platform_id m |}.

Definition set_likes_count (v : option Z) (m : Moment) : Moment :=
  {| moment_id := moment_id m;
     name := name m;
     content := content m;
     attachments := attachments m;
     author := author m;
     moment_type := moment_type m;
     mentions := mentions m;
     location := location m;
     privacy := privacy m;
     status := status m;
     posted_date := posted_date m;
     hashtags := hashtags m;
     visibility := visibility m;
     preview := preview m;
     ai_analysis := ai_analysis m;
     engagement_score := engagement_score m;
     likes_count := v;
     comments_count := comments_count m;
     shares_count := shares_count m;
     views_count := views_count m;
     external_platform_id := external_platform_id m |}.

Definition set_comments_count (v : option Z) (m : Moment) : Moment :=
  {| moment_id := moment_id m;
     name := name m;
     content := content m;
     attachments := attachments m;
     author := author m;
     moment_type := moment_type m;
     mentions := mentions m;
     location := location m;
     privacy := privacy m;
     status := status m;
     posted_date := posted_date m;
     hashtags := hashtags m;
     visibility := visibility m;
     preview := preview m;
     ai_analysis := ai_analysis m;
     engagement_score := engagement_score m;
     likes_count := likes_count m;
     comments_count := v;
     shares_count := shares_count m;
     views_count := views_count m;
     external_platform_id := external_platform_id m |}.

Definition set_shares_count (v : option Z) (m : Moment) : Moment :=
  {| moment_id := moment_id m;
     name := name m;
     content := content m;
     attachments := attachments m;
     author := author m;
     moment_type := moment_type m;
     mentions := mentions m;
     location := location m;
     privacy := privacy m;
     status := status m;
     posted_date := posted_date m;
     hashtags := hashtags m;
     visibility := visibility m;
     preview := preview m;
     ai_analysis := ai_analysis m;
     engagement_score := engagement_score m;
     likes_count := likes_count m;
     comments_count := comments_count m;
     shares_count := v;
     views_count := views_count m;
     external_platform_id := external_platform_id m |}.

Record Hashtag := {
  hashtag : pystr;
  usage_count : Z;
  first_used : timestamp;
  last_used : timestamp
}.

Record MomentMention := {
  mention_moment : option pystr;
  mentioned_user : pystr;
  mention_date : timestamp
}.

Record MomentNotification := {
  notif_user : pyval;
  notif_moment : option pystr;
  notification_type : pystr;
  message : pystr;
  is_read : Z;
  created_date : timestamp
}.

Record UserActivity := {
  activity_user : option pystr;
  moments_count : Z;
  total_likes : Z;
  total_comments : Z;
  total_shares : Z
}.

Record MomentActivity := {
  activity_moment : option pystr;
  activity_type : pystr;
  activity_by : option pystr;
  activity_date : timestamp;
  description : pystr
}.

Record MomentLike := {
  like_moment_name : option pystr;
  like_user : pystr;
  like_date : timestamp
}.

Record MomentComment := {
  comment_moment : option pystr;
  comment_user : pystr;
  comment : pystr;
  comment_date : timestamp
}.

Record MomentShare := {
  share_moment_name : option pystr;
  share_user : pystr;
  share_date : timestamp
}.

Record UserFollow := {
  follower : pystr;
  following : pystr
}.

Record Employee := {
  employee_user : pystr;
  department : option pystr
}.

Record DB := mkDB {
  clock : timestamp;
  tabUser : list pystr;
  tabHashtag : list Hashtag;
  tabMomentMention : list MomentMention;
  tabMomentNotification : list MomentNotification;
  tabUserActivity : list UserActivity;
  tabMomentActivity : list MomentActivity;
  tabMomentLike : list MomentLike;
  tabMomentComment : list MomentComment;
  tabMomentShare : list MomentShare;
  tabMoment : list Moment;
  tabUserFollow : list UserFollow;
  tabEmployee : list Employee
}.

Definition set_tabHashtag (v : list Hashtag) (d : DB) : DB :=
  {| clock := clock d;
     tabUser := tabUser d;
     tabHashtag := v;
     tabMomentMention := tabMomentMention d;
     tabMomentNotification := tabMomentNotification d;
     tabUserActivity := tabUserActivity d;
     tabMomentActivity := tabMomentActivity d;
     tabMomentLike := tabMomentLike d;
     tabMomentComment := tabMomentComment d;
     tabMomentShare := tabMomentShare d;
     tabMoment := tabMoment d;
     tabUserFollow := tabUserFollow d;
     tabEmployee := tabEmployee d |}.

Definition set_tabMomentMention (v : list MomentMention) (d : DB) : DB :=
  {| clock := clock d;
     tabUser := tabUser d;
     tabHashtag := tabHashtag d;
     tabMomentMention := v;
     tabMomentNotification := tabMomentNotification d;
     tabUserActivity := tabUserActivity d;
     tabMomentActivity := tabMomentActivity d;
     tabMomentLike := tabMomentLike d;
     tabMomentComment := tabMomentComment d;
     tabMomentShare := tabMomentShare d;
     tabMoment := tabMoment d;
     tabUserFollow := tabUserFollow d;
     tabEmployee := tabEmployee d |}.

Definition set_tabMomentNotification (v : list MomentNotification) (d : DB) : DB :=
  {| clock := clock d;
     tabUser := tabUser d;
     tabHashtag := tabHashtag d;
     tabMomentMention := tabMomentMention d;
     tabMomentNotification := v;
     tabUserActivity := tabUserActivity d;
     tabMomentActivity := tabMomentActivity d;
     tabMomentLike := tabMomentLike d;
     tabMomentComment := tabMomentComment d;
     tabMomentShare := tabMomentShare d;
     tabMoment := tabMoment d;
     tabUserFollow := tabUserFollow d;
     tabEmployee := tabEmployee d |}.

Definition set_tabUserActivity (v : list UserActivity) (d : DB) : DB :=
  {| clock := clock d;
     tabUser := tabUser d;
     tabHashtag := tabHashtag d;
     tabMomentMention := tabMomentMention d;
     tabMomentNotification := tabMomentNotification d;
     tabUserActivity := v;
     tabMomentActivity := tabMomentActivity d;
     tabMomentLike := tabMomentLike d;
     tabMomentComment := tabMomentComment d;
     tabMomentShare := tabMomentShare d;
     tabMoment := tabMoment d;
     tabUserFollow := tabUserFollow d;
     tabEmployee := tabEmployee d |}.

Definition set_tabMomentActivity (v : list MomentActivity) (d : DB) : DB :=
  {| clock := clock d;
     tabUser := tabUser d;
     tabHashtag := tabHashtag d;
     tabMomentMention := tabMomentMention d;
     tabMomentNotification := tabMomentNotification d;
     tabUserActivity := tabUserActivity d;
     tabMomentActivity := v;
     tabMomentLike := tabMomentLike d;
     tabMomentComment := tabMomentComment d;
     tabMomentShare := tabMomentShare d;
     tabMoment := tabMoment d;
     tabUserFollow := tabUserFollow d;
     tabEmployee := tabEmployee d |}.

Definition set_tabMomentLike (v : list MomentLike) (d : DB) : DB :=
  {| clock := clock d;
     tabUser := tabUser d;
     tabHashtag := tabHashtag d;
     tabMomentMention := tabMomentMention d;
     tabMomentNotification := tabMomentNotification d;
     tabUserActivity := tabUserActivity d;
     tabMomentActivity := tabMomentActivity d;
     tabMomentLike := v;
     tabMomentComment := tabMomentComment d;
     tabMomentShare := tabMomentShare d;
     tabMoment := tabMoment d;
     tabUserFollow := tabUserFollow d;
     tabEmployee := tabEmployee d |}.

Definition set_tabMomentComment (v : list MomentComment) (d : DB) : DB :=
  {| clock := clock d;
     tabUser := tabUser d;
     tabHashtag := tabHashtag d;
     tabMomentMention := tabMomentMention d;
     tabMomentNotification := tabMomentNotification d;
     tabUserActivity := tabUserActivity d;
     tabMomentActivity := tabMomentActivity d;
     tabMomentLike := tabMomentLike d;
     tabMomentComment := v;
     tabMomentShare := tabMomentShare d;
     tabMoment := tabMoment d;
     tabUserFollow := tabUserFollow d;
     tabEmployee := tabEmployee d |}.

Definition set_tabMomentShare (v : list MomentShare) (d : DB) : DB :=
  {| clock := clock d;
     tabUser := tabUser d;
     tabHashtag := tabHashtag d;
     tabMomentMention := tabMomentMention d;
     tabMomentNotification := tabMomentNotification d;
     tabUserActivity := tabUserActivity d;
     tabMomentActivity := tabMomentActivity d;
     tabMomentLike := tabMomentLike d;
     tabMomentComment := tabMomentComment d;
     tabMomentShare := v;
     tabMoment := tabMoment d;
     tabUserFollow := tabUserFollow d;
     tabEmployee := tabEmployee d |}.

Definition set_tabMoment (v : list Moment) (d : DB) : DB :=
  {| clock := clock d;
     tabUser := tabUser d;
     tabHashtag := tabHashtag d;
     tabMomentMention := tabMomentMention d;
     tabMomentNotification := tabMomentNotification d;
     tabUserActivity := tabUserActivity d;
     tabMomentActivity := tabMomentActivity d;
     tabMomentLike := tabMomentLike d;
     tabMomentComment := tabMomentComment d;
     tabMomentShare := tabMomentShare d;
     tabMoment := v;
     tabUserFollow := tabUserFollow d;
     tabEmployee := tabEmployee d |}.

(** ** Methods as state transformers *)

Definition state : Type := Moment * DB.

Definition action (A : Type) : Type := state -> state * result A.

Definition ret {A : Type} (a : A) : action A := fun s => (s, Ok a).

Definition bind {A B : Type} (c : action A) (k : A -> action B) : action B :=
  fun s =>
    match c s with
    | (s', Ok a) => k a s'
    | (s', Raise e) => (s', Raise e)
    end.

Declare Scope action_scope.
Delimit Scope action_scope with action.
Bind Scope action_scope with action.

Notation "x <- c ;; k" := (bind c (fun x => k))
  (at level 61, c at next level, right associativity) : action_scope.
Notation "c ;; k" := (bind c (fun _ => k))
  (at level 61, right associativity) : action_scope.

Local Open Scope action_scope.

Definition raise {A : Type} (e : exn) : action A := fun s => (s, Raise e).

(** [frappe.throw(msg)]. *)
Definition throw {A : Type} (msg : pystr) : action A := raise (ValidationError msg).

Definition lift {A : Type} (r : result A) : action A := fun s => (s, r).

Definition get_self : action Moment := fun s => (s, Ok (fst s)).
Definition get_db : action DB := fun s => (s, Ok (snd s)).
Definition update_self (f : Moment -> Moment) : action unit :=
  fun s => ((f (fst s), snd s), Ok tt).
Definition update_db (f : DB -> DB) : action unit :=
  fun s => ((fst s, f (snd s)), Ok tt).

(** [now()]. *)
Definition now : action timestamp := fun s => (s, Ok (clock (snd s))).

(** [if c: body]. *)
Definition when (c : bool) (body : action unit) : action unit :=
  if c then body else ret tt.

(** [for x in l: body x]. *)
Fixpoint for_each {A : Type} (l : list A) (body : A -> action unit) : action unit :=
  match l with
  | [] => ret tt
  | x :: l' => body x ;; for_each l' body
  end.

(** [frappe.get_doc(doctype, filters)]: the first record that matches;
    without one the framework raises [DoesNotExistError]. *)
Definition get_doc {R : Type} (matches : R -> bool) (rows : list R) : action R :=
  match find matches rows with
  | Some r => ret r
  | None => raise DoesNotExistError
  end.

(** The truth value of a document: the class defines neither [__bool__] nor
    [__len__], so every document is truthy. *)
Definition doc_truthy {R : Type} (doc : R) : bool := true.

(** The write of the row of a Moment ([db_insert], [db_update]): the row of
    the document, found by its name, is replaced by the document; a document
    without a row gets one. *)
Fixpoint upsert (m : Moment) (rows : list Moment) : list Moment :=
  match rows with
  | [] => [m]
  | r :: rows' =>
      if opt_str_eqb (name r) (name m) then m :: rows' else r :: upsert m rows'
  end.

Definition write_row : action unit :=
  fun s => ((fst s, set_tabMoment (upsert (fst s) (tabMoment (snd s))) (snd s)), Ok tt).


(** ** Sample data *)

Definition ann : pystr := lit "ann".
Definition bob : pystr := lit "bob".

(** A new document as a client submits it: the given attributes, the rest
    unset. *)
Definition draft (author content moment_type privacy : option pystr) : Moment :=
  {| moment_id := Some (lit "MOM-2024-01-00001");
     name := Some (lit "MOM-2024-01-00001");
     content := content;
     attachments := [];
     author := author;
     moment_type := moment_type;
     mentions := MentionRows [];
     location := [];
     privacy := privacy;
     status := None;
     posted_date := None;
     hashtags := None;
     visibility := None;
     preview := None;
     ai_analysis := None;
     engagement_score := None;
     likes_count := None;
     comments_count := None;
     shares_count := None;
     views_count := None;
     external_platform_id := None |}.

(** A text post by ann. *)
Definition post (text : string) : Moment :=
  draft (Some ann) (Some (lit text)) (Some (lit "Text")) None.

(** The same post with the moment type left out. *)
Definition untyped_post (text : string) : Moment :=
  draft (Some ann) (Some (lit text)) None None.

(** A document with the given counters. *)
Definition with_counters (likes comments shares views : option Z) (m : Moment) : Moment :=
  {| moment_id := moment_id m;
     name := name m;
     content := content m;
     attachments := attachments m;
     author := author m;
     moment_type := moment_type m;
     mentions := mentions m;
     location := location m;
     privacy := privacy m;
     status := status m;
     posted_date := posted_date m;
     hashtags := hashtags m;
     visibility := visibility m;
     preview := preview m;
     ai_analysis := ai_analysis m;
     engagement_score := engagement_score m;
     likes_count := likes;
     comments_count := comments;
     shares_count := shares;
     views_count := views;
     external_platform_id := external_platform_id m |}.

(** A database with the users ann and bob and empty tables. *)
Definition sample_db : DB :=
  {| clock := 1700000000%N;
     tabUser := [ann; bob];
     tabHashtag := [];
     tabMomentMention := [];
     tabMomentNotification := [];
     tabUserActivity := [];
     tabMomentActivity := [];
     tabMomentLike := [];
     tabMomentComment := [];
     tabMomentShare := [];
     tabMoment := [];
     tabUserFollow := [];
     tabEmployee := [] |}.

(** The sample database once bob has liked the post. *)
Definition liked_db (m : Moment) : DB :=
  set_tabMomentLike
    [ {| like_moment_name := name m; like_user := bob; like_date := 1699999999%N |} ]
    sample_db.

(** The sample database holding a public and a private post of ann. *)
Definition feed_db : DB :=
  set_tabMoment
    [ draft (Some ann) (Some (lit "hello")) (Some (lit "Text")) (Some (lit "Public"));
      draft (Some ann) (Some (lit "secret")) (Some (lit "Text")) (Some (lit "Private")) ]
    sample_db.

(** A [pystr] of ASCII characters as a string, to read results. *)
Definition ascii_text (s : pystr) : string := string_of_list_ascii (map ascii_of_N s).

(** The sample database where bob follows ann and both work in one
    department. *)
Definition team_db : DB :=
  {| clock := 1700000000%N;
     tabUser := [ann; bob];
     tabHashtag := [];
     tabMomentMention := [];
     tabMomentNotification := [];
     tabUserActivity := [];
     tabMomentActivity := [];
     tabMomentLike := [];
     tabMomentComment := [];
     tabMomentShare := [];
     tabMoment := [];
     tabUserFollow := [ {| follower := bob; following := ann |} ];
     tabEmployee := [ {| employee_user := ann; department := Some (lit "eng") |};
                      {| employee_user := bob; department := Some (lit "eng") |} ] |}.

(** The sample database holding the post "hi" of ann, with a like and a
    comment of bob. *)
Definition stored_db : DB :=
  set_tabMoment [post "hi"]
    (set_tabMomentComment
       [ {| comment_moment := name (post "hi");
            comment_user := bob;
            comment := lit "nice";
            comment_date := 1699999998%N |} ]
       (liked_db (post "hi"))).

(** A picture of ann without a text. *)
Definition picture : Moment :=
  {| moment_id := Some (lit "MOM-2024-01-00002");
     name := Some (lit "MOM-2024-01-00002");
     content := None;
     attachments := [lit "a.png"];
     author := Some ann;
     moment_type := Some (lit "Image");
     mentions := MentionRows [];
     location := [];
     privacy := None;
     status := None;
     posted_date := None;
     hashtags := None;
     visibility := None;
     preview := None;
     ai_analysis := None;
     engagement_score := None;
     likes_count := None;
     comments_count := None;
     shares_count := None;
     views_count := None;
     external_platform_id := None |}.

(** The sample database holding the post "hi" of ann and nothing about
    it. *)
Definition posted_db : DB := set_tabMoment [post "hi"] sample_db.

(** The sample database where ann has a User Activity row with two
    moments. *)
Definition active_db : DB :=
  set_tabUserActivity
    [ {| activity_user := Some ann; moments_count := 2; total_likes := 0;
         total_comments := 0; total_shares := 0 |} ]
    sample_db.

(** The next name of the naming series. *)
Definition series : pystr := lit "MOM-2024-01-00003".

(** A post of ann from the equator. *)
Definition equator_post : Moment :=
  {| moment_id := Some (lit "MOM-2024-01-00004");
     name := Some (lit "MOM-2024-01-00004");
     content := Some (lit "hi");
     attachments := [];
     author := Some ann;
     moment_type := Some (lit "Text");
     mentions := MentionRows [];
     location := [ (lit "latitude", PFloat 0%float); (lit "longitude", PFloat 36.5%float) ];
     privacy := None;
     status := None;
     posted_date := None;
     hashtags := None;
     visibility := None;
     preview := None;
     ai_analysis := None;
     engagement_score := None;
     likes_count := None;
     comments_count := None;
     shares_count := None;
     views_count := None;
     external_platform_id := None |}.
(** ** Unicode tables

    [str.lower()] and the regular-expression class [\w] depend on the Unicode
    character database for code points outside ASCII. The development is
    parametric in both tables; the two below are the instances used to run
    the model on ASCII inputs. *)

Definition identity_lower (c : char) : pystr := [c].
Definition no_unicode_alnum (c : char) : bool := false.

Section Moment.

(** The lowercase mapping of a non-ASCII code point, and whether a non-ASCII
    code point is alphanumeric. *)
Variable unicode_lower : char -> pystr.
Variable unicode_alnum : char -> bool.

(** [s.lower()], code point by code point: ASCII letters by their offset,
    the other code points by the table. (Python chooses between the two
    lowercase forms of a Greek capital sigma by its context; both are
    outside ASCII, and the table holds one of them.) *)
Definition lower_char (c : char) : pystr :=
  if is_upper c then [(c + 32)%N]
  else if is_ascii c then [c]
  else unicode_lower c.

Definition lower (s : pystr) : pystr := flat_map lower_char s.

(** ** Regular expressions *)

(** [\w] on [str] patterns. *)
Definition is_word (c : char) : bool :=
  if is_ascii c then is_alpha c || is_digit c || N.eqb c 95
  else unicode_alnum c.

(** A pattern is modelled by its matcher at the head of the input: the
    captured text and the input that follows the match. Each pattern of the
    source matches a non-empty text. *)
Definition matcher := pystr -> option (pystr * pystr).

(** [sigil(\w+)] at the head of [s]: group 1 and the rest. *)
Definition match_tag (sigil : char) : matcher := fun s =>
  match s with
  | [] => None
  | c :: t =>
      if N.eqb c sigil then
        match span is_word t with
        | ([], _) => None
        | (x, rest) => Some (x, rest)
        end
      else None
  end.

(** [r'#(\w+)'] and [r'@(\w+)']. *)
Definition hashtag_pattern : matcher := match_tag 35.
Definition mention_pattern : matcher := match_tag 64.

(** One iteration of the group
    [(?:[a-zA-Z]|[0-9]|[$-_@.&+]|[!*\\(\\),]|(?:%[0-9a-fA-F][0-9a-fA-F]))]:
    its branches are tried in order. *)
Definition url_class3 (c : char) : bool :=
  ((36 <=? c)%N && (c <=? 95)%N) || N.eqb c 64 || N.eqb c 46 || N.eqb c 38 || N.eqb c 43.
Definition url_class4 (c : char) : bool :=
  N.eqb c 33 || N.eqb c 42 || N.eqb c 92 || N.eqb c 40 || N.eqb c 41 || N.eqb c 44.

Definition url_unit (s : pystr) : option (pystr * pystr) :=
  match s with
  | [] => None
  | c :: t =>
      if is_alpha c || is_digit c || url_class3 c || url_class4 c then Some ([c], t)
      else if N.eqb c 37 then
        match t with
        | h1 :: h2 :: t' => if is_hex h1 && is_hex h2 then Some ([c; h1; h2], t') else None
        | _ => None
        end
      else None
  end.

(** The greedy [(...)+] loop: iterations as long as one matches. Nothing
    follows the loop in the pattern, so the longest run is the match
    ([url_units_maximal]). *)
Fixpoint url_units (fuel : nat) (s : pystr) : pystr * pystr :=
  match fuel with
  | O => ([], s)
  | S fuel' =>
      match url_unit s with
      | None => ([], s)
      | Some (u, rest) => let (us, rest') := url_units fuel' rest in (u ++ us, rest')
      end
  end.

Definition url_tail (s : pystr) : option (pystr * pystr) :=
  match strip_prefix (lit "://") s with
  | None => None
  | Some s1 =>
      match url_units (List.length s1) s1 with
      | ([], _) => None
      | (us, rest) => Some (lit "://" ++ us, rest)
      end
  end.

(** [r'http[s]?://(?:...)+']: the whole match and the rest. The optional
    [s] is tried first, then skipped. *)
Definition url_pattern : matcher := fun s =>
  match strip_prefix (lit "http") s with
  | None => None
  | Some s0 =>
      let without_s :=
        match url_tail s0 with
        | Some (m, rest) => Some (lit "http" ++ m, rest)
        | None => None
        end in
      match strip_prefix (lit "s") s0 with
      | Some s1 =>
          match url_tail s1 with
          | Some (m, rest) => Some (lit "https" ++ m, rest)
          | None => without_s
          end
      | None => without_s
      end
  end.

(** [re.findall(pattern, s)] for a pattern with one group: scan from the
    left, collect the group at each match and go on after the match. The
    fuel always suffices ([findall_equation]). *)
Fixpoint findall_fuel (fuel : nat) (pat : matcher) (s : pystr) : list pystr :=
  match fuel with
  | O => []
  | S fuel' =>
      match pat s with
      | Some (g, rest) => g :: findall_fuel fuel' pat rest
      | None =>
          match s with
          | [] => []
          | _ :: t => findall_fuel fuel' pat t
          end
      end
  end.

Definition findall (pat : matcher) (s : pystr) : list pystr :=
  findall_fuel (S (List.length s)) pat s.

(** [re.sub(pattern, repl, s)]: each match is replaced by [repl] of its
    captured text, the other characters are copied. The fuel always
    suffices ([sub_equation]). *)
Fixpoint sub_fuel (fuel : nat) (pat : matcher) (repl : pystr -> pystr) (s : pystr) : pystr :=
  match fuel with
  | O => s
  | S fuel' =>
      match pat s with
      | Some (g, rest) => repl g ++ sub_fuel fuel' pat repl rest
      | None =>
          match s with
          | [] => []
          | c :: t => c :: sub_fuel fuel' pat repl t
          end
      end
  end.

Definition sub (pat : matcher) (repl : pystr -> pystr) (s : pystr) : pystr :=
  sub_fuel (S (List.length s)) pat repl s.


(** ** The methods of [Moment] *)

Local Open Scope action_scope.

(** *** Validation *)

Definition validate_moment_data : action unit :=
  self <- get_self ;;
  when (negb (truthy_str (content self)) && is_empty (attachments self))
    (throw (lit "Moment must have content or attachments")) ;;
  when (negb (truthy_str (author self)))
    (throw (lit "Author is required")) ;;
  when (negb (truthy_str (moment_type self)))
    (throw (lit "Moment type is required")).

Definition inappropriate_words : list pystr :=
  [lit "spam"; lit "scam"; lit "fraud"; lit "illegal"; lit "inappropriate"].

Definition contains_inappropriate_content (self : Moment) : bool :=
  match content self with
  | Some ((_ :: _) as c) =>
      let content_lower := lower c in
      existsb (fun word => contains word content_lower) inappropriate_words
  | _ => false
  end.

Definition validate_content : action unit :=
  self <- get_self ;;
  match content self with
  | Some ((_ :: _) as c) =>
      when (2000 <? List.length c)%nat
        (throw (lit "Content cannot exceed 2000 characters")) ;;
      when (contains_inappropriate_content self)
        (throw (lit "Content contains inappropriate material"))
  | _ => ret tt
  end.

(** [frappe.db.exists("User", name)]. *)
Definition user_exists (d : DB) (u : pystr) : bool :=
  existsb (Str.eqb u) (tabUser d).

(** Iterating over a JSON text yields its characters, which have no [user]
    attribute. *)
Definition validate_mentions : action unit :=
  self <- get_self ;;
  d <- get_db ;;
  match mentions self with
  | MentionRows rows =>
      for_each rows (fun mention =>
        when (negb (user_exists d (row_user mention)))
          (throw (lit "Mentioned user " ++ row_user mention ++ lit " does not exist")))
  | MentionsText _ => raise AttributeError
  end.

Definition validate_location : action unit :=
  self <- get_self ;;
  when (negb (is_empty (location self)))
    (when (negb (truthy (dict_get (location self) (lit "latitude")))
           || negb (truthy (dict_get (location self) (lit "longitude"))))
       (throw (lit "Invalid location data"))).

Definition set_defaults : action unit :=
  self <- get_self ;;
  when (negb (truthy_str (moment_type self)))
    (update_self (set_moment_type (Some (lit "Text")))) ;;
  when (negb (truthy_str (privacy self)))
    (update_self (set_privacy (Some (lit "Public")))) ;;
  when (negb (truthy_str (status self)))
    (update_self (set_status (Some (lit "Published")))) ;;
  match posted_date self with
  | Some _ => ret tt
  | None => t <- now ;; update_self (set_posted_date (Some t))
  end.

Definition validate : action unit :=
  validate_moment_data ;;
  set_defaults ;;
  validate_content ;;
  validate_mentions ;;
  validate_location.

(** *** Content processing *)

Definition emoji_map : list (pystr * pystr) :=
  [ (lit ":smile:", [128522%N]);
    (lit ":heart:", [10084%N; 65039%N]);
    (lit ":thumbs_up:", [128077%N]);
    (lit ":thumbs_down:", [128078%N]);
    (lit ":laugh:", [128514%N]);
    (lit ":angry:", [128544%N]);
    (lit ":sad:", [128546%N]);
    (lit ":love:", [128525%N]) ].

Definition process_emojis (content : pystr) : pystr :=
  fold_left (fun c (entry : pystr * pystr) => replace (fst entry) (snd entry) c)
    emoji_map content.

(** [<a href="\g<0>" target="_blank">\g<0></a>] *)
Definition link_repl (g : pystr) : pystr :=
  lit "<a href=" ++ [dq] ++ g ++ [dq] ++ lit " target=" ++ [dq] ++ lit "_blank"
    ++ [dq] ++ lit ">" ++ g ++ lit "</a>".

(** [<a href="/hashtag/\1" class="hashtag">#\1</a>] *)
Definition hashtag_repl (g : pystr) : pystr :=
  lit "<a href=" ++ [dq] ++ lit "/hashtag/" ++ g ++ [dq] ++ lit " class=" ++ [dq]
    ++ lit "hashtag" ++ [dq] ++ lit ">#" ++ g ++ lit "</a>".

(** [<a href="/user/\1" class="mention">@\1</a>] *)
Definition mention_repl (g : pystr) : pystr :=
  lit "<a href=" ++ [dq] ++ lit "/user/" ++ g ++ [dq] ++ lit " class=" ++ [dq]
    ++ lit "mention" ++ [dq] ++ lit ">@" ++ g ++ lit "</a>".

Definition process_links (content : pystr) : pystr := sub url_pattern link_repl content.
Definition process_hashtags (content : pystr) : pystr := sub hashtag_pattern hashtag_repl content.
Definition process_mentions (content : pystr) : pystr := sub mention_pattern mention_repl content.

(** The four rewriting steps of [process_content], in order. *)
Definition processed (content : pystr) : pystr :=
  process_mentions (process_hashtags (process_links (process_emojis content))).

Definition process_content : action unit :=
  self <- get_self ;;
  match content self with
  | Some ((_ :: _) as c) => update_self (set_content (Some (processed c)))
  | _ => ret tt
  end.

Definition hashtag_exists (d : DB) (h : pystr) : bool :=
  existsb (fun r => Str.eqb (hashtag r) h) (tabHashtag d).

(** The first record of the hashtag gets one more use. *)
Fixpoint bump_hashtag (h : pystr) (t : timestamp) (rows : list Hashtag) : list Hashtag :=
  match rows with
  | [] => []
  | r :: rows' =>
      if Str.eqb (hashtag r) h
      then {| hashtag := hashtag r; usage_count := usage_count r + 1;
              first_used := first_used r; last_used := t |} :: rows'
      else r :: bump_hashtag h t rows'
  end.

Definition create_hashtag_record (h : pystr) : action unit :=
  d <- get_db ;;
  t <- now ;;
  if negb (hashtag_exists d h)
  then update_db (fun d => set_tabHashtag
         (tabHashtag d ++ [ {| hashtag := h; usage_count := 1;
                               first_used := t; last_used := t |} ]) d)
  else update_db (fun d => set_tabHashtag (bump_hashtag h t (tabHashtag d)) d).

Definition extract_hashtags : action unit :=
  self <- get_self ;;
  match content self with
  | Some ((_ :: _) as c) =>
      let hashtags := findall hashtag_pattern c in
      update_self (set_hashtags (Some (Dumps (PList (map PStr hashtags))))) ;;
      for_each hashtags create_hashtag_record
  | _ => ret tt
  end.

Definition create_mention_record (mention : pystr) : action unit :=
  self <- get_self ;;
  t <- now ;;
  update_db (fun d => set_tabMomentMention
    (tabMomentMention d ++ [ {| mention_moment := name self;
                                mentioned_user := mention;
                                mention_date := t |} ]) d).

Definition extract_mentions : action unit :=
  self <- get_self ;;
  match content self with
  | Some ((_ :: _) as c) =>
      let found := findall mention_pattern c in
      update_self (set_mentions (MentionsText (Dumps (PList (map PStr found))))) ;;
      for_each found create_mention_record
  | _ => ret tt
  end.

Definition set_privacy_settings : action unit :=
  self <- get_self ;;
  if opt_str_eqb (privacy self) (Some (lit "Private"))
  then update_self (set_visibility (Some (lit "Author Only")))
  else if opt_str_eqb (privacy self) (Some (lit "Friends"))
  then update_self (set_visibility (Some (lit "Friends Only")))
  else if opt_str_eqb (privacy self) (Some (lit "Department"))
  then update_self (set_visibility (Some (lit "Department Only")))
  else update_self (set_visibility (Some (lit "Public"))).

(** [json.loads] of the child rows is a [TypeError]; no rows are falsy. *)
Definition generate_preview : action unit :=
  self <- get_self ;;
  content_preview <- lift
    match content self with
    | None => Raise TypeError
    | Some c =>
        Ok (if (100 <? List.length c)%nat then firstn 100 c ++ lit "..." else c)
    end ;;
  hashtag_count <- lift
    match hashtags self with
    | Some t => py_len (loads t)
    | None => Ok 0%Z
    end ;;
  mention_count <- lift
    match mentions self with
    | MentionsText t => py_len (loads t)
    | MentionRows [] => Ok 0%Z
    | MentionRows _ => Raise TypeError
    end ;;
  update_self (set_preview (Some (Dumps (PDict
    [ (lit "content_preview", PStr content_preview);
      (lit "attachment_count", PInt (Z.of_nat (List.length (attachments self))));
      (lit "hashtag_count", PInt hashtag_count);
      (lit "mention_count", PInt mention_count);
      (lit "location",
        if is_empty (location self) then PNone
        else dict_get (location self) (lit "name")) ])))).

Definition before_save : action unit :=
  process_content ;;
  extract_hashtags ;;
  extract_mentions ;;
  set_privacy_settings ;;
  generate_preview.

(** *** Notifications and activity *)

Definition notify (who : pyval) (kind msg : pystr) : action unit :=
  self <- get_self ;;
  t <- now ;;
  update_db (fun d => set_tabMomentNotification
    (tabMomentNotification d ++ [ {| notif_user := who;
                                     notif_moment := name self;
                                     notification_type := kind;
                                     message := msg;
                                     is_read := 0;
                                     created_date := t |} ]) d).

Definition send_mention_notification (mentioned_user : pyval) : action unit :=
  self <- get_self ;;
  notify mentioned_user (lit "Mention")
    (lit "You were mentioned in a moment by " ++ fmt (author self)).

(** [SELECT follower FROM `tabUser Follow` WHERE following = author]. *)
Definition followers_of (d : DB) (a : option pystr) : list pystr :=
  map follower
    (filter (fun f => opt_str_eqb (Some (following f)) a) (tabUserFollow d)).

Definition send_follower_notifications : action unit :=
  self <- get_self ;;
  d <- get_db ;;
  for_each (followers_of d (author self)) (fun f =>
    notify (PStr f) (lit "New Moment") (fmt (author self) ++ lit " shared a new moment")).

(** [frappe.db.get_value("Employee", {"user": u}, "department")]. *)
Definition department_of (d : DB) (u : option pystr) : option pystr :=
  match filter (fun e => opt_str_eqb (Some (employee_user e)) u) (tabEmployee d) with
  | e :: _ => department e
  | [] => None
  end.

(** [SELECT user FROM tabEmployee WHERE department = dep AND user != a]. *)
Definition department_members (d : DB) (dep : pystr) (a : option pystr) : list pystr :=
  map employee_user
    (filter (fun e => opt_str_eqb (department e) (Some dep)
                      && match a with
                         | Some u => negb (Str.eqb (employee_user e) u)
                         | None => false
                         end)
       (tabEmployee d)).

Definition send_department_notifications : action unit :=
  self <- get_self ;;
  d <- get_db ;;
  match department_of d (author self) with
  | Some ((_ :: _) as dep) =>
      for_each (department_members d dep (author self)) (fun u =>
        notify (PStr u) (lit "Department Moment")
          (fmt (author self) ++ lit " shared a moment in your department"))
  | _ => ret tt
  end.

(** Iteration over a Python value. *)
Definition py_iter (v : pyval) : result (list pyval) :=
  match v with
  | PList l => Ok l
  | PStr s => Ok (map (fun c => PStr [c]) s)
  | PDict d => Ok (map (fun kv => PStr (fst kv)) d)
  | _ => Raise TypeError
  end.

Definition send_notifications : action unit :=
  self <- get_self ;;
  match mentions self with
  | MentionRows [] => ret tt
  | MentionRows _ => raise TypeError
  | MentionsText t =>
      l <- lift (py_iter (loads t)) ;;
      for_each l send_mention_notification
  end ;;
  send_follower_notifications ;;
  self <- get_self ;;
  when (opt_str_eqb (privacy self) (Some (lit "Department")))
    send_department_notifications.

(** The first activity row of the user gets one more moment. *)
Fixpoint bump_activity (u : option pystr) (rows : list UserActivity) : list UserActivity :=
  match rows with
  | [] => []
  | r :: rows' =>
      if opt_str_eqb (activity_user r) u
      then {| activity_user := activity_user r;
              moments_count := moments_count r + 1;
              total_likes := total_likes r;
              total_comments := total_comments r;
              total_shares := total_shares r |} :: rows'
      else r :: bump_activity u rows'
  end.

(** [get_doc] raises when the author has no row, and a row is truthy: the
    branch that creates the row is never taken. *)
Definition update_user_activity : action unit :=
  self <- get_self ;;
  d <- get_db ;;
  author_activity <- get_doc (fun r => opt_str_eqb (activity_user r) (author self))
                       (tabUserActivity d) ;;
  when (negb (doc_truthy author_activity))
    (update_db (fun d => set_tabUserActivity
       (tabUserActivity d ++ [ {| activity_user := author self;
                                  moments_count := 0;
                                  total_likes := 0;
                                  total_comments := 0;
                                  total_shares := 0 |} ]) d)) ;;
  update_db (fun d => set_tabUserActivity
    (bump_activity (author self) (tabUserActivity d)) d).

Definition create_activity_log : action unit :=
  self <- get_self ;;
  t <- now ;;
  update_db (fun d => set_tabMomentActivity
    (tabMomentActivity d ++ [ {| activity_moment := name self;
                                 activity_type := lit "Created";
                                 activity_by := author self;
                                 activity_date := t;
                                 description := lit "Created moment: " ++ fmt (moment_id self) |} ]) d).

(** *** Content analysis *)

Definition positive_words : list pystr :=
  [lit "happy"; lit "great"; lit "awesome"; lit "amazing"; lit "love";
   lit "excellent"; lit "wonderful"].

Definition negative_words : list pystr :=
  [lit "sad"; lit "bad"; lit "terrible"; lit "awful"; lit "hate";
   lit "disappointed"; lit "angry"].

(** [sum(1 for word in words if word in text)]. *)
Definition count_in (words : list pystr) (text : pystr) : nat :=
  List.length (filter (fun word => contains word text) words).

Definition analyze_sentiment (self : Moment) : pystr :=
  match content self with
  | Some ((_ :: _) as c) =>
      let content_lower := lower c in
      let positive_count := count_in positive_words content_lower in
      let negative_count := count_in negative_words content_lower in
      if (negative_count <? positive_count)%nat then lit "positive"
      else if (positive_count <? negative_count)%nat then lit "negative"
      else lit "neutral"
  | _ => lit "neutral"
  end.

Definition any_in (words : list pystr) (text : pystr) : bool :=
  existsb (fun word => contains word text) words.

Definition classify_content (self : Moment) : pystr :=
  match content self with
  | Some ((_ :: _) as c) =>
      let content_lower := lower c in
      if any_in [lit "work"; lit "project"; lit "meeting"; lit "office"] content_lower
      then lit "work_related"
      else if any_in [lit "celebration"; lit "party"; lit "birthday"; lit "anniversary"] content_lower
      then lit "celebration"
      else if any_in [lit "help"; lit "support"; lit "assistance"] content_lower
      then lit "support"
      else if any_in [lit "idea"; lit "suggestion"; lit "feedback"] content_lower
      then lit "idea"
      else lit "general"
  | _ => lit "text"
  end.

Definition unsafe_words : list pystr :=
  [lit "spam"; lit "scam"; lit "fraud"; lit "illegal"].

Definition analyze_safety (self : Moment) : float :=
  match content self with
  | Some ((_ :: _) as c) =>
      let content_lower := lower c in
      let inappropriate_count := count_in unsafe_words content_lower in
      if (0 <? inappropriate_count)%nat then 0%float else 1%float
  | _ => 1%float
  end.

(** [now().isoformat()]: [frappe.utils.now()] gives a [str], which has no
    [isoformat]. *)
Definition isoformat (t : timestamp) : result pystr := Raise AttributeError.

(** The methods that call [self.save()] take [save], the action of that
    call, as their first argument; [Moment.save] below closes the loop. *)
Definition process_ai_analysis (save : action unit) : action unit :=
  self <- get_self ;;
  let sentiment := analyze_sentiment self in
  let content_type := classify_content self in
  let safety_score := analyze_safety self in
  t <- now ;;
  analysis_date <- lift (isoformat t) ;;
  update_self (set_ai_analysis (Some (Dumps (PDict
    [ (lit "sentiment", PStr sentiment);
      (lit "content_type", PStr content_type);
      (lit "safety_score", PFloat safety_score);
      (lit "analysis_date", PStr analysis_date) ])))) ;;
  save.

Definition after_insert (save : action unit) : action unit :=
  send_notifications ;;
  update_user_activity ;;
  create_activity_log ;;
  process_ai_analysis save.

(** *** Engagement *)

(** [int * float] and [int + float]: the [int] operand is converted first. *)
Definition int_mul_float (n : Z) (x : float) : result float :=
  match float_of_int n with
  | Ok y => Ok (PrimFloat.mul y x)
  | Raise e => Raise e
  end.

Definition int_add_float (n : Z) (x : float) : result float :=
  match float_of_int n with
  | Ok y => Ok (PrimFloat.add y x)
  | Raise e => Raise e
  end.

(** The literal [0.1]. *)
Definition tenth : float := 0x1.999999999999ap-4%float.

Definition calculate_engagement_score (self : Moment) : result float :=
  let likes := or0 (likes_count self) in
  let comments := or0 (comments_count self) in
  let shares := or0 (shares_count self) in
  let views := or0 (views_count self) in
  match int_mul_float views tenth with
  | Ok weighted_views =>
      int_add_float ((likes * 1) + (comments * 2) + (shares * 3)) weighted_views
  | Raise e => Raise e
  end.

Definition update_engagement_metrics (save : action unit) : action unit :=
  self <- get_self ;;
  engagement_score <- lift (calculate_engagement_score self) ;;
  update_self (set_engagement_score (Some engagement_score)) ;;
  save.

(** [sync_with_external_platform] is empty in the source. *)
Definition sync_moment_data : action unit := ret tt.

Definition on_update (save : action unit) : action unit :=
  update_engagement_metrics save ;;
  sync_moment_data.

(** *** Whitelisted methods *)

Definition is_like_of (self : Moment) (user : pystr) (l : MomentLike) : bool :=
  opt_str_eqb (like_moment_name l) (name self) && Str.eqb (like_user l) user.

Definition like_moment (save : action unit) (user : pystr) : action pyval :=
  self <- get_self ;;
  d <- get_db ;;
  when (existsb (is_like_of self user) (tabMomentLike d))
    (throw (lit "You have already liked this moment")) ;;
  t <- now ;;
  update_db (fun d => set_tabMomentLike
    (tabMomentLike d ++ [ {| like_moment_name := name self;
                             like_user := user;
                             like_date := t |} ]) d) ;;
  update_self (fun m => set_likes_count (Some (or0 (likes_count m) + 1)%Z) m) ;;
  save ;;
  self <- get_self ;;
  when (negb (opt_str_eqb (Some user) (author self)))
    (notify (opt_str (author self)) (lit "Like") (user ++ lit " liked your moment")) ;;
  self <- get_self ;;
  ret (PDict [ (lit "status", PStr (lit "success"));
               (lit "likes_count", opt_int (likes_count self)) ]).

(** [like.delete()]: the record that [get_doc] found, the first match. *)
Fixpoint remove_first {A : Type} (p : A -> bool) (l : list A) : list A :=
  match l with
  | [] => []
  | x :: l' => if p x then l' else x :: remove_first p l'
  end.

(** [get_doc] raises when the user has no like record, and a record is
    truthy: the [if like:] test never fails. *)
Definition unlike_moment (save : action unit) (user : pystr) : action pyval :=
  self <- get_self ;;
  d <- get_db ;;
  like <- get_doc (is_like_of self user) (tabMomentLike d) ;;
  when (doc_truthy like)
    (update_db (fun d => set_tabMomentLike
       (remove_first (is_like_of self user) (tabMomentLike d)) d) ;;
     update_self (fun m => set_likes_count (Some (Z.max 0 (or0 (likes_count m) - 1))) m) ;;
     save) ;;
  self <- get_self ;;
  ret (PDict [ (lit "status", PStr (lit "success"));
               (lit "likes_count", opt_int (likes_count self)) ]).

Definition add_comment (save : action unit) (user comment_content : pystr) : action pyval :=
  when (is_empty comment_content)
    (throw (lit "Comment content is required")) ;;
  self <- get_self ;;
  t <- now ;;
  update_db (fun d => set_tabMomentComment
    (tabMomentComment d ++ [ {| comment_moment := name self;
                                comment_user := user;
                                comment := comment_content;
                                comment_date := t |} ]) d) ;;
  update_self (fun m => set_comments_count (Some (or0 (comments_count m) + 1)%Z) m) ;;
  save ;;
  self <- get_self ;;
  when (negb (opt_str_eqb (Some user) (author self)))
    (notify (opt_str (author self)) (lit "Comment") (user ++ lit " commented on your moment")) ;;
  self <- get_self ;;
  ret (PDict [ (lit "status", PStr (lit "success"));
               (lit "comments_count", opt_int (comments_count self)) ]).

Definition share_moment (save : action unit) (user : pystr) : action pyval :=
  self <- get_self ;;
  t <- now ;;
  update_db (fun d => set_tabMomentShare
    (tabMomentShare d ++ [ {| share_moment_name := name self;
                              share_user := user;
                              share_date := t |} ]) d) ;;
  update_self (fun m => set_shares_count (Some (or0 (shares_count m) + 1)%Z) m) ;;
  save ;;
  self <- get_self ;;
  when (negb (opt_str_eqb (Some user) (author self)))
    (notify (opt_str (author self)) (lit "Share") (user ++ lit " shared your moment")) ;;
  self <- get_self ;;
  ret (PDict [ (lit "status", PStr (lit "success"));
               (lit "shares_count", opt_int (shares_count self)) ]).

(** *** The feed query *)

(** [SELECT following FROM `tabUser Follow` WHERE follower = user]. *)
Definition followed_by (d : DB) (user : pystr) : list pystr :=
  map following (filter (fun f => Str.eqb (follower f) user) (tabUserFollow d)).

(** The scalar subquery [SELECT department FROM tabEmployee WHERE user = user]:
    no row gives NULL, several rows are an error. *)
Definition department_subquery (d : DB) (user : pystr) : result (option pystr) :=
  match filter (fun e => Str.eqb (employee_user e) user) (tabEmployee d) with
  | [] => Ok None
  | [e] => Ok (department e)
  | _ => Raise DatabaseError
  end.

(** [SELECT e.user FROM tabEmployee e WHERE e.department = dep]; a NULL on
    either side of [=] selects nothing. *)
Definition users_of_department (d : DB) (dep : option pystr) : list pystr :=
  match dep with
  | None => []
  | Some x =>
      map employee_user
        (filter (fun e => opt_str_eqb (department e) (Some x)) (tabEmployee d))
  end.

Definition author_in (m : Moment) (users : list pystr) : bool :=
  match author m with
  | Some a => existsb (Str.eqb a) users
  | None => false
  end.

(** The [WHERE] clause; [=] on texts is taken as equality of the texts. *)
Definition feed_where (follows colleagues : list pystr) (m : Moment) : bool :=
  opt_str_eqb (privacy m) (Some (lit "Public"))
  || (opt_str_eqb (privacy m) (Some (lit "Friends")) && author_in m follows)
  || (opt_str_eqb (privacy m) (Some (lit "Department")) && author_in m colleagues).

(** [ORDER BY m.posted_date DESC]: NULL dates come last. SQL leaves the order
    of rows with equal dates open; here the later row of the table comes
    first. *)
Definition date_leb (a b : option timestamp) : bool :=
  match a, b with
  | None, _ => true
  | Some _, None => false
  | Some x, Some y => (x <=? y)%N
  end.

Fixpoint insert_desc (m : Moment) (l : list Moment) : list Moment :=
  match l with
  | [] => [m]
  | x :: l' =>
      if date_leb (posted_date m) (posted_date x)
      then x :: insert_desc m l'
      else m :: l
  end.

Definition order_by_posted_date_desc (l : list Moment) : list Moment :=
  fold_right insert_desc [] l.

(** The selected columns: a row of the result is the moment with its other
    columns left out. *)
Definition selected_columns (m : Moment) : Moment :=
  {| moment_id := moment_id m;
     name := name m;
     content := content m;
     attachments := attachments m;
     author := author m;
     moment_type := moment_type m;
     mentions := mentions m;
     location := location m;
     privacy := privacy m;
     status := None;
     posted_date := posted_date m;
     hashtags := hashtags m;
     visibility := None;
     preview := preview m;
     ai_analysis := None;
     engagement_score := None;
     likes_count := likes_count m;
     comments_count := comments_count m;
     shares_count := shares_count m;
     views_count := None;
     external_platform_id := None |}.

Definition get_moment_feed (user : pystr) (limit offset : nat) : action (list Moment) :=
  d <- get_db ;;
  dep <- lift (department_subquery d user) ;;
  let follows := followed_by d user in
  let colleagues := users_of_department d dep in
  let rows := filter (feed_where follows colleagues) (tabMoment d) in
  ret (map selected_columns
         (firstn limit (skipn offset (order_by_posted_date_desc rows)))).

(** ** The remaining methods *)

Definition set_moment_id (v : option pystr) (m : Moment) : Moment :=
  {| moment_id := v;
     name := name m;
     content := content m;
     attachments := attachments m;
     author := author m;
     moment_type := moment_type m;
     mentions := mentions m;
     location := location m;
     privacy := privacy m;
     status := status m;
     posted_date := posted_date m;
     hashtags := hashtags m;
     visibility := visibility m;
     preview := preview m;
     ai_analysis := ai_analysis m;
     engagement_score := engagement_score m;
     likes_count := likes_count m;
     comments_count := comments_count m;
     shares_count := shares_count m;
     views_count := views_count m;
     external_platform_id := external_platform_id m |}.

Definition set_name (v : option pystr) (m : Moment) : Moment :=
  {| moment_id := moment_id m;
     name := v;
     content := content m;
     attachments := attachments m;
     author := author m;
     moment_type := moment_type m;
     mentions := mentions m;
     location := location m;
     privacy := privacy m;
     status := status m;
     posted_date := posted_date m;
     hashtags := hashtags m;
     visibility := visibility m;
     preview := preview m;
     ai_analysis := ai_analysis m;
     engagement_score := engagement_score m;
     likes_count := likes_count m;
     comments_count := comments_count m;
     shares_count := shares_count m;
     views_count := views_count m;
     external_platform_id := external_platform_id m |}.

(** [autoname]: [make_autoname] is the framework's series generator; [fresh]
    is the name it yields. *)
Definition autoname (fresh : pystr) : action unit :=
  self <- get_self ;;
  when (negb (truthy_str (moment_id self)))
    (update_self (set_moment_id (Some fresh))) ;;
  update_self (fun m => set_name (moment_id m) m).

(** Insertion into a list kept in the order [leb]. *)
Fixpoint insert_by {A : Type} (leb : A -> A -> bool) (x : A) (l : list A) : list A :=
  match l with
  | [] => [x]
  | y :: l' => if leb x y then x :: l else y :: insert_by leb x l'
  end.

Definition sort_by {A : Type} (leb : A -> A -> bool) (l : list A) : list A :=
  fold_right (insert_by leb) [] l.

(** The rows of the two queries of [get_moment_details]. *)
Record CommentRow := { c_user : pystr; c_comment : pystr; c_comment_date : timestamp }.
Record LikeRow := { l_user : pystr; l_like_date : timestamp }.

Record MomentDetails := {
  details_moment : Moment;
  details_comments : list CommentRow;
  details_likes : list LikeRow
}.

(** [frappe.get_doc("Moment", {"moment_id": moment_id})]. *)
Definition moment_by_id (d : DB) (id : pystr) : option Moment :=
  find (fun m => opt_str_eqb (moment_id m) (Some id)) (tabMoment d).

(** [WHERE c.moment = name]: a NULL name selects nothing. *)
Definition comments_of (d : DB) (n : option pystr) : list MomentComment :=
  match n with
  | None => []
  | Some _ => filter (fun c => opt_str_eqb (comment_moment c) n) (tabMomentComment d)
  end.

Definition likes_of (d : DB) (n : option pystr) : list MomentLike :=
  match n with
  | None => []
  | Some _ => filter (fun l => opt_str_eqb (like_moment_name l) n) (tabMomentLike d)
  end.

(** [get_moment_details]: without a document of that id, [get_doc] raises.
    The comments come by [comment_date] ascending, the likes by [like_date]
    descending. *)
Definition get_moment_details (id : pystr) : action MomentDetails :=
  d <- get_db ;;
  match moment_by_id d id with
  | None => raise DoesNotExistError
  | Some moment =>
      let comments :=
        map (fun c => {| c_user := comment_user c; c_comment := comment c;
                         c_comment_date := comment_date c |})
          (sort_by (fun a b => (comment_date a <=? comment_date b)%N)
             (comments_of d (name moment))) in
      let likes :=
        map (fun l => {| l_user := like_user l; l_like_date := like_date l |})
          (sort_by (fun a b => (like_date b <=? like_date a)%N)
             (likes_of d (name moment))) in
      ret {| details_moment := moment;
             details_comments := comments;
             details_likes := likes |}
  end.

(** *** Saving and inserting a Moment

    [Document.save] and [Document.insert] of the framework run the hooks
    that the class defines around the write of the row: [save] runs
    [validate], [before_save], the write and [on_update]; for a document
    that is new it is [insert], which names the document ([autoname]) and
    runs [validate], [before_save], the write, [after_insert] and
    [on_update]. The framework's own checks between the hooks (permissions,
    links, mandatory fields) can only raise and are left out.

    [on_update] and [after_insert] call [self.save()] themselves, so a call
    of [save] nests further calls. [depth] is the number of nested calls
    that the interpreter's stack has room for: without room the call raises
    [RecursionError]. [fresh] is the name that the naming series yields. *)

(** A document is new when it has no name, or no row of its name is in the
    table. *)
Definition is_new (d : DB) (self : Moment) : bool :=
  negb (truthy_str (name self))
  || negb (existsb (fun r => opt_str_eqb (name r) (name self)) (tabMoment d)).

Definition insert_hooks (save : action unit) (fresh : pystr) : action unit :=
  autoname fresh ;;
  validate ;;
  before_save ;;
  write_row ;;
  after_insert save ;;
  on_update save.

Definition save_hooks (save : action unit) : action unit :=
  validate ;;
  before_save ;;
  write_row ;;
  on_update save.

Fixpoint save (depth : nat) (fresh : pystr) : action unit :=
  match depth with
  | O => raise RecursionError
  | S depth' =>
      self <- get_self ;;
      d <- get_db ;;
      if is_new d self
      then insert_hooks (save depth' fresh) fresh
      else save_hooks (save depth' fresh)
  end.

Definition insert (depth : nat) (fresh : pystr) : action unit :=
  insert_hooks (save depth fresh) fresh.

(** ** Notions used to state the properties *)

(** The value of a counter, [None] counting as zero. *)
Definition counter (x : option Z) : Z :=
  match x with Some n => n | None => 0%Z end.

(** A Moment Like record exists for the document and the user. *)
Definition liked (d : DB) (self : Moment) (user : pystr) : Prop :=
  exists l, In l (tabMomentLike d) /\ like_moment_name l = name self /\ like_user l = user.

Definition raises {A : Type} (r : state * result A) : Prop :=
  exists msg, snd r = Raise (ValidationError msg).

(** A string attribute is blank when it is [None] or empty. *)
Definition blank (o : option pystr) : Prop := o = None \/ o = Some [].

(** The failure conditions of validation. *)
Definition missing_content (m : Moment) : Prop :=
  blank (content m) /\ attachments m = [].

Definition missing_author (m : Moment) : Prop := blank (author m).

Definition missing_moment_type (m : Moment) : Prop := blank (moment_type m).

Definition oversized_content (m : Moment) : Prop :=
  exists c, content m = Some c /\ 2000 < List.length c.

Definition disallowed_keywords (m : Moment) : Prop :=
  exists c w, content m = Some c /\ In w inappropriate_words /\ occurs w (lower c).

Definition invalid_mention (d : DB) (m : Moment) : Prop :=
  exists rows r, mentions m = MentionRows rows /\ In r rows /\ ~ In (row_user r) (tabUser d).

(** A location that is set but has no latitude or no longitude: [get]
    gives [None] for it. *)
Definition invalid_location (m : Moment) : Prop :=
  location m <> []
  /\ (dict_get (location m) (lit "latitude") = PNone
      \/ dict_get (location m) (lit "longitude") = PNone).

(** The latitude and the longitude, where the location has them, are not
    falsy values (such as 0 on the equator). [validate_location] tests
    truthiness, so it does not tell such a value from a missing one. *)
Definition coordinates_truthy (m : Moment) : Prop :=
  forall k, k = lit "latitude" \/ k = lit "longitude" ->
    dict_get (location m) k = PNone \/ truthy (dict_get (location m) k) = true.

(** The five conditions the specification lists. *)
Definition listed_failure (d : DB) (m : Moment) : Prop :=
  missing_content m \/ missing_author m \/ invalid_mention d m
  \/ oversized_content m \/ disallowed_keywords m.

(** All the conditions under which [validate] throws. *)
Definition validation_failure (d : DB) (m : Moment) : Prop :=
  listed_failure d m \/ missing_moment_type m \/ invalid_location m.

(** The checks of [validate] as one test, for a document whose mentions are
    the child rows [rows]. *)
Definition validation_fails (d : DB) (m : Moment) (rows : list MentionRow) : bool :=
  (negb (truthy_str (content m)) && is_empty (attachments m))
  || negb (truthy_str (author m))
  || negb (truthy_str (moment_type m))
  || match content m with
     | Some ((_ :: _) as c) =>
         (2000 <? List.length c)%nat || contains_inappropriate_content m
     | _ => false
     end
  || existsb (fun r => negb (user_exists d (row_user r))) rows
  || (negb (is_empty (location m))
      && (negb (truthy (dict_get (location m) (lit "latitude")))
          || negb (truthy (dict_get (location m) (lit "longitude"))))).

(** The number of the words of a list that occur in a text, as a relation. *)
Inductive occurrences (text : pystr) : list pystr -> nat -> Prop :=
| occurrences_nil : occurrences text [] 0
| occurrences_hit w ws k :
    occurs w text -> occurrences text ws k -> occurrences text (w :: ws) (S k)
| occurrences_miss w ws k :
    ~ occurs w text -> occurrences text ws k -> occurrences text (w :: ws) k.

(** The bag-of-words reading of the sentiment classifier: the text is cut
    into its words, the maximal runs of word characters, and a listed word
    counts when it is one of them. *)
Fixpoint words_from (cur s : pystr) : list pystr :=
  match s with
  | [] => if is_empty cur then [] else [cur]
  | c :: t =>
      if is_word c then words_from (cur ++ [c]) t
      else if is_empty cur then words_from [] t
      else cur :: words_from [] t
  end.

Definition words_of (s : pystr) : list pystr := words_from [] s.

Definition count_words (words : list pystr) (text : pystr) : nat :=
  List.length (filter (fun word => existsb (Str.eqb word) (words_of text)) words).

Definition sentiment_by_words (self : Moment) : pystr :=
  match content self with
  | Some ((_ :: _) as c) =>
      let content_lower := lower c in
      let positive_count := count_words positive_words content_lower in
      let negative_count := count_words negative_words content_lower in
      if (negative_count <? positive_count)%nat then lit "positive"
      else if (positive_count <? negative_count)%nat then lit "negative"
      else lit "neutral"
  | _ => lit "neutral"
  end.

(** The engagement formula
    [likes*1 + comments*2 + shares*3 + views*0.1], evaluated as Python does:
    the integer part exactly, the weighted views and the final sum in
    binary64. *)
Definition engagement_formula (likes comments shares views : Z) : result float :=
  match int_mul_float views tenth with
  | Ok weighted_views =>
      int_add_float (likes * 1 + comments * 2 + shares * 3) weighted_views
  | Raise e => Raise e
  end.

(** Visibility of a moment to a user. *)
Definition follows (d : DB) (user : pystr) (a : option pystr) : Prop :=
  exists a', a = Some a'
    /\ In {| follower := user; following := a' |} (tabUserFollow d).

Definition same_department (d : DB) (user : pystr) (a : option pystr) : Prop :=
  exists a' dep, a = Some a'
    /\ In {| employee_user := user; department := Some dep |} (tabEmployee d)
    /\ In {| employee_user := a'; department := Some dep |} (tabEmployee d).

Definition visible (d : DB) (user : pystr) (m : Moment) : Prop :=
  privacy m = Some (lit "Public")
  \/ (privacy m = Some (lit "Friends") /\ follows d user (author m))
  \/ (privacy m = Some (lit "Department") /\ same_department d user (author m)).

(** A text is clean when none of the words [analyze_safety] looks for occurs
    in its lowercase form. *)
Definition clean (s : pystr) : Prop :=
  forall w, In w unsafe_words -> ~ occurs w (lower s).

(** A separator is its own lowercase form and is not a lowercase ASCII
    letter, so no listed word runs across it. *)
Definition separator (d : char) : Prop :=
  lower_char d = [d] /\ is_lower d = false.

(** The code points of the emoji of [emoji_map]. *)
Definition emoji_code_points : list char := flat_map snd emoji_map.

(** Emoji have no case: lowering leaves their code points as they are. *)
Definition emoji_caseless : Prop :=
  forall e, In e emoji_code_points -> unicode_lower e = [e].

(** What a match captures is part of the input. *)
Definition captures_input (pat : matcher) : Prop :=
  forall s g rest, pat s = Some (g, rest) -> exists pre, s = pre ++ g ++ rest.

(** A replacement puts no listed word into a text. *)
Definition repl_clean (repl : pystr -> pystr) : Prop :=
  forall a g b, clean a -> clean g -> clean b -> clean (a ++ repl g ++ b).

(** An action that leaves the document as it is, whether it returns or
    raises. *)
Definition keeps_self {A : Type} (a : action A) : Prop :=
  forall s, fst (fst (a s)) = fst s.

(** A match takes at least one character of the input. *)
Definition consumes (pat : matcher) : Prop :=
  forall s g rest, pat s = Some (g, rest) -> List.length rest < List.length s.

(** An action that only writes to the database: it returns and leaves the
    document as it is. *)
Definition db_only (a : action unit) : Prop :=
  forall s, exists d', a s = ((fst s, d'), Ok tt).

(** An action that never returns: whatever the state, it ends in an
    exception. *)
Definition never_returns {A : Type} (a : action A) : Prop :=
  forall s, exists e, snd (a s) = Raise e.

(** The document holds the score [x], and [x] is the score of its
    counters. *)
Definition scored (x : float) (s : state) : Prop :=
  engagement_score (fst s) = Some x /\ calculate_engagement_score (fst s) = Ok x.

(** A text at whose head no run of word characters goes on. *)
Definition ends_word (s : pystr) : Prop :=
  match s with [] => True | c :: _ => is_word c = false end.

(** The matches of the pattern [sigil(\w+)] in a text, as the regular
    expression defines them: the text is read from the left; where the
    sigil is followed by a word character, the longest run of word
    characters after it is a match and reading goes on behind it; any other
    character is passed over. [tags] lists the runs in their order. *)
Inductive tag_matches (sigil : char) : pystr -> list pystr -> Prop :=
| tag_matches_end : tag_matches sigil [] []
| tag_matches_pass (c : char) (s : pystr) (tags : list pystr) :
    c <> sigil \/ ends_word s ->
    tag_matches sigil s tags ->
    tag_matches sigil (c :: s) tags
| tag_matches_tag (g rest : pystr) (tags : list pystr) :
    g <> [] -> Forall (fun c => is_word c = true) g -> ends_word rest ->
    tag_matches sigil rest tags ->
    tag_matches sigil (sigil :: g ++ rest) (g :: tags).

(** ** Further notions *)

(** The order of the feed: a later row is not posted after an earlier one,
    rows without a date being the last. *)
Definition not_posted_after (x y : Moment) : Prop :=
  date_leb (posted_date y) (posted_date x) = true.

(** The row of [get_moment_details] for a comment record and for a like
    record. *)
Definition comment_row (c : MomentComment) : CommentRow :=
  {| c_user := comment_user c; c_comment := comment c; c_comment_date := comment_date c |}.

Definition like_row (l : MomentLike) : LikeRow :=
  {| l_user := like_user l; l_like_date := like_date l |}.

(** An action that leaves the database as it is, whether it returns or
    raises. *)
Definition keeps_db {A : Type} (a : action A) : Prop :=
  forall s, snd (fst (a s)) = snd s.

(** The Hashtag table after one more use of a hashtag at time [t]: a new
    record with one use, or one more use of the first record of that name. *)
Definition record_hashtag (t : timestamp) (rows : list Hashtag) (h : pystr) : list Hashtag :=
  if existsb (fun r => Str.eqb (hashtag r) h) rows
  then bump_hashtag h t rows
  else rows ++ [ {| hashtag := h; usage_count := 1; first_used := t; last_used := t |} ].

(** The Moment Mention record of a mention found in a document. *)
Definition mention_record (self : Moment) (t : timestamp) (u : pystr) : MomentMention :=
  {| mention_moment := name self; mentioned_user := u; mention_date := t |}.

(** The uses counted in the Hashtag table. *)
Definition total_usage (rows : list Hashtag) : Z :=
  fold_right (fun r acc => (usage_count r + acc)%Z) 0%Z rows.

(** The Moment Notification record of a document, written at time [t]. *)
Definition notification (self : Moment) (t : timestamp) (who : pyval) (kind msg : pystr)
  : MomentNotification :=
  {| notif_user := who;
     notif_moment := name self;
     notification_type := kind;
     message := msg;
     is_read := 0;
     created_date := t |}.

Definition mention_notification (self : Moment) (t : timestamp) (u : pystr) : MomentNotification :=
  notification self t (PStr u) (lit "Mention")
    (lit "You were mentioned in a moment by " ++ fmt (author self)).

Definition follower_notification (self : Moment) (t : timestamp) (u : pystr) : MomentNotification :=
  notification self t (PStr u) (lit "New Moment") (fmt (author self) ++ lit " shared a new moment").

Definition department_notification (self : Moment) (t : timestamp) (u : pystr)
  : MomentNotification :=
  notification self t (PStr u) (lit "Department Moment")
    (fmt (author self) ++ lit " shared a moment in your department").

(** The users that [send_department_notifications] writes to. *)
Definition department_audience (d : DB) (a : option pystr) : list pystr :=
  match department_of d a with
  | Some ((_ :: _) as dep) => department_members d dep a
  | _ => []
  end.

(** The moments counted for a user: the count of the user's first User
    Activity row, zero without a row. *)
Definition moments_of (d : DB) (u : option pystr) : Z :=
  match find (fun r => opt_str_eqb (activity_user r) u) (tabUserActivity d) with
  | Some r => moments_count r
  | None => 0%Z
  end.

(** The user has a User Activity row. *)
Definition has_activity (d : DB) (u : option pystr) : Prop :=
  exists r, In r (tabUserActivity d) /\ activity_user r = u.

(** The Moment Activity record of [create_activity_log]. *)
Definition created_record (self : Moment) (t : timestamp) : MomentActivity :=
  {| activity_moment := name self;
     activity_type := lit "Created";
     activity_by := author self;
     activity_date := t;
     description := lit "Created moment: " ++ fmt (moment_id self) |}.

(** An action that leaves an aspect [f] of the state as it is, whether it
    returns or raises. *)
Definition frames {A T : Type} (f : state -> T) (a : action A) : Prop :=
  forall s, f (fst (a s)) = f s.

(** The places of a text where a tag starts: the sigil followed by a word
    character. *)
Fixpoint tag_starts (sigil : char) (s : pystr) : nat :=
  match s with
  | [] => 0
  | c :: t =>
      (if N.eqb c sigil && match t with x :: _ => is_word x | [] => false end
       then 1 else 0)
      + tag_starts sigil t
  end.

(** A text without the characters that content processing acts on: the
    colon of emoji codes and links, and the two sigils. *)
Definition plain (s : pystr) : Prop :=
  ~ In 58%N s /\ ~ In 35%N s /\ ~ In 64%N s.

(** An action that keeps a property of the state, whether it returns or
    raises. *)
Definition preserves {A : Type} (P : state -> Prop) (a : action A) : Prop :=
  forall s, P s -> P (fst (a s)).


(** ** Basic facts *)

Lemma str_eqb_eq (a b : pystr) : Str.eqb a b = true <-> a = b.
Proof.
  revert b. induction a as [|x a IH]; intros [|y b]; simpl; split; intro H;
    try reflexivity; try discriminate.
  - apply andb_true_iff in H. destruct H as [H1 H2].
    apply N.eqb_eq in H1. apply IH in H2. congruence.
  - injection H as -> ->. rewrite N.eqb_refl. simpl. apply IH. reflexivity.
Qed.

Lemma str_eqb_refl (a : pystr) : Str.eqb a a = true.
Proof. apply str_eqb_eq. reflexivity. Qed.

Lemma opt_str_eqb_eq (a b : option pystr) : opt_str_eqb a b = true <-> a = b.
Proof.
  destruct a as [x|], b as [y|]; simpl; split; intro H;
    try reflexivity; try discriminate.
  - apply str_eqb_eq in H. congruence.
  - injection H as ->. apply str_eqb_refl.
Qed.

Lemma or0_counter (x : option Z) : or0 x = counter x.
Proof.
  destruct x as [n|]; simpl; [|reflexivity].
  destruct (Z.eqb_spec n 0); congruence.
Qed.

Lemma liked_iff (d : DB) (self : Moment) (user : pystr) :
  existsb (is_like_of self user) (tabMomentLike d) = true <-> liked d self user.
Proof.
  unfold liked, is_like_of. rewrite existsb_exists. split.
  - intros (l & Hin & H). apply andb_true_iff in H. destruct H as [H1 H2].
    exists l. rewrite opt_str_eqb_eq in H1. rewrite str_eqb_eq in H2. auto.
  - intros (l & Hin & H1 & H2). exists l. split; [assumption|].
    apply andb_true_iff. rewrite opt_str_eqb_eq, str_eqb_eq. auto.
Qed.

Lemma not_liked_iff (d : DB) (self : Moment) (user : pystr) :
  existsb (is_like_of self user) (tabMomentLike d) = false <-> ~ liked d self user.
Proof.
  rewrite <- liked_iff. destruct (existsb _ _); split; intro H;
    try reflexivity; try discriminate; try congruence.
Qed.

(** Unfolding of the state-passing combinators. *)
Ltac run :=
  unfold notify;
  unfold bind, when, ret, throw, raise, lift, get_self, get_db, update_self,
    update_db, now, write_row; cbn [fst snd].

(** Case analysis on the test of the first conditional of the goal. *)
Ltac case_if :=
  match goal with
  | |- context [if ?b then _ else _] => destruct b
  end.

(** ** Strings *)

Lemma strip_prefix_spec (p s rest : pystr) :
  strip_prefix p s = Some rest <-> s = p ++ rest.
Proof.
  revert s. induction p as [|x p IH]; intros s; simpl.
  - split; intro H; congruence.
  - destruct s as [|y s]; [split; discriminate|].
    destruct (N.eqb_spec x y) as [->|Hne].
    + rewrite IH. split; intro H; congruence.
    + split; [discriminate|]. intro H. congruence.
Qed.

Lemma starts_with_spec (p s : pystr) :
  starts_with p s = true <-> exists rest, s = p ++ rest.
Proof.
  unfold starts_with. destruct (strip_prefix p s) as [r|] eqn:E.
  - apply strip_prefix_spec in E. split; eauto.
  - split; [discriminate|]. intros [r Hr].
    apply strip_prefix_spec in Hr. congruence.
Qed.

(** [contains] decides [occurs]. *)
Lemma contains_occurs (w s : pystr) : contains w s = true <-> occurs w s.
Proof.
  unfold occurs. induction s as [|c s IH]; simpl.
  - rewrite orb_false_r, starts_with_spec. split.
    + intros [r Hr]. exists [], r. exact Hr.
    + intros (pre & suf & H). destruct pre as [|x pre]; [|discriminate].
      exists suf. exact H.
  - rewrite orb_true_iff, starts_with_spec, IH. split.
    + intros [[r Hr]|(pre & suf & H)].
      * exists [], r. exact Hr.
      * exists (c :: pre), suf. simpl. congruence.
    + intros (pre & suf & H). destruct pre as [|x pre].
      * left. exists suf. exact H.
      * right. exists pre, suf. simpl in H. congruence.
Qed.

Lemma contains_false (w s : pystr) : contains w s = false <-> ~ occurs w s.
Proof.
  rewrite <- contains_occurs. destruct (contains w s); split; intro H;
    try reflexivity; try discriminate; congruence.
Qed.

Lemma truthy_str_false (o : option pystr) : truthy_str o = false <-> blank o.
Proof.
  unfold blank. destruct o as [[|c s]|]; simpl; split; intro H; auto;
    try discriminate; destruct H; discriminate.
Qed.

Lemma truthy_str_true (o : option pystr) :
  truthy_str o = true <-> exists c s, o = Some (c :: s).
Proof.
  destruct o as [[|c s]|]; simpl; split; intro H; try discriminate; eauto;
    destruct H as (c' & s' & H); discriminate.
Qed.

Lemma is_empty_true {A : Type} (l : list A) : is_empty l = true <-> l = [].
Proof. destruct l; simpl; split; intro H; try reflexivity; discriminate. Qed.

Lemma user_exists_In (d : DB) (u : pystr) : user_exists d u = true <-> In u (tabUser d).
Proof.
  unfold user_exists. rewrite existsb_exists. split.
  - intros (x & Hin & H). apply str_eqb_eq in H. subst. exact Hin.
  - intro H. exists u. split; [exact H | apply str_eqb_refl].
Qed.

Lemma span_app (p : char -> bool) (s a b : pystr) : span p s = (a, b) -> s = a ++ b.
Proof.
  revert a b. induction s as [|c s IH]; intros a b; simpl.
  - intro H. injection H as <- <-. reflexivity.
  - destruct (p c).
    + destruct (span p s) as [a' b'] eqn:E. intro H. injection H as <- <-.
      simpl. f_equal. apply IH. reflexivity.
    + intro H. injection H as <- <-. reflexivity.
Qed.

(** ** The scanning functions never run out of fuel

    Each of them satisfies the equation of the scan it stands for: a match at
    the head is handled and the scan goes on after it, otherwise one
    character is passed over. *)

(** One step of the function on the left of an equation. *)
Ltac unfold_lhs f :=
  match goal with
  | |- ?l = ?r => let l' := eval cbn [f] in l in change (l' = r)
  end.

Lemma strip_prefix_shorter (old s rest : pystr) :
  old <> [] -> strip_prefix old s = Some rest -> List.length rest < List.length s.
Proof.
  intros Hne H. apply strip_prefix_spec in H. subst s.
  destruct old as [|c old]; [congruence|].
  rewrite length_app. simpl. lia.
Qed.

Lemma replace_fuel_stable (old new : pystr) :
  old <> [] ->
  forall n m s, List.length s < n -> List.length s < m ->
  replace_fuel n old new s = replace_fuel m old new s.
Proof.
  intros Hne. induction n as [|n IH]; intros m s Hn Hm; [lia|].
  destruct m as [|m]; [lia|]. simpl.
  destruct (strip_prefix old s) as [rest|] eqn:E.
  - apply (strip_prefix_shorter old s rest Hne) in E.
    f_equal. apply IH; lia.
  - destruct s as [|c t]; [reflexivity|].
    simpl in Hn, Hm. f_equal. apply IH; lia.
Qed.

Lemma replace_equation (old new s : pystr) :
  old <> [] ->
  replace old new s
  = match strip_prefix old s with
    | Some rest => new ++ replace old new rest
    | None =>
        match s with
        | [] => []
        | c :: t => c :: replace old new t
        end
    end.
Proof.
  intro Hne. unfold replace. destruct old as [|o old]; [congruence|].
  unfold_lhs replace_fuel.
  destruct (strip_prefix (o :: old) s) as [rest|] eqn:E.
  - apply (strip_prefix_shorter (o :: old) s rest Hne) in E.
    f_equal. apply replace_fuel_stable; [exact Hne | lia | lia].
  - destruct s as [|c t]; [reflexivity|].
    f_equal; try (apply replace_fuel_stable; [exact Hne | simpl; lia | lia]).
Qed.

Lemma sub_fuel_stable (pat : matcher) (repl : pystr -> pystr) :
  consumes pat ->
  forall n m s, List.length s < n -> List.length s < m ->
  sub_fuel n pat repl s = sub_fuel m pat repl s.
Proof.
  intros Hc. induction n as [|n IH]; intros m s Hn Hm; [lia|].
  destruct m as [|m]; [lia|]. simpl.
  destruct (pat s) as [[g rest]|] eqn:E.
  - apply Hc in E. f_equal. apply IH; lia.
  - destruct s as [|c t]; [reflexivity|].
    simpl in Hn, Hm. f_equal. apply IH; lia.
Qed.

Lemma sub_equation (pat : matcher) (repl : pystr -> pystr) (s : pystr) :
  consumes pat ->
  sub pat repl s
  = match pat s with
    | Some (g, rest) => repl g ++ sub pat repl rest
    | None =>
        match s with
        | [] => []
        | c :: t => c :: sub pat repl t
        end
    end.
Proof.
  intro Hc. unfold sub. unfold_lhs sub_fuel.
  destruct (pat s) as [[g rest]|] eqn:E.
  - apply Hc in E. f_equal. apply sub_fuel_stable; [exact Hc | lia | lia].
  - destruct s as [|c t]; [reflexivity|].
    f_equal; try (apply sub_fuel_stable; [exact Hc | simpl; lia | lia]).
Qed.

Lemma findall_fuel_stable (pat : matcher) :
  consumes pat ->
  forall n m s, List.length s < n -> List.length s < m ->
  findall_fuel n pat s = findall_fuel m pat s.
Proof.
  intros Hc. induction n as [|n IH]; intros m s Hn Hm; [lia|].
  destruct m as [|m]; [lia|]. simpl.
  destruct (pat s) as [[g rest]|] eqn:E.
  - apply Hc in E. f_equal. apply IH; lia.
  - destruct s as [|c t]; [reflexivity|].
    simpl in Hn, Hm. apply IH; lia.
Qed.

Lemma findall_equation (pat : matcher) (s : pystr) :
  consumes pat ->
  findall pat s
  = match pat s with
    | Some (g, rest) => g :: findall pat rest
    | None =>
        match s with
        | [] => []
        | _ :: t => findall pat t
        end
    end.
Proof.
  intro Hc. unfold findall. unfold_lhs findall_fuel.
  destruct (pat s) as [[g rest]|] eqn:E.
  - apply Hc in E. f_equal. apply findall_fuel_stable; [exact Hc | lia | lia].
  - destruct s as [|c t]; [reflexivity|].
    first [reflexivity | apply findall_fuel_stable; [exact Hc | simpl; lia | lia]].
Qed.

Lemma span_length (p : char -> bool) (s a b : pystr) :
  span p s = (a, b) -> List.length b <= List.length s.
Proof.
  revert a b. induction s as [|c s IH]; intros a b; simpl.
  - intro H. injection H as <- <-. simpl. lia.
  - destruct (p c).
    + destruct (span p s) as [a' b'] eqn:E. intro H. injection H as <- <-.
      specialize (IH a' b' eq_refl). lia.
    + intro H. injection H as <- <-. simpl. lia.
Qed.

Lemma match_tag_consumes (sigil : char) : consumes (match_tag sigil).
Proof.
  intros s g rest. unfold match_tag.
  destruct s as [|c t]; [discriminate|].
  destruct (N.eqb c sigil); [|discriminate].
  destruct (span is_word t) as [x r] eqn:E. apply span_length in E.
  destruct x as [|x0 x]; [discriminate|].
  intro H. injection H as <- <-. simpl. lia.
Qed.

(** The group captured by [sigil(\w+)] is the longest run of word characters
    after the sigil. *)
Lemma span_all (p : char -> bool) (s a b : pystr) :
  span p s = (a, b) ->
  Forall (fun c => p c = true) a
  /\ match b with [] => True | c :: _ => p c = false end.
Proof.
  revert a b. induction s as [|c s IH]; intros a b; simpl.
  - intro H. injection H as <- <-. auto.
  - destruct (p c) eqn:Ec.
    + destruct (span p s) as [a' b'] eqn:E. intro H. injection H as <- <-.
      destruct (IH a' b' eq_refl) as [Ha Hb]. auto.
    + intro H. injection H as <- <-. auto.
Qed.

Lemma match_tag_longest (sigil : char) (s g rest : pystr) :
  match_tag sigil s = Some (g, rest) ->
  s = sigil :: g ++ rest
  /\ g <> []
  /\ Forall (fun c => is_word c = true) g
  /\ match rest with [] => True | c :: _ => is_word c = false end.
Proof.
  unfold match_tag. destruct s as [|c t]; [discriminate|].
  destruct (N.eqb_spec c sigil) as [->|]; [|discriminate].
  destruct (span is_word t) as [x r] eqn:E.
  pose proof (span_app is_word t x r E) as Happ.
  pose proof (span_all is_word t x r E) as [Hall Hrest].
  destruct x as [|x0 x]; [discriminate|].
  intro H. injection H as <- <-. subst t.
  repeat split; auto. discriminate.
Qed.

Lemma url_unit_app (s u rest : pystr) : url_unit s = Some (u, rest) -> s = u ++ rest.
Proof.
  unfold url_unit. destruct s as [|c t]; [discriminate|].
  destruct (is_alpha c || is_digit c || url_class3 c || url_class4 c).
  - intro H. injection H as <- <-. reflexivity.
  - destruct (N.eqb c 37); [|discriminate].
    destruct t as [|h1 [|h2 t']]; try discriminate.
    destruct (is_hex h1 && is_hex h2); [|discriminate].
    intro H. injection H as <- <-. reflexivity.
Qed.

Lemma url_units_app (fuel : nat) (s us rest : pystr) :
  url_units fuel s = (us, rest) -> s = us ++ rest.
Proof.
  revert s us rest. induction fuel as [|fuel IH]; intros s us rest; simpl.
  - intro H. injection H as <- <-. reflexivity.
  - destruct (url_unit s) as [[u r]|] eqn:E.
    + apply url_unit_app in E.
      destruct (url_units fuel r) as [us' r'] eqn:E'. apply IH in E'.
      intro H. injection H as <- <-. subst. rewrite <- app_assoc. reflexivity.
    + intro H. injection H as <- <-. reflexivity.
Qed.

Lemma url_tail_app (s m rest : pystr) : url_tail s = Some (m, rest) -> s = m ++ rest.
Proof.
  unfold url_tail. destruct (strip_prefix (lit "://") s) as [s1|] eqn:E; [|discriminate].
  apply strip_prefix_spec in E.
  destruct (url_units (List.length s1) s1) as [us r] eqn:E'. apply url_units_app in E'.
  destruct us as [|u us]; [discriminate|].
  intro H. injection H as <- <-. subst. apply app_assoc.
Qed.

Lemma url_unit_shorter (s u rest : pystr) :
  url_unit s = Some (u, rest) -> u <> [] /\ List.length rest < List.length s.
Proof.
  intro H. pose proof (url_unit_app s u rest H) as Happ. subst s.
  assert (Hu : u <> []).
  { unfold url_unit in H. destruct (u ++ rest) as [|c t]; [discriminate|].
    destruct (is_alpha c || is_digit c || url_class3 c || url_class4 c).
    - injection H as <- _. discriminate.
    - destruct (N.eqb c 37); [|discriminate].
      destruct t as [|h1 [|h2 t']]; try discriminate.
      destruct (is_hex h1 && is_hex h2); [|discriminate].
      injection H as <- _. discriminate. }
  split; [exact Hu|]. rewrite length_app.
  destruct u; [congruence | simpl; lia].
Qed.

(** The loop stops only where no further iteration matches. *)
Lemma url_units_maximal (fuel : nat) (s us rest : pystr) :
  List.length s <= fuel -> url_units fuel s = (us, rest) -> url_unit rest = None.
Proof.
  revert s us rest. induction fuel as [|fuel IH]; intros s us rest Hlen; simpl.
  - destruct s; [|simpl in Hlen; lia]. intro H. injection H as _ <-. reflexivity.
  - destruct (url_unit s) as [[u r]|] eqn:E.
    + apply url_unit_shorter in E. destruct E as [_ E].
      destruct (url_units fuel r) as [us' r'] eqn:E'.
      intro H. injection H as _ <-. apply (IH r us' r'); [lia | exact E'].
    + intro H. injection H as _ <-. exact E.
Qed.

Lemma url_pattern_app (s g rest : pystr) :
  url_pattern s = Some (g, rest) -> s = g ++ rest /\ g <> [].
Proof.
  unfold url_pattern.
  destruct (strip_prefix (lit "http") s) as [s0|] eqn:E0; [|discriminate].
  apply strip_prefix_spec in E0.
  assert (Hwithout :
    match url_tail s0 with
    | Some (m, rest0) => Some (lit "http" ++ m, rest0)
    | None => None
    end = Some (g, rest) -> s = g ++ rest /\ g <> []).
  { destruct (url_tail s0) as [[m r]|] eqn:E1; [|discriminate].
    apply url_tail_app in E1. intro H. injection H as <- <-.
    split; [subst; apply app_assoc | discriminate]. }
  destruct (strip_prefix (lit "s") s0) as [s1|] eqn:E1; [|exact Hwithout].
  apply strip_prefix_spec in E1.
  destruct (url_tail s1) as [[m r]|] eqn:E2; [|exact Hwithout].
  apply url_tail_app in E2. intro H. injection H as <- <-.
  split; [subst; reflexivity | discriminate].
Qed.

Lemma url_pattern_consumes : consumes url_pattern.
Proof.
  intros s g rest H. apply url_pattern_app in H. destruct H as [-> Hg].
  rewrite length_app. destruct g; [congruence | simpl; lia].
Qed.

(** ** Reasoning about the hooks

    Three ways to follow a property through the steps of a method: an
    aspect of the state that an action leaves alone ([frames]), a property
    of the state that it keeps ([preserves]), and an action that never
    returns ([never_returns]). *)

Lemma frames_ret {A T : Type} (f : state -> T) (x : A) : frames f (ret x).
Proof. intros s. reflexivity. Qed.

Lemma frames_raise {A T : Type} (f : state -> T) (e : exn) : frames f (@raise A e).
Proof. intros s. reflexivity. Qed.

Lemma frames_throw {A T : Type} (f : state -> T) (msg : pystr) : frames f (@throw A msg).
Proof. intros s. reflexivity. Qed.

Lemma frames_lift {A T : Type} (f : state -> T) (r : result A) : frames f (lift r).
Proof. intros s. reflexivity. Qed.

Lemma frames_get_self {T : Type} (f : state -> T) : frames f get_self.
Proof. intros s. reflexivity. Qed.

Lemma frames_get_db {T : Type} (f : state -> T) : frames f get_db.
Proof. intros s. reflexivity. Qed.

Lemma frames_now {T : Type} (f : state -> T) : frames f now.
Proof. intros s. reflexivity. Qed.

Lemma frames_bind {A B T : Type} (f : state -> T) (a : action A) (k : A -> action B) :
  frames f a -> (forall x, frames f (k x)) -> frames f (bind a k).
Proof.
  intros Ha Hk s. unfold bind. specialize (Ha s).
  destruct (a s) as [s1 [x|e]]; cbn [fst] in *.
  - rewrite Hk. exact Ha.
  - exact Ha.
Qed.

Lemma frames_when {T : Type} (f : state -> T) (c : bool) (body : action unit) :
  frames f body -> frames f (when c body).
Proof. intro H. destruct c; [exact H | apply frames_ret]. Qed.

Lemma frames_for_each {A T : Type} (f : state -> T) (l : list A) (body : A -> action unit) :
  (forall x, frames f (body x)) -> frames f (for_each l body).
Proof.
  intro H. induction l as [|x l IH]; cbn [for_each].
  - apply frames_ret.
  - apply frames_bind; [apply H | intros _; exact IH].
Qed.

Lemma frames_update_db {T : Type} (f : state -> T) (g : DB -> DB) :
  (forall m d, f (m, g d) = f (m, d)) -> frames f (update_db g).
Proof. intros H [m d]. apply H. Qed.

Lemma frames_update_self {T : Type} (f : state -> T) (g : Moment -> Moment) :
  (forall m d, f (g m, d) = f (m, d)) -> frames f (update_self g).
Proof. intros H [m d]. apply H. Qed.

Lemma frames_write_row {T : Type} (f : state -> T) :
  (forall m d rows, f (m, set_tabMoment rows d) = f (m, d)) -> frames f write_row.
Proof. intros H [m d]. apply H. Qed.

Lemma frames_get_doc {R T : Type} (f : state -> T) (p : R -> bool) (rows : list R) :
  frames f (get_doc p rows).
Proof. intros s. unfold get_doc. destruct (find p rows); reflexivity. Qed.

Create HintDb framed.

#[local] Hint Resolve frames_ret frames_raise frames_throw frames_lift
  frames_get_self frames_get_db frames_now frames_get_doc : framed.

Ltac framed :=
  repeat first
    [ progress intros
    | solve [auto with framed]
    | apply frames_bind
    | apply frames_when
    | apply frames_for_each
    | apply frames_update_db; intros; reflexivity
    | apply frames_update_self; intros; reflexivity
    | apply frames_write_row; intros; reflexivity
    | match goal with
      | |- frames _ (match ?x with _ => _ end) => destruct x
      | |- frames _ (if ?b then _ else _) => destruct b
      end ].


Lemma preserves_ret {A : Type} (P : state -> Prop) (x : A) : preserves P (ret x).
Proof. intros s H. exact H. Qed.

Lemma preserves_raise {A : Type} (P : state -> Prop) (e : exn) : preserves P (@raise A e).
Proof. intros s H. exact H. Qed.

Lemma preserves_throw {A : Type} (P : state -> Prop) (msg : pystr) :
  preserves P (@throw A msg).
Proof. intros s H. exact H. Qed.

Lemma preserves_lift {A : Type} (P : state -> Prop) (r : result A) : preserves P (lift r).
Proof. intros s H. exact H. Qed.

Lemma preserves_get_self (P : state -> Prop) : preserves P get_self.
Proof. intros s H. exact H. Qed.

Lemma preserves_get_db (P : state -> Prop) : preserves P get_db.
Proof. intros s H. exact H. Qed.

Lemma preserves_now (P : state -> Prop) : preserves P now.
Proof. intros s H. exact H. Qed.

Lemma preserves_bind {A B : Type} (P : state -> Prop) (a : action A) (k : A -> action B) :
  preserves P a -> (forall x, preserves P (k x)) -> preserves P (bind a k).
Proof.
  intros Ha Hk s H. unfold bind. specialize (Ha s H).
  destruct (a s) as [s1 [x|e]]; cbn [fst] in *.
  - apply Hk. exact Ha.
  - exact Ha.
Qed.

Lemma preserves_when (P : state -> Prop) (c : bool) (body : action unit) :
  preserves P body -> preserves P (when c body).
Proof. intro H. destruct c; [exact H | apply preserves_ret]. Qed.

Lemma preserves_for_each {A : Type} (P : state -> Prop) (l : list A)
    (body : A -> action unit) :
  (forall x, preserves P (body x)) -> preserves P (for_each l body).
Proof.
  intro H. induction l as [|x l IH]; cbn [for_each].
  - apply preserves_ret.
  - apply preserves_bind; [apply H | intros _; exact IH].
Qed.

Lemma preserves_update_db (P : state -> Prop) (g : DB -> DB) :
  (forall m d, P (m, d) -> P (m, g d)) -> preserves P (update_db g).
Proof. intros H [m d]. apply H. Qed.

Lemma preserves_update_self (P : state -> Prop) (g : Moment -> Moment) :
  (forall m d, P (m, d) -> P (g m, d)) -> preserves P (update_self g).
Proof. intros H [m d]. apply H. Qed.


Lemma preserves_get_doc {R : Type} (P : state -> Prop) (p : R -> bool) (rows : list R) :
  preserves P (get_doc p rows).
Proof. intros s H. unfold get_doc. destruct (find p rows); exact H. Qed.

Lemma preserves_write_row (P : state -> Prop) :
  (forall m d, P (m, d) -> P (m, set_tabMoment (upsert m (tabMoment d)) d)) ->
  preserves P write_row.
Proof. intros H [m d]. apply H. Qed.

Create HintDb kept.

#[local] Hint Resolve preserves_ret preserves_raise preserves_throw preserves_lift
  preserves_get_self preserves_get_db preserves_now preserves_get_doc : kept.

Ltac kept :=
  repeat first
    [ progress intros
    | solve [auto with kept]
    | apply preserves_bind
    | apply preserves_when
    | apply preserves_for_each
    | apply preserves_update_db;
      let H := fresh in intros ? ? H; exact H
    | apply preserves_update_self;
      let H := fresh in intros ? ? H; exact H
    | apply preserves_write_row;
      let H := fresh in intros ? ? H; exact H
    | match goal with
      | |- preserves _ (match ?x with _ => _ end) => destruct x
      | |- preserves _ (if ?b then _ else _) => destruct b
      end ].


Lemma never_returns_raise {A : Type} (e : exn) : never_returns (@raise A e).
Proof. intros s. exists e. reflexivity. Qed.

Lemma never_returns_first {A B : Type} (a : action A) (k : A -> action B) :
  never_returns a -> never_returns (bind a k).
Proof.
  intros Ha s. unfold bind. destruct (Ha s) as [e He].
  destruct (a s) as [s1 [x|e1]]; cbn [snd] in *; [discriminate|].
  exists e1. reflexivity.
Qed.

Lemma never_returns_then {A B : Type} (a : action A) (k : A -> action B) :
  (forall x, never_returns (k x)) -> never_returns (bind a k).
Proof.
  intros Hk s. unfold bind.
  destruct (a s) as [s1 [x|e1]]; [apply Hk | exists e1; reflexivity].
Qed.

(** *** [save] never returns

    [process_ai_analysis] stops at [now().isoformat()], so [after_insert]
    and with it [insert] end in an exception. [update_engagement_metrics]
    ends with [self.save()], which runs [on_update] and with it
    [update_engagement_metrics] again: the calls nest until a hook raises
    or the stack runs out. *)

Lemma process_ai_analysis_run (save : action unit) (s : state) :
  process_ai_analysis save s = (s, Raise AttributeError).
Proof. destruct s. reflexivity. Qed.

Lemma never_returns_process_ai_analysis (save : action unit) :
  never_returns (process_ai_analysis save).
Proof. intros s. exists AttributeError. rewrite process_ai_analysis_run. reflexivity. Qed.

Lemma never_returns_after_insert (save : action unit) : never_returns (after_insert save).
Proof.
  unfold after_insert.
  do 3 (apply never_returns_then; intros _).
  apply never_returns_process_ai_analysis.
Qed.

Lemma never_returns_update_engagement_metrics (save : action unit) :
  never_returns save -> never_returns (update_engagement_metrics save).
Proof.
  intro H. unfold update_engagement_metrics.
  do 3 (apply never_returns_then; intros ?). exact H.
Qed.

Lemma never_returns_on_update (save : action unit) :
  never_returns save -> never_returns (on_update save).
Proof.
  intro H. unfold on_update. apply never_returns_first.
  apply never_returns_update_engagement_metrics. exact H.
Qed.

Lemma never_returns_insert_hooks (save : action unit) (fresh : pystr) :
  never_returns (insert_hooks save fresh).
Proof.
  unfold insert_hooks.
  do 4 (apply never_returns_then; intros _).
  apply never_returns_first. apply never_returns_after_insert.
Qed.

Lemma never_returns_save_hooks (save : action unit) :
  never_returns save -> never_returns (save_hooks save).
Proof.
  intro H. unfold save_hooks.
  do 3 (apply never_returns_then; intros _).
  apply never_returns_on_update. exact H.
Qed.

Lemma never_returns_save (depth : nat) (fresh : pystr) : never_returns (save depth fresh).
Proof.
  induction depth as [|depth IH]; cbn [save].
  - apply never_returns_raise.
  - apply never_returns_then. intro self. apply never_returns_then. intro d.
    destruct (is_new d self).
    + apply never_returns_insert_hooks.
    + apply never_returns_save_hooks. exact IH.
Qed.

(** ** Hashtags and mentions in a text *)

Lemma match_tag_none (sigil c : char) (t : pystr) :
  match_tag sigil (c :: t) = None
  <-> c <> sigil \/ match t with [] => True | x :: _ => is_word x = false end.
Proof.
  unfold match_tag. destruct (N.eqb_spec c sigil) as [->|Hne].
  - destruct t as [|x t]; cbn [span].
    + split; auto.
    + destruct (is_word x) eqn:Ex.
      * destruct (span is_word t) as [a b]. split; [discriminate|].
        intros [H|H]; congruence.
      * split; auto.
  - split; auto.
Qed.

Lemma tag_starts_skip (sigil : char) (g rest : pystr) :
  ~ In sigil g -> g <> [] -> tag_starts sigil (g ++ rest) = tag_starts sigil rest.
Proof.
  induction g as [|c g IH]; intros Hin Hne; [congruence|].
  cbn [app tag_starts].
  destruct (N.eqb_spec c sigil) as [->|Hc]; [exfalso; apply Hin; left; reflexivity|].
  cbn [andb Nat.add]. destruct g as [|c' g]; [reflexivity|].
  apply IH; [|discriminate]. intro H. apply Hin. right. exact H.
Qed.

Lemma word_run_no_sigil (sigil : char) (g : pystr) :
  is_word sigil = false -> Forall (fun c => is_word c = true) g -> ~ In sigil g.
Proof.
  intros Hs Hg Hin. rewrite Forall_forall in Hg. apply Hg in Hin. congruence.
Qed.

(** The tags that [findall] collects: each is a longest run of word
    characters after the sigil. *)
Lemma findall_tag_sound (sigil : char) (n : nat) :
  forall s g, List.length s <= n ->
  In g (findall (match_tag sigil) s) ->
  g <> [] /\ Forall (fun c => is_word c = true) g
  /\ exists pre suf, s = pre ++ sigil :: g ++ suf
                     /\ match suf with [] => True | c :: _ => is_word c = false end.
Proof.
  induction n as [|n IH]; intros s g Hlen.
  - destruct s; [|simpl in Hlen; lia]. intros [].
  - rewrite (findall_equation _ s (match_tag_consumes sigil)).
    destruct (match_tag sigil s) as [[g0 rest]|] eqn:E.
    + pose proof (match_tag_consumes sigil s g0 rest E) as Hshort.
      apply match_tag_longest in E. destruct E as (Hs & Hne & Hall & Hend).
      intros [<-|Hin].
      * split; [exact Hne|]. split; [exact Hall|].
        exists [], rest. split; [exact Hs | exact Hend].
      * destruct (IH rest g ltac:(lia) Hin) as (G1 & G2 & pre & suf & Hr & Hsuf).
        split; [exact G1|]. split; [exact G2|].
        exists (sigil :: g0 ++ pre), suf. split; [|exact Hsuf].
        rewrite Hs, Hr. cbn [app]. rewrite <- app_assoc. reflexivity.
    + destruct s as [|c t]; [intros []|]. intro Hin.
      destruct (IH t g ltac:(simpl in Hlen; lia) Hin) as (G1 & G2 & pre & suf & Hr & Hsuf).
      split; [exact G1|]. split; [exact G2|].
      exists (c :: pre), suf. split; [|exact Hsuf]. rewrite Hr. reflexivity.
Qed.

(** No tag is missed: [findall] collects one at each place where a tag
    starts. *)
Lemma findall_tag_count (sigil : char) (n : nat) :
  is_word sigil = false ->
  forall s, List.length s <= n ->
  List.length (findall (match_tag sigil) s) = tag_starts sigil s.
Proof.
  intro Hsig. induction n as [|n IH]; intros s Hlen.
  - destruct s; [reflexivity | simpl in Hlen; lia].
  - rewrite (findall_equation _ s (match_tag_consumes sigil)).
    destruct (match_tag sigil s) as [[g0 rest]|] eqn:E.
    + pose proof (match_tag_consumes sigil s g0 rest E) as Hshort.
      apply match_tag_longest in E. destruct E as (Hs & Hne & Hall & Hend).
      cbn [List.length]. rewrite (IH rest) by lia. subst s.
      cbn [tag_starts]. rewrite N.eqb_refl.
      rewrite (tag_starts_skip sigil g0 rest (word_run_no_sigil _ _ Hsig Hall) Hne).
      destruct g0 as [|x g0]; [congruence|]. cbn [app].
      inversion Hall as [|? ? Hx _]. rewrite Hx. reflexivity.
    + destruct s as [|c t]; [reflexivity|].
      rewrite (IH t) by (simpl in Hlen; lia). cbn [tag_starts].
      apply match_tag_none in E.
      destruct (N.eqb_spec c sigil) as [->|Hc]; [|reflexivity].
      destruct E as [E|E]; [congruence|].
      destruct t as [|x t]; [reflexivity|]. rewrite E. reflexivity.
Qed.

Lemma sigils_not_words : is_word 35 = false /\ is_word 64 = false.
Proof. split; reflexivity. Qed.

(** X24. Every hashtag that [extract_hashtags] finds in a text, and every
    mention that [extract_mentions] finds, is a non-empty run of word
    characters that follows its sigil in the text and ends where the word
    characters end. *)
Theorem found_tags_are_words (s g : pystr) :
  (In g (findall hashtag_pattern s) ->
     g <> [] /\ Forall (fun c => is_word c = true) g
     /\ exists pre suf, s = pre ++ 35%N :: g ++ suf
                        /\ match suf with [] => True | c :: _ => is_word c = false end)
  /\ (In g (findall mention_pattern s) ->
     g <> [] /\ Forall (fun c => is_word c = true) g
     /\ exists pre suf, s = pre ++ 64%N :: g ++ suf
                        /\ match suf with [] => True | c :: _ => is_word c = false end).
Proof.
  split; apply (findall_tag_sound _ (List.length s)); apply le_n.
Qed.

(** X25. No hashtag and no mention is missed: the number of hashtags found
    in a text is the number of places where a '#' is followed by a word
    character, and likewise for mentions and '@'. *)
Theorem found_tags_count (s : pystr) :
  List.length (findall hashtag_pattern s) = tag_starts 35 s
  /\ List.length (findall mention_pattern s) = tag_starts 64 s.
Proof.
  split; apply (findall_tag_count _ (List.length s)); try apply le_n;
    apply sigils_not_words.
Qed.

(** *** Plain text *)

Lemma strip_prefix_head (o : char) (old s : pystr) :
  ~ In o s -> strip_prefix (o :: old) s = None.
Proof.
  intro H. destruct s as [|c t]; [reflexivity|]. cbn [strip_prefix].
  destruct (N.eqb_spec o c) as [->|]; [|reflexivity].
  exfalso. apply H. left. reflexivity.
Qed.

Lemma replace_absent (o : char) (old new s : pystr) :
  ~ In o s -> replace (o :: old) new s = s.
Proof.
  induction s as [|c t IH]; intro H.
  - reflexivity.
  - rewrite replace_equation by discriminate.
    rewrite (strip_prefix_head o old (c :: t) H).
    rewrite IH; [reflexivity|]. intro Hin. apply H. right. exact Hin.
Qed.

Lemma fold_replace_absent (o : char) (entries : list (pystr * pystr)) (s : pystr) :
  Forall (fun e => exists t, fst e = o :: t) entries -> ~ In o s ->
  fold_left (fun c (e : pystr * pystr) => replace (fst e) (snd e) c) entries s = s.
Proof.
  intros He Hs. induction He as [|[a b] entries [t Ht] _ IH]; cbn [fold_left]; [reflexivity|].
  cbn [fst snd] in *. subst a. rewrite (replace_absent o t b s Hs). exact IH.
Qed.

Lemma emoji_codes_colon : Forall (fun e => exists t, fst e = 58%N :: t) emoji_map.
Proof. unfold emoji_map. repeat constructor; eexists; reflexivity. Qed.

Lemma process_emojis_absent (s : pystr) : ~ In 58%N s -> process_emojis s = s.
Proof. apply fold_replace_absent. exact emoji_codes_colon. Qed.

Lemma sub_no_match (pat : matcher) (repl : pystr -> pystr) (s : pystr) :
  consumes pat ->
  (forall pre suf, s = pre ++ suf -> pat suf = None) ->
  sub pat repl s = s.
Proof.
  intros Hc. induction s as [|c t IH]; intro H; rewrite sub_equation by exact Hc.
  - rewrite (H [] [] eq_refl). reflexivity.
  - rewrite (H [] (c :: t) eq_refl). f_equal. apply IH.
    intros pre suf ->. apply (H (c :: pre) suf). reflexivity.
Qed.

Lemma findall_no_match (pat : matcher) (s : pystr) :
  consumes pat ->
  (forall pre suf, s = pre ++ suf -> pat suf = None) ->
  findall pat s = [].
Proof.
  intros Hc. induction s as [|c t IH]; intro H; rewrite findall_equation by exact Hc.
  - rewrite (H [] [] eq_refl). reflexivity.
  - rewrite (H [] (c :: t) eq_refl). apply IH.
    intros pre suf ->. apply (H (c :: pre) suf). reflexivity.
Qed.

Lemma match_tag_absent (sigil : char) (s : pystr) :
  ~ In sigil s -> match_tag sigil s = None.
Proof.
  intro H. destruct s as [|c t]; [reflexivity|]. apply match_tag_none. left.
  intros ->. apply H. left. reflexivity.
Qed.

Lemma url_tail_absent (s : pystr) : ~ In 58%N s -> url_tail s = None.
Proof.
  intro H. unfold url_tail.
  destruct (strip_prefix (lit "://") s) as [s1|] eqn:E; [|reflexivity].
  apply strip_prefix_spec in E. subst s. exfalso. apply H. left. reflexivity.
Qed.

Lemma url_pattern_absent (s : pystr) : ~ In 58%N s -> url_pattern s = None.
Proof.
  intro H. unfold url_pattern.
  destruct (strip_prefix (lit "http") s) as [s0|] eqn:E; [|reflexivity].
  apply strip_prefix_spec in E. subst s.
  assert (H0 : ~ In 58%N s0) by (intro Hin; apply H; apply in_or_app; right; exact Hin).
  rewrite (url_tail_absent s0 H0).
  destruct (strip_prefix (lit "s") s0) as [s1|] eqn:E1; [|reflexivity].
  apply strip_prefix_spec in E1. subst s0.
  rewrite url_tail_absent; [reflexivity|].
  intro Hin. apply H0. apply in_or_app. right. exact Hin.
Qed.

Lemma absent_suffix (c : char) (s pre suf : pystr) :
  ~ In c s -> s = pre ++ suf -> ~ In c suf.
Proof. intros H -> Hin. apply H. apply in_or_app. right. exact Hin. Qed.

(** X26. A text without a colon, a '#' and an '@' goes through content
    processing unchanged, and no hashtag and no mention is found in it. *)
Theorem plain_text_unchanged (c : pystr) :
  plain c ->
  processed c = c
  /\ findall hashtag_pattern c = []
  /\ findall mention_pattern c = [].
Proof.
  intros (Hcolon & Hhash & Hat).
  assert (Eh : forall s, ~ In 35%N s -> forall pre suf, s = pre ++ suf ->
                 hashtag_pattern suf = None).
  { intros s Hs pre suf E. apply match_tag_absent. exact (absent_suffix _ _ _ _ Hs E). }
  assert (Em : forall s, ~ In 64%N s -> forall pre suf, s = pre ++ suf ->
                 mention_pattern suf = None).
  { intros s Hs pre suf E. apply match_tag_absent. exact (absent_suffix _ _ _ _ Hs E). }
  split; [|split].
  - unfold processed, process_links, process_hashtags, process_mentions.
    rewrite (process_emojis_absent c Hcolon).
    rewrite (sub_no_match url_pattern link_repl c url_pattern_consumes).
    + rewrite (sub_no_match hashtag_pattern hashtag_repl c (match_tag_consumes 35)
                 (Eh c Hhash)).
      apply (sub_no_match mention_pattern mention_repl c (match_tag_consumes 64)
               (Em c Hat)).
    + intros pre suf E. apply url_pattern_absent. exact (absent_suffix _ _ _ _ Hcolon E).
  - apply (findall_no_match hashtag_pattern c (match_tag_consumes 35) (Eh c Hhash)).
  - apply (findall_no_match mention_pattern c (match_tag_consumes 64) (Em c Hat)).
Qed.

(** *** Tags under content processing *)

Lemma not_in_dec (c : char) (l : pystr) : existsb (N.eqb c) l = false -> ~ In c l.
Proof.
  intros H Hin. assert (existsb (N.eqb c) l = true); [|congruence].
  apply existsb_exists. exists c. split; [exact Hin | apply N.eqb_refl].
Qed.

Lemma findall_skip (sigil : char) (pre rest : pystr) :
  ~ In sigil pre ->
  findall (match_tag sigil) (pre ++ rest) = findall (match_tag sigil) rest.
Proof.
  induction pre as [|c pre IH]; intro H; [reflexivity|]. cbn [app].
  rewrite findall_equation by apply match_tag_consumes.
  assert (E : match_tag sigil (c :: pre ++ rest) = None).
  { apply match_tag_none. left. intros ->. apply H. left. reflexivity. }
  rewrite E. apply IH. intro Hin. apply H. right. exact Hin.
Qed.

Lemma sub_skip (sigil : char) (repl : pystr -> pystr) (pre rest : pystr) :
  ~ In sigil pre ->
  sub (match_tag sigil) repl (pre ++ rest) = pre ++ sub (match_tag sigil) repl rest.
Proof.
  induction pre as [|c pre IH]; intro H; [reflexivity|]. cbn [app].
  rewrite sub_equation by apply match_tag_consumes.
  assert (E : match_tag sigil (c :: pre ++ rest) = None).
  { apply match_tag_none. left. intros ->. apply H. left. reflexivity. }
  rewrite E. f_equal. apply IH. intro Hin. apply H. right. exact Hin.
Qed.

Lemma span_word_run (x rest : pystr) :
  Forall (fun c => is_word c = true) x -> ends_word rest ->
  span is_word (x ++ rest) = (x, rest).
Proof.
  intros Hx Hr. induction Hx as [|c x Hc _ IH]; cbn [app].
  - destruct rest as [|r rest]; [reflexivity|]. cbn [span]. cbn in Hr. rewrite Hr.
    reflexivity.
  - cbn [span]. rewrite Hc, IH. reflexivity.
Qed.

Lemma match_tag_run (sigil : char) (x rest : pystr) :
  x <> [] -> Forall (fun c => is_word c = true) x -> ends_word rest ->
  match_tag sigil (sigil :: x ++ rest) = Some (x, rest).
Proof.
  intros Hne Hx Hr. unfold match_tag. rewrite N.eqb_refl.
  rewrite (span_word_run x rest Hx Hr). destruct x; [congruence | reflexivity].
Qed.

Lemma match_tag_ends (sigil : char) (t : pystr) :
  ends_word t -> match_tag sigil (sigil :: t) = None.
Proof. intro H. apply match_tag_none. right. exact H. Qed.

Lemma span_split (t : pystr) :
  exists x rest, t = x ++ rest /\ Forall (fun c => is_word c = true) x /\ ends_word rest.
Proof.
  destruct (span is_word t) as [x rest] eqn:E. exists x, rest.
  split; [exact (span_app _ _ _ _ E)|]. exact (span_all _ _ _ _ E).
Qed.

Lemma sub_ends_word (sigil : char) (repl : pystr -> pystr) (s : pystr) :
  (forall g, exists r0 r, repl g = r0 :: r /\ is_word r0 = false) ->
  ends_word s -> ends_word (sub (match_tag sigil) repl s).
Proof.
  intros Hrepl Hs. rewrite sub_equation by apply match_tag_consumes.
  destruct (match_tag sigil s) as [[g rest]|].
  - destruct (Hrepl g) as (r0 & r & -> & Hr). exact Hr.
  - destruct s as [|c t]; [exact I | exact Hs].
Qed.

(** Replacing each tag by a link that shows the tag once, after its sigil,
    leaves the tags of the text what they were. *)
Lemma findall_sub_same (sigil a0 c0 : char) (A B C : pystr) (repl : pystr -> pystr) :
  is_word sigil = false -> is_word a0 = false -> is_word c0 = false ->
  ~ In sigil (a0 :: A) -> ~ In sigil B -> ~ In sigil (c0 :: C) ->
  (forall g, repl g = (a0 :: A) ++ g ++ B ++ sigil :: g ++ c0 :: C) ->
  forall n s, List.length s <= n ->
  findall (match_tag sigil) (sub (match_tag sigil) repl s) = findall (match_tag sigil) s.
Proof.
  intros Hsig Ha0 Hc0 HA HB HC Hrepl.
  assert (Hhead : forall g, exists r0 r, repl g = r0 :: r /\ is_word r0 = false).
  { intro g. rewrite Hrepl. cbn [app]. eauto. }
  induction n as [|n IH]; intros s Hlen.
  - destruct s; [reflexivity | simpl in Hlen; lia].
  - rewrite sub_equation by apply match_tag_consumes.
    rewrite (findall_equation _ s (match_tag_consumes sigil)).
    destruct (match_tag sigil s) as [[g rest]|] eqn:E.
    + pose proof (match_tag_consumes sigil s g rest E) as Hshort.
      apply match_tag_longest in E. destruct E as (Hs & Hne & Hall & Hend).
      rewrite Hrepl, <- !app_assoc.
      rewrite findall_skip by exact HA.
      rewrite findall_skip by exact (word_run_no_sigil _ _ Hsig Hall).
      rewrite findall_skip by exact HB.
      cbn [app]. rewrite <- app_assoc.
      rewrite findall_equation by apply match_tag_consumes.
      rewrite (match_tag_run sigil g _ Hne Hall) by exact Hc0.
      f_equal.
      change (c0 :: C ++ sub (match_tag sigil) repl rest)
        with ((c0 :: C) ++ sub (match_tag sigil) repl rest).
      rewrite findall_skip by exact HC. apply IH. lia.
    + destruct s as [|c t]; [reflexivity|].
      assert (E' : match_tag sigil (c :: sub (match_tag sigil) repl t) = None).
      { apply match_tag_none. apply match_tag_none in E. destruct E as [E|E]; [left; exact E|].
        right. exact (sub_ends_word sigil repl t Hhead E). }
      rewrite findall_equation by apply match_tag_consumes.
      rewrite E'. apply IH. simpl in Hlen. lia.
Qed.

(** Replacing the tags of another sigil by links that hold no [sigil]
    leaves the tags of [sigil] what they were. *)
Lemma findall_sub_other (sigil other : char) (repl : pystr -> pystr) :
  is_word sigil = false -> is_word other = false -> sigil <> other ->
  (forall g, exists r0 r, repl g = r0 :: r /\ is_word r0 = false) ->
  (forall g, ~ In sigil g -> ~ In sigil (repl g)) ->
  forall n s, List.length s <= n ->
  findall (match_tag sigil) (sub (match_tag other) repl s) = findall (match_tag sigil) s.
Proof.
  intros Hsig Hoth Hdiff Hhead Hclean.
  induction n as [|n IH]; intros s Hlen.
  - destruct s; [reflexivity | simpl in Hlen; lia].
  - rewrite sub_equation by apply match_tag_consumes.
    destruct (match_tag other s) as [[g rest]|] eqn:E.
    + pose proof (match_tag_consumes other s g rest E) as Hshort.
      apply match_tag_longest in E. destruct E as (Hs & Hne & Hall & Hend).
      pose proof (word_run_no_sigil _ _ Hsig Hall) as Hg.
      rewrite findall_skip by exact (Hclean g Hg).
      rewrite (IH rest) by lia. subst s.
      change (other :: g ++ rest) with ((other :: g) ++ rest).
      rewrite findall_skip; [reflexivity|].
      intros [H|H]; [congruence | exact (Hg H)].
    + destruct s as [|c t]; [reflexivity|]. simpl in Hlen.
      destruct (N.eqb_spec c sigil) as [->|Hc].
      * destruct (span_split t) as (x & rest & Ht & Hx & Hrest).
        pose proof (word_run_no_sigil _ _ Hoth Hx) as Hxo.
        assert (Hsub : sub (match_tag other) repl t
                       = x ++ sub (match_tag other) repl rest)
          by (rewrite Ht; apply sub_skip; exact Hxo).
        pose proof (sub_ends_word other repl rest Hhead Hrest) as Hrest'.
        rewrite Hsub, Ht.
        rewrite findall_equation by apply match_tag_consumes.
        rewrite (findall_equation _ (sigil :: x ++ rest)) by apply match_tag_consumes.
        destruct x as [|x0 x].
        -- cbn [app]. rewrite (match_tag_ends sigil _ Hrest'), (match_tag_ends sigil _ Hrest).
           apply IH. subst t. cbn [app] in Hlen. lia.
        -- rewrite (match_tag_run sigil (x0 :: x) _ ltac:(discriminate) Hx Hrest').
           rewrite (match_tag_run sigil (x0 :: x) _ ltac:(discriminate) Hx Hrest).
           f_equal. apply IH. subst t. rewrite length_app in Hlen. lia.
      * rewrite findall_equation by apply match_tag_consumes.
        rewrite (findall_equation _ (c :: t)) by apply match_tag_consumes.
        assert (E1 : forall u, match_tag sigil (c :: u) = None)
          by (intro u; apply match_tag_none; left; exact Hc).
        rewrite !E1. apply IH. lia.
Qed.

Lemma hashtag_repl_shape (g : pystr) :
  hashtag_repl g
  = (60%N :: lit "a href=" ++ [dq] ++ lit "/hashtag/") ++ g
    ++ ([dq] ++ lit " class=" ++ [dq] ++ lit "hashtag" ++ [dq] ++ lit ">")
    ++ 35%N :: g ++ 60%N :: lit "/a>".
Proof. unfold hashtag_repl. rewrite <- !app_assoc. reflexivity. Qed.

Lemma mention_repl_shape (g : pystr) :
  mention_repl g
  = (60%N :: lit "a href=" ++ [dq] ++ lit "/user/") ++ g
    ++ ([dq] ++ lit " class=" ++ [dq] ++ lit "mention" ++ [dq] ++ lit ">")
    ++ 64%N :: g ++ 60%N :: lit "/a>".
Proof. unfold mention_repl. rewrite <- !app_assoc. reflexivity. Qed.

Lemma hashtag_repl_no_at (g : pystr) : ~ In 64%N g -> ~ In 64%N (hashtag_repl g).
Proof.
  intro Hg. rewrite hashtag_repl_shape. intro H.
  apply in_app_or in H. destruct H as [H|H]; [revert H; apply not_in_dec; reflexivity|].
  apply in_app_or in H. destruct H as [H|H]; [exact (Hg H)|].
  apply in_app_or in H. destruct H as [H|H]; [revert H; apply not_in_dec; reflexivity|].
  destruct H as [H|H]; [discriminate|].
  apply in_app_or in H. destruct H as [H|H]; [exact (Hg H)|].
  revert H. apply not_in_dec. reflexivity.
Qed.

Lemma mention_repl_no_hash (g : pystr) : ~ In 35%N g -> ~ In 35%N (mention_repl g).
Proof.
  intro Hg. rewrite mention_repl_shape. intro H.
  apply in_app_or in H. destruct H as [H|H]; [revert H; apply not_in_dec; reflexivity|].
  apply in_app_or in H. destruct H as [H|H]; [exact (Hg H)|].
  apply in_app_or in H. destruct H as [H|H]; [revert H; apply not_in_dec; reflexivity|].
  destruct H as [H|H]; [discriminate|].
  apply in_app_or in H. destruct H as [H|H]; [exact (Hg H)|].
  revert H. apply not_in_dec. reflexivity.
Qed.

Lemma tags_after_links (s : pystr) :
  findall hashtag_pattern (process_mentions (process_hashtags s)) = findall hashtag_pattern s
  /\ findall mention_pattern (process_mentions (process_hashtags s))
     = findall mention_pattern s.
Proof.
  destruct sigils_not_words as [H35 H64].
  assert (Hlt : is_word 60 = false) by reflexivity.
  assert (Hh : forall g, exists r0 r, hashtag_repl g = r0 :: r /\ is_word r0 = false).
  { intro g. rewrite hashtag_repl_shape. cbn [app]. eauto. }
  assert (Hm : forall g, exists r0 r, mention_repl g = r0 :: r /\ is_word r0 = false).
  { intro g. rewrite mention_repl_shape. cbn [app]. eauto. }
  assert (Hsame_h : forall s0,
            findall (match_tag 35) (sub (match_tag 35) hashtag_repl s0)
            = findall (match_tag 35) s0).
  { intro s0.
    apply (findall_sub_same 35 60 60
             (lit "a href=" ++ [dq] ++ lit "/hashtag/")
             ([dq] ++ lit " class=" ++ [dq] ++ lit "hashtag" ++ [dq] ++ lit ">")
             (lit "/a>") hashtag_repl H35 Hlt Hlt) with (n := List.length s0);
      try (apply not_in_dec; reflexivity); [exact hashtag_repl_shape | apply le_n]. }
  assert (Hsame_m : forall s0,
            findall (match_tag 64) (sub (match_tag 64) mention_repl s0)
            = findall (match_tag 64) s0).
  { intro s0.
    apply (findall_sub_same 64 60 60
             (lit "a href=" ++ [dq] ++ lit "/user/")
             ([dq] ++ lit " class=" ++ [dq] ++ lit "mention" ++ [dq] ++ lit ">")
             (lit "/a>") mention_repl H64 Hlt Hlt) with (n := List.length s0);
      try (apply not_in_dec; reflexivity); [exact mention_repl_shape | apply le_n]. }
  unfold process_mentions, process_hashtags, hashtag_pattern, mention_pattern. split.
  - rewrite (findall_sub_other 35 64 mention_repl H35 H64 ltac:(discriminate) Hm
               mention_repl_no_hash _ _ (le_n _)).
    apply Hsame_h.
  - rewrite Hsame_m.
    apply (findall_sub_other 64 35 hashtag_repl H64 H35 ltac:(discriminate) Hh
             hashtag_repl_no_at _ _ (le_n _)).
Qed.

(** X27. Turning hashtags and mentions into links does not change which
    hashtags and mentions are found: those found in the processed content
    are those of the content after emoji and link processing, and, for a
    content without a colon, those of the content as it was written. *)
Theorem processing_keeps_tags (c : pystr) :
  (findall hashtag_pattern (processed c)
   = findall hashtag_pattern (process_links (process_emojis c))
   /\ findall mention_pattern (processed c)
      = findall mention_pattern (process_links (process_emojis c)))
  /\ (~ In 58%N c ->
      findall hashtag_pattern (processed c) = findall hashtag_pattern c
      /\ findall mention_pattern (processed c) = findall mention_pattern c).
Proof.
  split; [apply tags_after_links|]. intro Hcolon. unfold processed.
  rewrite (process_emojis_absent c Hcolon).
  assert (El : process_links c = c).
  { unfold process_links. apply (sub_no_match url_pattern link_repl c url_pattern_consumes).
    intros pre suf E. apply url_pattern_absent. exact (absent_suffix _ _ _ _ Hcolon E). }
  rewrite El. apply tags_after_links.
Qed.

(** ** The whitelisted methods

    Each of them calls [self.save()] after its update, and [save] never
    returns ([never_returns_save]): what the methods do up to that call is
    what the source says, and each call ends in the exception of [save]. *)

Lemma raising_state {A : Type} (a : action A) (s : state) :
  never_returns a -> exists s' e, a s = (s', Raise e).
Proof.
  intro H. destruct (H s) as [e He]. destruct (a s) as [s' r]. cbn [snd] in He.
  subst r. exists s', e. reflexivity.
Qed.

Lemma like_moment_reject (save : action unit) (user : pystr) (self : Moment) (d : DB) :
  existsb (is_like_of self user) (tabMomentLike d) = true ->
  like_moment save user (self, d)
  = ((self, d), Raise (ValidationError (lit "You have already liked this moment"))).
Proof. intro H. unfold like_moment. run. rewrite H. reflexivity. Qed.

Lemma like_moment_run (save : action unit) (user : pystr) (self : Moment) (d : DB)
    (s' : state) (e : exn) :
  existsb (is_like_of self user) (tabMomentLike d) = false ->
  save (set_likes_count (Some (counter (likes_count self) + 1)%Z) self,
        set_tabMomentLike
          (tabMomentLike d ++ [ {| like_moment_name := name self;
                                   like_user := user;
                                   like_date := clock d |} ]) d)
  = (s', Raise e) ->
  like_moment save user (self, d) = (s', Raise e).
Proof.
  intros Hno Hsave. unfold like_moment. run. rewrite Hno. cbn [fst snd].
  rewrite or0_counter, Hsave. reflexivity.
Qed.

(** C2. When the user has a like record of the document, [like_moment]
    throws "You have already liked this moment" and changes nothing.
    Otherwise it appends one like record, sets [likes_count] to one more,
    and calls [self.save()] on the document so updated; that call never
    returns, and [like_moment] ends in its exception: the notification and
    the [return] of the method are not reached. *)
Theorem like_moment_outcome (depth : nat) (fresh user : pystr) (self : Moment) (d : DB) :
  (liked d self user ->
     like_moment (save depth fresh) user (self, d)
     = ((self, d), Raise (ValidationError (lit "You have already liked this moment"))))
  /\ (~ liked d self user ->
      exists s' e,
        save depth fresh
          (set_likes_count (Some (counter (likes_count self) + 1)%Z) self,
           set_tabMomentLike
             (tabMomentLike d ++ [ {| like_moment_name := name self;
                                      like_user := user;
                                      like_date := clock d |} ]) d)
        = (s', Raise e)
        /\ like_moment (save depth fresh) user (self, d) = (s', Raise e)).
Proof.
  split; intro H.
  - apply liked_iff in H. apply like_moment_reject. exact H.
  - apply not_liked_iff in H.
    destruct (raising_state (save depth fresh)
                (set_likes_count (Some (counter (likes_count self) + 1)%Z) self,
                 set_tabMomentLike
                   (tabMomentLike d ++ [ {| like_moment_name := name self;
                                            like_user := user;
                                            like_date := clock d |} ]) d)
                (never_returns_save depth fresh)) as (s' & e & Hsave).
    exists s', e. split; [exact Hsave|].
    apply like_moment_run; assumption.
Qed.

Lemma add_comment_run (save : action unit) (user text : pystr) (self : Moment) (d : DB)
    (s' : state) (e : exn) :
  text <> [] ->
  save (set_comments_count (Some (counter (comments_count self) + 1)%Z) self,
        set_tabMomentComment
          (tabMomentComment d ++ [ {| comment_moment := name self;
                                      comment_user := user;
                                      comment := text;
                                      comment_date := clock d |} ]) d)
  = (s', Raise e) ->
  add_comment save user text (self, d) = (s', Raise e).
Proof.
  intros Hne Hsave. destruct text as [|c text]; [congruence|].
  unfold add_comment. run. cbn [is_empty fst snd].
  rewrite or0_counter, Hsave. reflexivity.
Qed.

(** C3. With an empty comment, [add_comment] throws "Comment content is
    required" and changes nothing. With a non-empty comment it appends one
    comment record, sets [comments_count] to one more, and calls
    [self.save()] on the document so updated; that call never returns, and
    [add_comment] ends in its exception. *)
Theorem add_comment_outcome (depth : nat) (fresh user text : pystr) (self : Moment) (d : DB) :
  (text = [] ->
     add_comment (save depth fresh) user text (self, d)
     = ((self, d), Raise (ValidationError (lit "Comment content is required"))))
  /\ (text <> [] ->
      exists s' e,
        save depth fresh
          (set_comments_count (Some (counter (comments_count self) + 1)%Z) self,
           set_tabMomentComment
             (tabMomentComment d ++ [ {| comment_moment := name self;
                                         comment_user := user;
                                         comment := text;
                                         comment_date := clock d |} ]) d)
        = (s', Raise e)
        /\ add_comment (save depth fresh) user text (self, d) = (s', Raise e)).
Proof.
  split; intro H.
  - subst text. reflexivity.
  - destruct (raising_state (save depth fresh)
                (set_comments_count (Some (counter (comments_count self) + 1)%Z) self,
                 set_tabMomentComment
                   (tabMomentComment d ++ [ {| comment_moment := name self;
                                               comment_user := user;
                                               comment := text;
                                               comment_date := clock d |} ]) d)
                (never_returns_save depth fresh)) as (s' & e & Hsave).
    exists s', e. split; [exact Hsave|].
    apply add_comment_run; assumption.
Qed.

Lemma find_none_existsb {A : Type} (p : A -> bool) (l : list A) :
  existsb p l = false -> find p l = None.
Proof.
  induction l as [|y l IH]; cbn [existsb find]; [reflexivity|].
  destruct (p y); cbn [orb]; [discriminate | exact IH].
Qed.

Lemma find_some_existsb {A : Type} (p : A -> bool) (l : list A) :
  existsb p l = true -> exists x, find p l = Some x.
Proof.
  induction l as [|y l IH]; cbn [existsb find]; [discriminate|].
  destruct (p y); cbn [orb]; [eauto | exact IH].
Qed.

Lemma unlike_moment_missing (save : action unit) (user : pystr) (self : Moment) (d : DB) :
  existsb (is_like_of self user) (tabMomentLike d) = false ->
  unlike_moment save user (self, d) = ((self, d), Raise DoesNotExistError).
Proof.
  intro H. unfold unlike_moment, get_doc. run.
  rewrite (find_none_existsb _ _ H). reflexivity.
Qed.

Lemma unlike_moment_run (save : action unit) (user : pystr) (self : Moment) (d : DB)
    (s' : state) (e : exn) :
  existsb (is_like_of self user) (tabMomentLike d) = true ->
  save (set_likes_count (Some (Z.max 0 (counter (likes_count self) - 1))) self,
        set_tabMomentLike (remove_first (is_like_of self user) (tabMomentLike d)) d)
  = (s', Raise e) ->
  unlike_moment save user (self, d) = (s', Raise e).
Proof.
  intros H Hsave. unfold unlike_moment, get_doc. run.
  destruct (find_some_existsb _ _ H) as [l ->]. cbn [doc_truthy fst snd].
  rewrite or0_counter, Hsave. reflexivity.
Qed.

(** C10. [unlike_moment] returns for no document and no user. For a user
    without a like record, [get_doc] raises [DoesNotExistError] and nothing
    is changed. For a user with a like record, the record is deleted,
    [likes_count] is set to one less but not below zero, and the call of
    [self.save()] on the document so updated never returns. *)
Theorem unlike_moment_outcome (depth : nat) (fresh user : pystr) (self : Moment) (d : DB) :
  (~ liked d self user ->
     unlike_moment (save depth fresh) user (self, d) = ((self, d), Raise DoesNotExistError))
  /\ (liked d self user ->
      exists s' e,
        save depth fresh
          (set_likes_count (Some (Z.max 0 (counter (likes_count self) - 1))) self,
           set_tabMomentLike (remove_first (is_like_of self user) (tabMomentLike d)) d)
        = (s', Raise e)
        /\ unlike_moment (save depth fresh) user (self, d) = (s', Raise e)).
Proof.
  split; intro H.
  - apply not_liked_iff in H. apply unlike_moment_missing. exact H.
  - apply liked_iff in H.
    destruct (raising_state (save depth fresh)
                (set_likes_count (Some (Z.max 0 (counter (likes_count self) - 1))) self,
                 set_tabMomentLike (remove_first (is_like_of self user) (tabMomentLike d)) d)
                (never_returns_save depth fresh)) as (s' & e & Hsave).
    exists s', e. split; [exact Hsave|].
    apply unlike_moment_run; assumption.
Qed.



(** ** Validation *)

Lemma validate_moment_data_run (m : Moment) (d : DB) :
  validate_moment_data (m, d)
  = ((m, d),
     if negb (truthy_str (content m)) && is_empty (attachments m)
     then Raise (ValidationError (lit "Moment must have content or attachments"))
     else if negb (truthy_str (author m))
     then Raise (ValidationError (lit "Author is required"))
     else if negb (truthy_str (moment_type m))
     then Raise (ValidationError (lit "Moment type is required"))
     else Ok tt).
Proof.
  unfold validate_moment_data. run.
  destruct (negb (truthy_str (content m)) && is_empty (attachments m)); [reflexivity|].
  destruct (negb (truthy_str (author m))); [reflexivity|].
  destruct (negb (truthy_str (moment_type m))); reflexivity.
Qed.

(** [set_defaults] never raises and touches neither the database nor the
    attributes the later checks read. *)
Lemma set_defaults_run (m : Moment) (d : DB) :
  exists m',
    set_defaults (m, d) = ((m', d), Ok tt)
    /\ content m' = content m
    /\ mentions m' = mentions m
    /\ location m' = location m
    /\ author m' = author m
    /\ attachments m' = attachments m.
Proof.
  unfold set_defaults. run.
  destruct (negb (truthy_str (moment_type m)));
    destruct (negb (truthy_str (privacy m)));
    destruct (negb (truthy_str (status m)));
    destruct (posted_date m); cbn;
    eexists; (split; [reflexivity|]); cbn; auto.
Qed.

Lemma validate_content_run (m : Moment) (d : DB) :
  validate_content (m, d)
  = ((m, d),
     match content m with
     | Some ((_ :: _) as c) =>
         if (2000 <? List.length c)%nat
         then Raise (ValidationError (lit "Content cannot exceed 2000 characters"))
         else if contains_inappropriate_content m
         then Raise (ValidationError (lit "Content contains inappropriate material"))
         else Ok tt
     | _ => Ok tt
     end).
Proof.
  unfold validate_content. run.
  destruct (content m) as [[|c s]|]; try reflexivity.
  case_if; [reflexivity|].
  destruct (contains_inappropriate_content m); reflexivity.
Qed.

(** The loop of [validate_mentions] stops at the first row whose user is
    unknown. *)
Lemma validate_rows_run (d : DB) (rows : list MentionRow) (s : state) :
  for_each rows (fun mention =>
    when (negb (user_exists d (row_user mention)))
      (throw (lit "Mentioned user " ++ row_user mention ++ lit " does not exist"))) s
  = (s,
     match find (fun r => negb (user_exists d (row_user r))) rows with
     | Some r =>
         Raise (ValidationError (lit "Mentioned user " ++ row_user r ++ lit " does not exist"))
     | None => Ok tt
     end).
Proof.
  induction rows as [|r rows IH]; [reflexivity|].
  cbn [for_each find]. unfold bind at 1, when at 1.
  destruct (negb (user_exists d (row_user r))); [reflexivity|].
  unfold ret at 1. exact IH.
Qed.

Lemma validate_location_run (m : Moment) (d : DB) :
  validate_location (m, d)
  = ((m, d),
     if negb (is_empty (location m))
        && (negb (truthy (dict_get (location m) (lit "latitude")))
            || negb (truthy (dict_get (location m) (lit "longitude"))))
     then Raise (ValidationError (lit "Invalid location data"))
     else Ok tt).
Proof.
  unfold validate_location. run.
  destruct (negb (is_empty (location m))); [|reflexivity].
  destruct (negb (truthy (dict_get (location m) (lit "latitude")))
            || negb (truthy (dict_get (location m) (lit "longitude")))); reflexivity.
Qed.

Lemma inappropriate_iff (m : Moment) :
  contains_inappropriate_content m = true
  <-> exists c, content m = Some c /\ c <> []
       /\ exists w, In w inappropriate_words /\ occurs w (lower c).
Proof.
  unfold contains_inappropriate_content.
  destruct (content m) as [[|c s]|].
  - split; [discriminate|]. intros (c & H & Hne & _). congruence.
  - rewrite existsb_exists. split.
    + intros (w & Hin & Hw). exists (c :: s).
      split; [reflexivity|]. split; [discriminate|].
      exists w. split; [exact Hin|]. apply contains_occurs. exact Hw.
    + intros (c' & H & _ & w & Hin & Hw). injection H as <-.
      exists w. split; [exact Hin|]. apply contains_occurs. exact Hw.
  - split; [discriminate|]. intros (c & H & _). discriminate.
Qed.

Lemma find_unknown_user (d : DB) (rows : list MentionRow) :
  (exists r, find (fun r => negb (user_exists d (row_user r))) rows = Some r)
  <-> exists r, In r rows /\ ~ In (row_user r) (tabUser d).
Proof.
  split.
  - intros [r H]. apply find_some in H. destruct H as [Hin H].
    exists r. split; [exact Hin|]. rewrite <- user_exists_In.
    destruct (user_exists d (row_user r)); [discriminate | congruence].
  - intros (r & Hin & H).
    destruct (find (fun r => negb (user_exists d (row_user r))) rows) as [r'|] eqn:E;
      [eauto|].
    exfalso. apply H. apply user_exists_In.
    pose proof (find_none _ _ E r Hin) as Hn. cbn in Hn.
    destruct (user_exists d (row_user r)); [reflexivity | discriminate].
Qed.

Lemma find_existsb {A : Type} (p : A -> bool) (l : list A) :
  existsb p l = match find p l with Some _ => true | None => false end.
Proof.
  induction l as [|x l IH]; [reflexivity|]. simpl.
  destruct (p x); [reflexivity | exact IH].
Qed.

Ltac finish_validate :=
  match goal with
  | |- context [find ?p ?rows] =>
      destruct (find p rows);
        [split; [eexists; reflexivity | discriminate]|]
  end;
  cbn [orb snd];
  match goal with
  | |- context [if ?b then _ else _] =>
      destruct b; split; try discriminate; try reflexivity; eexists; reflexivity
  end.

(** [validate] throws when one of its checks fails and returns otherwise. *)
Lemma validate_run (d : DB) (m : Moment) (rows : list MentionRow) :
  mentions m = MentionRows rows ->
  (validation_fails d m rows = true -> raises (validate (m, d)))
  /\ (validation_fails d m rows = false -> snd (validate (m, d)) = Ok tt).
Proof.
  intro Hrows. unfold validation_fails, validate, raises, bind.
  rewrite validate_moment_data_run.
  destruct (negb (truthy_str (content m)) && is_empty (attachments m));
    [split; [eexists; reflexivity | discriminate]|].
  destruct (negb (truthy_str (author m)));
    [split; [eexists; reflexivity | discriminate]|].
  destruct (negb (truthy_str (moment_type m)));
    [split; [eexists; reflexivity | discriminate]|].
  cbn [orb].
  destruct (set_defaults_run m d) as (m' & Hd & Hc & Hm & Hl & _).
  rewrite Hd, validate_content_run.
  assert (Hi : contains_inappropriate_content m' = contains_inappropriate_content m)
    by (unfold contains_inappropriate_content; rewrite Hc; reflexivity).
  rewrite Hc, Hi.
  assert (Hmen :
    validate_mentions (m', d)
    = ((m', d), match find (fun r => negb (user_exists d (row_user r))) rows with
                | Some r => Raise (ValidationError
                              (lit "Mentioned user " ++ row_user r ++ lit " does not exist"))
                | None => Ok tt
                end)).
  { unfold validate_mentions. run. rewrite Hm, Hrows. apply validate_rows_run. }
  rewrite Hmen, validate_location_run, Hl, find_existsb.
  destruct (content m) as [[|c s]|]; cbv beta iota; cbn [orb].
  - finish_validate.
  - destruct (2000 <? List.length (c :: s))%nat;
      [split; [eexists; reflexivity | discriminate]|].
    destruct (contains_inappropriate_content m);
      [split; [eexists; reflexivity | discriminate]|].
    cbn [orb]. finish_validate.
  - finish_validate.
Qed.

Lemma negb_truthy_str (o : option pystr) : negb (truthy_str o) = true <-> blank o.
Proof. rewrite negb_true_iff. apply truthy_str_false. Qed.

Lemma occurs_nil (w : pystr) : occurs w [] -> w = [].
Proof.
  intros (pre & suf & H). symmetry in H.
  apply app_eq_nil in H. destruct H as [_ H].
  apply app_eq_nil in H. tauto.
Qed.

Lemma inappropriate_nonempty (w : pystr) : In w inappropriate_words -> w <> [].
Proof.
  unfold inappropriate_words. cbn [In].
  intros [H|[H|[H|[H|[H|[]]]]]]; subst; discriminate.
Qed.

Lemma content_check_iff (m : Moment) :
  match content m with
  | Some ((_ :: _) as c) =>
      (2000 <? List.length c)%nat || contains_inappropriate_content m
  | _ => false
  end = true
  <-> oversized_content m \/ disallowed_keywords m.
Proof.
  unfold oversized_content, disallowed_keywords.
  pose proof (inappropriate_iff m) as Hi.
  destruct (content m) as [[|c s]|] eqn:E.
  - split; [discriminate|]. intros [(c & H & Hlen)|(c & w & H & Hin & Hw)].
    + injection H as <-. simpl in Hlen. lia.
    + injection H as <-. apply occurs_nil in Hw.
      exfalso. exact (inappropriate_nonempty w Hin Hw).
  - rewrite orb_true_iff, Nat.ltb_lt, Hi. split.
    + intros [H|(c' & H & _ & w & Hin & Hw)].
      * left. eauto.
      * right. eauto.
    + intros [(c' & H & Hlen)|(c' & w & H & Hin & Hw)].
      * left. congruence.
      * right. exists c'. split; [exact H|]. split; [congruence|]. eauto.
  - split; [discriminate|]. intros [(c & H & _)|(c & w & H & _)]; discriminate.
Qed.

Lemma validation_fails_iff (d : DB) (m : Moment) (rows : list MentionRow) :
  mentions m = MentionRows rows -> coordinates_truthy m ->
  validation_fails d m rows = true <-> validation_failure d m.
Proof.
  intros Hrows Hcoord.
  unfold validation_fails, validation_failure, listed_failure.
  rewrite !orb_true_iff, content_check_iff, andb_true_iff, !negb_truthy_str,
    is_empty_true.
  assert (Hmen : existsb (fun r => negb (user_exists d (row_user r))) rows = true
                 <-> invalid_mention d m).
  { rewrite find_existsb. unfold invalid_mention. split.
    - intro H.
      destruct (find (fun r => negb (user_exists d (row_user r))) rows) as [r|] eqn:E;
        [|discriminate].
      destruct (proj1 (find_unknown_user d rows) (ex_intro _ r E)) as (r' & Hin & Hr').
      exists rows, r'. auto.
    - intros (rows' & r & H & Hin & Hr). rewrite Hrows in H. injection H as <-.
      destruct (proj2 (find_unknown_user d rows) (ex_intro _ r (conj Hin Hr))) as [r' ->].
      reflexivity. }
  assert (Hloc : negb (is_empty (location m))
                 && (negb (truthy (dict_get (location m) (lit "latitude")))
                     || negb (truthy (dict_get (location m) (lit "longitude")))) = true
                 <-> invalid_location m).
  { unfold invalid_location.
    rewrite andb_true_iff, orb_true_iff, !negb_true_iff.
    assert (He : is_empty (location m) = false <-> location m <> []).
    { destruct (location m); simpl; split; intro H; congruence. }
    assert (Hk : forall k, k = lit "latitude" \/ k = lit "longitude" ->
              (truthy (dict_get (location m) k) = false
               <-> dict_get (location m) k = PNone)).
    { intros k Hkey. split.
      - intro Hf. destruct (Hcoord k Hkey) as [H|H]; [exact H | congruence].
      - intros ->. reflexivity. }
    rewrite He, (Hk _ (or_introl eq_refl)), (Hk _ (or_intror eq_refl)). reflexivity. }
  rewrite Hmen, Hloc. unfold missing_content, missing_author, missing_moment_type.
  tauto.
Qed.

(** C1, as amended. For a document whose mentions are child rows and whose
    latitude and longitude, where the location has them, are not falsy
    values, [validate] throws a validation error exactly when one of these
    holds: content is missing (blank content and no attachments), the
    author is missing, the moment type is missing, the content is longer
    than 2000 characters, the lowercased content holds one of the
    inappropriate words, a mentioned user is not a User record, or the
    location is set and has no latitude or no longitude. It returns exactly
    when none of them holds. What [validate] does with a latitude or a
    longitude of 0 is left out here. *)
Theorem validate_spec (d : DB) (m : Moment) (rows : list MentionRow) :
  mentions m = MentionRows rows -> coordinates_truthy m ->
  (raises (validate (m, d)) <-> validation_failure d m)
  /\ (snd (validate (m, d)) = Ok tt <-> ~ validation_failure d m).
Proof.
  intros Hrows Hcoord.
  destruct (validate_run d m rows Hrows) as [Hfail Hok].
  pose proof (validation_fails_iff d m rows Hrows Hcoord) as Hiff.
  destruct (validation_fails d m rows) eqn:E.
  - specialize (Hfail eq_refl). split; split.
    + intros _. apply Hiff. reflexivity.
    + intros _. exact Hfail.
    + intro H. destruct Hfail as [msg Hmsg]. congruence.
    + intro H. exfalso. apply H. apply Hiff. reflexivity.
  - specialize (Hok eq_refl). split; split.
    + intros [msg Hmsg]. congruence.
    + intro H. apply Hiff in H. discriminate.
    + intros _ H. apply Hiff in H. discriminate.
    + intros _. exact Hok.
Qed.

(** ** Sentiment *)

Lemma occurrences_count (text : pystr) (ws : list pystr) (k : nat) :
  occurrences text ws k <-> k = count_in ws text.
Proof.
  unfold count_in. split.
  - induction 1 as [|w ws k Hw _ IH|w ws k Hw _ IH]; simpl.
    + reflexivity.
    + apply contains_occurs in Hw. rewrite Hw. simpl. congruence.
    + apply contains_false in Hw. rewrite Hw. exact IH.
  - intros ->. induction ws as [|w ws IH]; simpl.
    + constructor.
    + destruct (contains w text) eqn:E; simpl.
      * apply occurrences_hit; [apply contains_occurs; exact E | exact IH].
      * apply occurrences_miss; [apply contains_false; exact E | exact IH].
Qed.

(** C5, as amended. [analyze_sentiment] returns "neutral" for a document
    with blank content. Otherwise, with [p] the number of positive words and
    [n] the number of negative words that occur as substrings of the
    lowercased content, it returns "positive" when [p] is greater,
    "negative" when [n] is greater and "neutral" when they are equal. *)
Theorem analyze_sentiment_spec (m : Moment) :
  (blank (content m) -> analyze_sentiment m = lit "neutral")
  /\ (forall c p n,
        content m = Some c -> c <> [] ->
        occurrences (lower c) positive_words p ->
        occurrences (lower c) negative_words n ->
        (n < p -> analyze_sentiment m = lit "positive")
        /\ (p < n -> analyze_sentiment m = lit "negative")
        /\ (p = n -> analyze_sentiment m = lit "neutral")).
Proof.
  unfold analyze_sentiment. split.
  - intros [H|H]; rewrite H; reflexivity.
  - intros c p n Hc Hne Hp Hn. rewrite Hc.
    destruct c as [|x c]; [congruence|].
    apply occurrences_count in Hp, Hn. cbv zeta. rewrite <- Hp, <- Hn.
    destruct (Nat.ltb_spec n p) as [H1|H1].
    + repeat split; intros; try reflexivity; lia.
    + destruct (Nat.ltb_spec p n) as [H2|H2];
        repeat split; intros; try reflexivity; lia.
Qed.

(** ** Engagement score *)

Lemma update_engagement_metrics_run (save : action unit) (m : Moment) (d : DB) :
  update_engagement_metrics save (m, d)
  = match calculate_engagement_score m with
    | Ok x => save (set_engagement_score (Some x) m, d)
    | Raise e => ((m, d), Raise e)
    end.
Proof.
  unfold update_engagement_metrics. run.
  destruct (calculate_engagement_score m) as [x|e]; [|reflexivity].
  cbn [fst snd]. destruct (save (set_engagement_score (Some x) m, d)) as [s' [[]|e]];
    reflexivity.
Qed.

(** The score stays in the document through the nested calls of [save]:
    no hook but [update_engagement_metrics] writes it, and the counters it
    is computed from are not changed. *)
Lemma scored_update_engagement_metrics (x : float) (save : action unit) :
  preserves (scored x) save -> preserves (scored x) (update_engagement_metrics save).
Proof.
  intros Hsave [m d] [Hs Hc]. cbn [fst] in Hs, Hc.
  rewrite update_engagement_metrics_run, Hc.
  apply Hsave. split; [reflexivity | exact Hc].
Qed.

Lemma scored_save (x : float) (depth : nat) (fresh : pystr) :
  preserves (scored x) (save depth fresh).
Proof.
  induction depth as [|depth IH]; cbn [save].
  - apply preserves_raise.
  - pose proof (scored_update_engagement_metrics x _ IH) as Hu.
    unfold insert_hooks, save_hooks, autoname, validate, validate_moment_data,
      set_defaults, validate_content, validate_mentions, validate_location,
      before_save, process_content, extract_hashtags, extract_mentions,
      set_privacy_settings, generate_preview, create_hashtag_record,
      create_mention_record, after_insert, send_notifications,
      send_mention_notification, send_follower_notifications,
      send_department_notifications, notify, update_user_activity,
      create_activity_log, process_ai_analysis, on_update, sync_moment_data.
    kept.
Qed.

(** C6. [calculate_engagement_score] returns the value of
    [likes_count*1 + comments_count*2 + shares_count*3 + views_count*0.1]
    with a counter that is [None] taken as zero. [update_engagement_metrics]
    assigns this value to [engagement_score] and calls [self.save()] on the
    document so updated; whatever becomes of that call, which never
    returns, the field holds the value when [update_engagement_metrics]
    ends. *)
Theorem engagement_score_spec (m : Moment) (d : DB) :
  calculate_engagement_score m
  = engagement_formula (counter (likes_count m)) (counter (comments_count m))
      (counter (shares_count m)) (counter (views_count m))
  /\ (forall (save : action unit) (x : float),
        calculate_engagement_score m = Ok x ->
        update_engagement_metrics save (m, d)
        = save (set_engagement_score (Some x) m, d))
  /\ (forall (depth : nat) (fresh : pystr) (x : float),
        calculate_engagement_score m = Ok x ->
        engagement_score
          (fst (fst (update_engagement_metrics (save depth fresh) (m, d)))) = Some x).
Proof.
  split; [|split].
  - unfold calculate_engagement_score, engagement_formula.
    rewrite !or0_counter. reflexivity.
  - intros save x Hx. rewrite update_engagement_metrics_run, Hx. reflexivity.
  - intros depth fresh x Hx. rewrite update_engagement_metrics_run, Hx.
    apply (scored_save x depth fresh (set_engagement_score (Some x) m, d)).
    split; [reflexivity | exact Hx].
Qed.

(** ** The feed *)

Lemma In_firstn {A : Type} (n : nat) (l : list A) (x : A) :
  In x (firstn n l) -> In x l.
Proof.
  intro H. rewrite <- (firstn_skipn n l). apply in_or_app. left. exact H.
Qed.

Lemma In_skipn {A : Type} (n : nat) (l : list A) (x : A) :
  In x (skipn n l) -> In x l.
Proof.
  intro H. rewrite <- (firstn_skipn n l). apply in_or_app. right. exact H.
Qed.

Lemma In_insert_desc (x m : Moment) (l : list Moment) :
  In x (insert_desc m l) <-> x = m \/ In x l.
Proof.
  induction l as [|y l IH]; simpl.
  - intuition congruence.
  - destruct (date_leb (posted_date m) (posted_date y)); simpl.
    + rewrite IH. intuition congruence.
    + intuition congruence.
Qed.

Lemma In_order_by (x : Moment) (l : list Moment) :
  In x (order_by_posted_date_desc l) <-> In x l.
Proof.
  unfold order_by_posted_date_desc. induction l as [|y l IH]; simpl.
  - reflexivity.
  - rewrite In_insert_desc, IH. intuition congruence.
Qed.

Lemma In_followed_by (d : DB) (user a : pystr) :
  existsb (Str.eqb a) (followed_by d user) = true
  -> In {| follower := user; following := a |} (tabUserFollow d).
Proof.
  unfold followed_by. rewrite existsb_exists. intros (x & Hin & Hx).
  apply str_eqb_eq in Hx. subst x.
  apply in_map_iff in Hin. destruct Hin as ([f g] & Hg & Hin).
  apply filter_In in Hin. destruct Hin as [Hin Hf].
  cbn in Hg, Hf. apply str_eqb_eq in Hf. subst. exact Hin.
Qed.

Lemma In_users_of_department (d : DB) (dep : option pystr) (a : pystr) :
  existsb (Str.eqb a) (users_of_department d dep) = true
  -> exists x, dep = Some x
       /\ In {| employee_user := a; department := Some x |} (tabEmployee d).
Proof.
  unfold users_of_department. destruct dep as [x|]; [|discriminate].
  rewrite existsb_exists. intros (u & Hin & Hu).
  apply str_eqb_eq in Hu. subst u.
  apply in_map_iff in Hin. destruct Hin as ([u dp] & Hu & Hin).
  apply filter_In in Hin. destruct Hin as [Hin Hd].
  cbn in Hu, Hd. apply opt_str_eqb_eq in Hd. subst.
  exists x. auto.
Qed.

Lemma department_subquery_In (d : DB) (user : pystr) (x : pystr) :
  department_subquery d user = Ok (Some x)
  -> In {| employee_user := user; department := Some x |} (tabEmployee d).
Proof.
  unfold department_subquery.
  destruct (filter (fun e => Str.eqb (employee_user e) user) (tabEmployee d))
    as [|[u dp] [|e' l]] eqn:E; try discriminate.
  intro H. injection H as H. cbn in H. subst dp.
  assert (Hin : In {| employee_user := u; department := Some x |}
                  (filter (fun e => Str.eqb (employee_user e) user) (tabEmployee d)))
    by (rewrite E; left; reflexivity).
  apply filter_In in Hin. destruct Hin as [Hin Hu].
  cbn in Hu. apply str_eqb_eq in Hu. subst. exact Hin.
Qed.

Lemma feed_where_visible (d : DB) (user : pystr) (dep : option pystr) (m : Moment) :
  department_subquery d user = Ok dep ->
  feed_where (followed_by d user) (users_of_department d dep) m = true ->
  visible d user m.
Proof.
  intros Hdep. unfold feed_where, visible, author_in.
  rewrite !orb_true_iff, !andb_true_iff, !opt_str_eqb_eq.
  intros [[H|[H Ha]]|[H Ha]].
  - left. exact H.
  - right. left. split; [exact H|].
    destruct (author m) as [a|]; [|discriminate].
    exists a. split; [reflexivity|]. apply In_followed_by. exact Ha.
  - right. right. split; [exact H|].
    destruct (author m) as [a|]; [|discriminate].
    apply In_users_of_department in Ha. destruct Ha as (x & -> & Hin).
    exists a, x. split; [reflexivity|]. split; [|exact Hin].
    apply department_subquery_In. exact Hdep.
Qed.

(** C9. Every row that [get_moment_feed] returns for a user is a row of the
    Moment table, reduced to the selected columns, that is visible to the
    user: it is public, or for friends with the user following its author,
    or for a department with its author an employee of the user's
    department. No returned row is private, whoever the user is, its author
    included. *)
Theorem feed_visibility (user : pystr) (limit offset : nat) (s s' : state)
    (rows : list Moment) (r : Moment) :
  get_moment_feed user limit offset s = (s', Ok rows) ->
  In r rows ->
  (exists m, In m (tabMoment (snd s)) /\ r = selected_columns m
             /\ visible (snd s) user m)
  /\ privacy r <> Some (lit "Private").
Proof.
  destruct s as [self d]. unfold get_moment_feed. run.
  destruct (department_subquery d user) as [dep|e] eqn:Hdep; [|discriminate].
  intros H Hin. injection H as _ <-.
  apply in_map_iff in Hin. destruct Hin as (m & <- & Hin).
  apply In_firstn, In_skipn in Hin.
  apply In_order_by, filter_In in Hin. destruct Hin as [Hin Hw].
  pose proof (feed_where_visible d user dep m Hdep Hw) as Hv.
  split.
  - exists m. auto.
  - cbn. destruct Hv as [H|[[H _]|[H _]]]; rewrite H; discriminate.
Qed.

(** ** Content processing *)

Lemma db_only_for_each {A : Type} (l : list A) (body : A -> action unit) :
  (forall x, db_only (body x)) -> db_only (for_each l body).
Proof.
  intros Hbody. induction l as [|x l IH]; intros s; cbn [for_each].
  - exists (snd s). destruct s; reflexivity.
  - unfold bind. destruct (Hbody x s) as [d1 ->].
    destruct (IH (fst s, d1)) as [d2 ->]. exists d2. reflexivity.
Qed.

Lemma db_only_create_hashtag_record (h : pystr) : db_only (create_hashtag_record h).
Proof.
  intros [m d]. unfold create_hashtag_record. run.
  destruct (negb (hashtag_exists d h)); eexists; reflexivity.
Qed.

Lemma db_only_create_mention_record (u : pystr) : db_only (create_mention_record u).
Proof. intros [m d]. unfold create_mention_record. run. eexists; reflexivity. Qed.

Lemma replace_fuel_nonempty (fuel : nat) (old new s : pystr) :
  new <> [] -> s <> [] -> replace_fuel fuel old new s <> [].
Proof.
  intros Hnew Hs. destruct fuel as [|fuel]; simpl; [exact Hs|].
  destruct (strip_prefix old s) as [rest|].
  - destruct new; [congruence | discriminate].
  - destruct s; [congruence | discriminate].
Qed.

Lemma replace_nonempty (old new s : pystr) :
  new <> [] -> s <> [] -> replace old new s <> [].
Proof.
  intros Hnew Hs. unfold replace. destruct old.
  - destruct new; [congruence | discriminate].
  - apply replace_fuel_nonempty; assumption.
Qed.

Lemma process_emojis_nonempty (s : pystr) : s <> [] -> process_emojis s <> [].
Proof.
  unfold process_emojis.
  assert (H : forall l : list (pystr * pystr),
            Forall (fun e => snd e <> []) l ->
            forall s, s <> [] ->
            fold_left (fun c (e : pystr * pystr) => replace (fst e) (snd e) c) l s <> []).
  { induction 1 as [|e l He _ IH]; intros s0 Hs0; simpl; [exact Hs0|].
    apply IH. apply replace_nonempty; assumption. }
  apply H. unfold emoji_map. repeat constructor; discriminate.
Qed.

Lemma sub_fuel_nonempty (fuel : nat) (pat : matcher) (repl : pystr -> pystr) (s : pystr) :
  (forall g, repl g <> []) -> s <> [] -> sub_fuel fuel pat repl s <> [].
Proof.
  intros Hrepl Hs. destruct fuel as [|fuel]; simpl; [exact Hs|].
  destruct (pat s) as [[g rest]|].
  - specialize (Hrepl g). destruct (repl g); [congruence | discriminate].
  - destruct s; [congruence | discriminate].
Qed.

Lemma sub_nonempty (pat : matcher) (repl : pystr -> pystr) (s : pystr) :
  (forall g, repl g <> []) -> s <> [] -> sub pat repl s <> [].
Proof. intros Hrepl Hs. unfold sub. apply sub_fuel_nonempty; assumption. Qed.

Lemma process_links_nonempty (s : pystr) : s <> [] -> process_links s <> [].
Proof. intro H. apply sub_nonempty; [intro g; discriminate | exact H]. Qed.

Lemma process_hashtags_nonempty (s : pystr) : s <> [] -> process_hashtags s <> [].
Proof. intro H. apply sub_nonempty; [intro g; discriminate | exact H]. Qed.

Lemma process_mentions_nonempty (s : pystr) : s <> [] -> process_mentions s <> [].
Proof. intro H. apply sub_nonempty; [intro g; discriminate | exact H]. Qed.

Lemma processed_nonempty (c : pystr) : c <> [] -> processed c <> [].
Proof.
  intro H. unfold processed.
  apply process_mentions_nonempty, process_hashtags_nonempty,
    process_links_nonempty, process_emojis_nonempty.
  exact H.
Qed.

Lemma process_content_run (m : Moment) (d : DB) (c : pystr) :
  content m = Some c -> c <> [] ->
  process_content (m, d) = ((set_content (Some (processed c)) m, d), Ok tt).
Proof.
  intros Hc Hne. unfold process_content. run. rewrite Hc.
  destruct c; [congruence | reflexivity].
Qed.

Lemma extract_hashtags_run (m : Moment) (d : DB) (c : pystr) :
  content m = Some c -> c <> [] ->
  exists d',
    extract_hashtags (m, d)
    = ((set_hashtags (Some (Dumps (PList (map PStr (findall hashtag_pattern c))))) m, d'),
       Ok tt).
Proof.
  intros Hc Hne. unfold extract_hashtags. run. rewrite Hc.
  destruct c as [|x c]; [congruence|]. cbv beta iota zeta.
  match goal with
  | |- context [for_each ?l create_hashtag_record ?s] =>
      destruct (db_only_for_each l create_hashtag_record
                  db_only_create_hashtag_record s) as [d1 ->]
  end.
  exists d1. reflexivity.
Qed.

Lemma extract_mentions_run (m : Moment) (d : DB) (c : pystr) :
  content m = Some c -> c <> [] ->
  exists d',
    extract_mentions (m, d)
    = ((set_mentions (MentionsText (Dumps (PList (map PStr (findall mention_pattern c))))) m, d'),
       Ok tt).
Proof.
  intros Hc Hne. unfold extract_mentions. run. rewrite Hc.
  destruct c as [|x c]; [congruence|]. cbv beta iota zeta.
  match goal with
  | |- context [for_each ?l create_mention_record ?s] =>
      destruct (db_only_for_each l create_mention_record
                  db_only_create_mention_record s) as [d1 ->]
  end.
  exists d1. reflexivity.
Qed.

Lemma set_privacy_settings_run (m : Moment) (d : DB) :
  exists v, set_privacy_settings (m, d) = ((set_visibility (Some v) m, d), Ok tt).
Proof.
  unfold set_privacy_settings. run.
  repeat case_if; eexists; reflexivity.
Qed.

Lemma generate_preview_run (m : Moment) (d : DB) (c : pystr) (hs ms : list pyval) :
  content m = Some c ->
  hashtags m = Some (Dumps (PList hs)) ->
  mentions m = MentionsText (Dumps (PList ms)) ->
  exists p, generate_preview (m, d) = ((set_preview (Some p) m, d), Ok tt).
Proof.
  intros Hc Hh Hm. unfold generate_preview. run. rewrite Hc, Hh, Hm.
  eexists. reflexivity.
Qed.

(** [before_save] on a document with content. *)
Lemma before_save_run (m : Moment) (d : DB) (c : pystr) :
  content m = Some c -> c <> [] ->
  exists m' d',
    before_save (m, d) = ((m', d'), Ok tt)
    /\ content m' = Some (processed c)
    /\ hashtags m'
       = Some (Dumps (PList (map PStr (findall hashtag_pattern (processed c))))).
Proof.
  intros Hc Hne.
  pose proof (processed_nonempty c Hne) as Hp.
  unfold before_save, bind.
  rewrite (process_content_run m d c Hc Hne).
  destruct (extract_hashtags_run (set_content (Some (processed c)) m) d (processed c)
              eq_refl Hp) as [d1 ->].
  match goal with
  | |- context [extract_mentions (?m1, d1)] =>
      destruct (extract_mentions_run m1 d1 (processed c) eq_refl Hp) as [d2 ->];
      destruct (set_privacy_settings_run
                  (set_mentions (MentionsText (Dumps (PList (map PStr
                     (findall mention_pattern (processed c)))))) m1) d2) as [v ->]
  end.
  match goal with
  | |- context [generate_preview (?m3, d2)] =>
      destruct (generate_preview_run m3 d2 (processed c) _ _ eq_refl eq_refl eq_refl)
        as [p ->]
  end.
  do 2 eexists. split; [reflexivity|]. split; reflexivity.
Qed.

(** [findall] yields the matches of the pattern, and a text has one list of
    matches only. *)
Lemma findall_tag_matches (sigil : char) (n : nat) :
  forall s, List.length s <= n -> tag_matches sigil s (findall (match_tag sigil) s).
Proof.
  induction n as [|n IH]; intros s Hlen.
  - destruct s; [apply tag_matches_end | simpl in Hlen; lia].
  - rewrite (findall_equation _ s (match_tag_consumes sigil)).
    destruct (match_tag sigil s) as [[g rest]|] eqn:E.
    + pose proof (match_tag_consumes sigil s g rest E) as Hshort.
      apply match_tag_longest in E. destruct E as (Hs & Hne & Hall & Hend).
      subst s. apply tag_matches_tag; try assumption. apply IH. lia.
    + destruct s as [|c t]; [apply tag_matches_end|].
      apply match_tag_none in E.
      apply tag_matches_pass; [exact E|]. apply IH. simpl in Hlen. lia.
Qed.

Lemma word_run_not_ended (g rest : pystr) :
  g <> [] -> Forall (fun c => is_word c = true) g -> ~ ends_word (g ++ rest).
Proof.
  intros Hne Hall Hend. destruct g as [|x g]; [congruence|].
  inversion Hall as [|? ? Hx _]. cbn in Hend. congruence.
Qed.

Lemma tag_matches_unique (sigil : char) (s : pystr) (tags : list pystr) :
  tag_matches sigil s tags -> forall tags', tag_matches sigil s tags' -> tags' = tags.
Proof.
  induction 1 as [|c s tags Hc _ IH|g rest tags Hne Hall Hend _ IH]; intros tags' H'.
  - inversion H'. reflexivity.
  - inversion H' as [|c' s' t' Hc' Ht'|g' rest' t' Hne' Hall' Hend' Ht' Heq]; subst.
    + apply IH. exact Ht'.
    + exfalso. destruct Hc as [Hc|Hc]; [congruence|].
      exact (word_run_not_ended g' rest' Hne' Hall' Hc).
  - inversion H' as [|c' s' t' Hc' Ht'|g' rest' t' Hne' Hall' Hend' Ht' Heq]; subst.
    + exfalso. destruct Hc' as [Hc'|Hc']; [congruence|].
      exact (word_run_not_ended g rest Hne Hall Hc').
    + pose proof (span_word_run g rest Hall Hend) as E1.
      pose proof (span_word_run g' rest' Hall' Hend') as E2.
      rewrite <- Heq in E1. rewrite E1 in E2. injection E2 as <- <-.
      f_equal. apply IH. exact Ht'.
Qed.

(** C4. For a document with non-empty content, [before_save] returns. The
    content is then what [process_content] makes of it (emoji codes, links,
    hashtags and mentions rewritten), and [hashtags] is the JSON text of the
    list of the matches of [#(\w+)] in that content, in their order: the
    runs of word characters that follow a '#', each the longest at its
    place. *)
Theorem before_save_hashtags (m : Moment) (d : DB) (c : pystr) :
  content m = Some c -> c <> [] ->
  exists m' d' p tags,
    before_save (m, d) = ((m', d'), Ok tt)
    /\ content (fst (fst (process_content (m, d)))) = Some p
    /\ content m' = Some p
    /\ tag_matches 35 p tags
    /\ (forall tags', tag_matches 35 p tags' -> tags' = tags)
    /\ hashtags m' = Some (Dumps (PList (map PStr tags))).
Proof.
  intros Hc Hne.
  destruct (before_save_run m d c Hc Hne) as (m' & d' & Hrun & Hcontent & Htags).
  pose proof (findall_tag_matches 35 _ (processed c) (le_n _)) as Hm.
  exists m', d', (processed c), (findall hashtag_pattern (processed c)).
  split; [exact Hrun|]. split.
  - rewrite (process_content_run m d c Hc Hne). reflexivity.
  - split; [exact Hcontent|]. split; [exact Hm|]. split; [|exact Htags].
    apply tag_matches_unique. exact Hm.
Qed.

(** ** Processing keeps a text clean *)

Lemma lower_app (a b : pystr) : lower (a ++ b) = lower a ++ lower b.
Proof. apply flat_map_app. Qed.

Lemma occurs_middle (w a b c : pystr) : occurs w b -> occurs w (a ++ b ++ c).
Proof.
  intros (pre & suf & ->). exists (a ++ pre), (suf ++ c).
  rewrite <- !app_assoc. reflexivity.
Qed.

Lemma occurs_nil_l (a : pystr) : occurs [] a.
Proof. exists [], a. reflexivity. Qed.

(** A word of lowercase letters that occurs in a text with a separator
    occurs on one side of it. *)
Lemma occurs_sep (w a b : pystr) (d : char) :
  Forall (fun x => is_lower x = true) w ->
  is_lower d = false ->
  occurs w (a ++ d :: b) -> occurs w a \/ occurs w b.
Proof.
  intros Hw Hd (pre & suf & H).
  assert (Hnot : forall w', w <> d :: w').
  { intros w' ->. inversion Hw; congruence. }
  assert (Hmid : forall l l', w <> l ++ d :: l').
  { intros l l' ->. apply Forall_app in Hw. destruct Hw as [_ Hw].
    inversion Hw; congruence. }
  apply app_eq_app in H. destruct H as (l & [[Ha Hb]|[Ha Hb]]).
  - (* the occurrence starts in [a] *)
    symmetry in Hb. apply app_eq_app in Hb.
    destruct Hb as (l2 & [[H1 H2]|[H1 H2]]).
    + left. subst a l. exists pre, l2. reflexivity.
    + destruct l2 as [|x l2].
      * left. rewrite app_nil_r in H1. subst. exists pre, [].
        rewrite app_nil_r. reflexivity.
      * exfalso. injection H2 as <- _. exact (Hmid l l2 H1).
  - (* the occurrence starts at or after the separator *)
    destruct l as [|x l].
    + destruct w as [|x w].
      * left. apply occurs_nil_l.
      * exfalso. simpl in Hb. injection Hb as <- _. exact (Hnot w eq_refl).
    + right. injection Hb as _ ->. exists l, suf. reflexivity.
Qed.

Lemma unsafe_word_shape (w : pystr) :
  In w unsafe_words -> Forall (fun x => is_lower x = true) w /\ w <> [].
Proof.
  unfold unsafe_words. cbn [In].
  intros [<-|[<-|[<-|[<-|[]]]]];
    (split; [repeat constructor | discriminate]).
Qed.

Lemma clean_nil : clean [].
Proof.
  intros w Hw H. apply occurs_nil in H.
  destruct (unsafe_word_shape w Hw) as [_ Hne]. congruence.
Qed.

Lemma clean_middle (a b c : pystr) : clean (a ++ b ++ c) -> clean b.
Proof.
  intros H w Hw Hocc. apply (H w Hw).
  rewrite !lower_app. apply occurs_middle. exact Hocc.
Qed.

Lemma clean_app_l (a b : pystr) : clean (a ++ b) -> clean a.
Proof. intro H. apply (clean_middle [] a b). exact H. Qed.

Lemma clean_app_r (a b : pystr) : clean (a ++ b) -> clean b.
Proof.
  intro H. apply (clean_middle a b []). rewrite app_nil_r. exact H.
Qed.

Lemma clean_sep (a b : pystr) (d : char) :
  separator d -> clean a -> clean b -> clean (a ++ d :: b).
Proof.
  intros [Hl Hd] Ha Hb w Hw Hocc.
  destruct (unsafe_word_shape w Hw) as [Hshape _].
  rewrite lower_app in Hocc. change (d :: b) with ([d] ++ b) in Hocc.
  rewrite lower_app in Hocc.
  replace (lower [d]) with [d] in Hocc
    by (unfold lower; simpl; rewrite Hl; reflexivity).
  destruct (occurs_sep w (lower a) (lower b) d Hshape Hd Hocc) as [H|H].
  - exact (Ha w Hw H).
  - exact (Hb w Hw H).
Qed.

Lemma clean_cons_sep (b : pystr) (d : char) :
  separator d -> clean b -> clean (d :: b).
Proof. intros Hd Hb. apply (clean_sep [] b d Hd clean_nil Hb). Qed.

(** Deciding cleanness of a given text. *)
Lemma clean_decide (s : pystr) : any_in unsafe_words (lower s) = false -> clean s.
Proof.
  unfold any_in. intros H w Hw Hocc. apply contains_occurs in Hocc.
  assert (Ht : existsb (fun word => contains word (lower s)) unsafe_words = true)
    by (apply existsb_exists; exists w; auto).
  congruence.
Qed.

(** The ASCII characters that are not letters are separators. *)
Lemma separator_ascii (d : char) :
  is_ascii d = true -> is_alpha d = false -> separator d.
Proof.
  unfold separator, lower_char, is_alpha. intros Ha Hn.
  apply orb_false_iff in Hn. destruct Hn as [-> ->]. rewrite Ha. auto.
Qed.

Lemma clean_seps (a b seps : pystr) :
  Forall separator seps -> seps <> [] -> clean a -> clean b -> clean (a ++ seps ++ b).
Proof.
  intros Hs. revert a. induction Hs as [|d seps Hd Hs IH]; intros a Hne Ha Hb.
  - congruence.
  - simpl. apply clean_sep; [exact Hd | exact Ha |].
    destruct seps as [|d' seps]; [exact Hb|].
    apply (IH []); [discriminate | apply clean_nil | exact Hb].
Qed.

Lemma sub_fuel_clean (pat : matcher) (repl : pystr -> pystr) :
  captures_input pat -> repl_clean repl ->
  forall fuel p s, clean (p ++ s) -> clean (p ++ sub_fuel fuel pat repl s).
Proof.
  intros Hcap Hrepl. induction fuel as [|fuel IH]; intros p s H; simpl.
  - exact H.
  - destruct (pat s) as [[g rest]|] eqn:E.
    + destruct (Hcap _ _ _ E) as [pre ->].
      apply Hrepl.
      * apply clean_app_l in H. exact H.
      * apply clean_app_r in H. apply clean_middle in H. exact H.
      * apply (IH []). simpl. do 3 apply clean_app_r in H. exact H.
    + destruct s as [|c t]; [exact H|].
      replace (p ++ c :: sub_fuel fuel pat repl t)
        with ((p ++ [c]) ++ sub_fuel fuel pat repl t)
        by (rewrite <- app_assoc; reflexivity).
      apply IH. rewrite <- app_assoc. exact H.
Qed.

Lemma sub_clean (pat : matcher) (repl : pystr -> pystr) (s : pystr) :
  captures_input pat -> repl_clean repl -> clean s -> clean (sub pat repl s).
Proof.
  intros Hcap Hrepl H.
  exact (sub_fuel_clean pat repl Hcap Hrepl (S (List.length s)) [] s H).
Qed.

Lemma replace_fuel_clean (old new : pystr) :
  Forall separator new -> new <> [] ->
  forall fuel p s, clean (p ++ s) -> clean (p ++ replace_fuel fuel old new s).
Proof.
  intros Hsep Hne. induction fuel as [|fuel IH]; intros p s H; simpl.
  - exact H.
  - destruct (strip_prefix old s) as [rest|] eqn:E.
    + apply strip_prefix_spec in E. subst s.
      apply clean_seps; [exact Hsep | exact Hne | |].
      * apply clean_app_l in H. exact H.
      * apply (IH []). simpl. do 2 apply clean_app_r in H. exact H.
    + destruct s as [|c t]; [exact H|].
      replace (p ++ c :: replace_fuel fuel old new t)
        with ((p ++ [c]) ++ replace_fuel fuel old new t)
        by (rewrite <- app_assoc; reflexivity).
      apply IH. rewrite <- app_assoc. exact H.
Qed.

(** *** The patterns capture part of the input *)

Lemma match_tag_captures (sigil : char) : captures_input (match_tag sigil).
Proof.
  intros s g rest. unfold match_tag.
  destruct s as [|c t]; [discriminate|].
  destruct (N.eqb c sigil); [|discriminate].
  destruct (span is_word t) as [x r] eqn:E. apply span_app in E.
  destruct x as [|x0 x]; [discriminate|].
  intro H. injection H as <- <-. exists [c]. subst t. reflexivity.
Qed.

Lemma url_pattern_captures : captures_input url_pattern.
Proof.
  intros s g rest H. apply url_pattern_app in H. destruct H as [-> _].
  exists []. reflexivity.
Qed.

(** *** The replacements put no listed word into a text *)

(** Split a text at its separators; the pieces between them are the captured
    text, the surrounding text, or a fixed text that is checked by
    evaluation. *)
Ltac split_clean :=
  repeat first
    [ assumption
    | apply clean_nil
    | apply clean_sep; [apply separator_ascii; reflexivity | | ]
    | apply clean_cons_sep; [apply separator_ascii; reflexivity | ]
    | apply clean_decide; reflexivity ].

Lemma link_repl_clean : repl_clean link_repl.
Proof.
  intros a g b Ha Hg Hb. unfold link_repl. rewrite <- !app_assoc.
  change (clean (a ++ 60%N :: (lit "a href=" ++ 34%N :: (g ++ 34%N ::
            (lit " target=" ++ 34%N :: (lit "_blank" ++ 34%N :: ([] ++ 62%N ::
               (g ++ 60%N :: (lit "/a" ++ 62%N :: b))))))))).
  split_clean.
Qed.

Lemma hashtag_repl_clean : repl_clean hashtag_repl.
Proof.
  intros a g b Ha Hg Hb. unfold hashtag_repl. rewrite <- !app_assoc.
  change (clean (a ++ 60%N :: (lit "a href=" ++ 34%N :: ([] ++ 47%N ::
            (lit "hashtag" ++ 47%N :: (g ++ 34%N :: (lit " class=" ++ 34%N ::
               (lit "hashtag" ++ 34%N :: ([] ++ 62%N :: ([] ++ 35%N ::
                  (g ++ 60%N :: (lit "/a" ++ 62%N :: b)))))))))))).
  split_clean.
Qed.

Lemma mention_repl_clean : repl_clean mention_repl.
Proof.
  intros a g b Ha Hg Hb. unfold mention_repl. rewrite <- !app_assoc.
  change (clean (a ++ 60%N :: (lit "a href=" ++ 34%N :: ([] ++ 47%N ::
            (lit "user" ++ 47%N :: (g ++ 34%N :: (lit " class=" ++ 34%N ::
               (lit "mention" ++ 34%N :: ([] ++ 62%N :: ([] ++ 64%N ::
                  (g ++ 60%N :: (lit "/a" ++ 62%N :: b)))))))))))).
  split_clean.
Qed.

Lemma separator_emoji (e : char) :
  emoji_caseless -> In e emoji_code_points -> separator e.
Proof.
  intros Hcase Hin. pose proof (Hcase e Hin) as Hl.
  unfold separator, lower_char.
  cbn in Hin.
  repeat (destruct Hin as [<-|Hin]; [rewrite <- Hl; split; reflexivity|]).
  destruct Hin.
Qed.

Lemma process_emojis_clean (s : pystr) :
  emoji_caseless -> clean s -> clean (process_emojis s).
Proof.
  intros Hcase. unfold process_emojis.
  assert (H : forall l : list (pystr * pystr),
            Forall (fun e => fst e <> [] /\ snd e <> [] /\ Forall separator (snd e)) l ->
            forall s, clean s ->
            clean (fold_left (fun c (e : pystr * pystr) => replace (fst e) (snd e) c) l s)).
  { induction 1 as [|[old new] l (Ho & Hn & Hs) _ IH]; intros s0 Hs0; simpl; [exact Hs0|].
    apply IH. unfold replace. cbn [fst snd] in *.
    destruct old as [|o old]; [congruence|].
    exact (replace_fuel_clean (o :: old) new Hs Hn (S (List.length s0)) [] s0 Hs0). }
  apply H. unfold emoji_map.
  repeat (apply Forall_cons;
    [ split; [discriminate|]; split; [discriminate|];
      repeat (apply Forall_cons; [apply separator_emoji; [exact Hcase | cbn; tauto]|]);
      apply Forall_nil | ]).
  apply Forall_nil.
Qed.

Lemma process_links_clean (s : pystr) : clean s -> clean (process_links s).
Proof.
  intro H. apply sub_clean; [apply url_pattern_captures | apply link_repl_clean | exact H].
Qed.

Lemma process_hashtags_clean (s : pystr) : clean s -> clean (process_hashtags s).
Proof.
  intro H. apply sub_clean; [apply match_tag_captures | apply hashtag_repl_clean | exact H].
Qed.

Lemma process_mentions_clean (s : pystr) : clean s -> clean (process_mentions s).
Proof.
  intro H. apply sub_clean; [apply match_tag_captures | apply mention_repl_clean | exact H].
Qed.

(** [process_content] keeps a clean text clean. *)
Lemma processed_clean (c : pystr) : emoji_caseless -> clean c -> clean (processed c).
Proof.
  intros Hcase H. unfold processed.
  apply process_mentions_clean, process_hashtags_clean, process_links_clean,
    process_emojis_clean; assumption.
Qed.

(** ** Actions that leave the document alone *)

Create HintDb frame.

Lemma keeps_ret {A : Type} (x : A) : keeps_self (ret x).
Proof. intros s. reflexivity. Qed.

Lemma keeps_raise {A : Type} (e : exn) : keeps_self (@raise A e).
Proof. intros s. reflexivity. Qed.

Lemma keeps_throw {A : Type} (msg : pystr) : keeps_self (@throw A msg).
Proof. intros s. reflexivity. Qed.

Lemma keeps_lift {A : Type} (r : result A) : keeps_self (lift r).
Proof. intros s. reflexivity. Qed.

Lemma keeps_get_self : keeps_self get_self.
Proof. intros s. reflexivity. Qed.

Lemma keeps_get_db : keeps_self get_db.
Proof. intros s. reflexivity. Qed.

Lemma keeps_now : keeps_self now.
Proof. intros s. reflexivity. Qed.

Lemma keeps_update_db (f : DB -> DB) : keeps_self (update_db f).
Proof. intros s. reflexivity. Qed.

Lemma keeps_write_row : keeps_self write_row.
Proof. intros s. reflexivity. Qed.

Lemma keeps_get_doc {R : Type} (matches : R -> bool) (rows : list R) :
  keeps_self (get_doc matches rows).
Proof. intros s. unfold get_doc. destruct (find matches rows); reflexivity. Qed.

Lemma keeps_bind {A B : Type} (a : action A) (k : A -> action B) :
  keeps_self a -> (forall x, keeps_self (k x)) -> keeps_self (bind a k).
Proof.
  intros Ha Hk s. unfold bind. specialize (Ha s).
  destruct (a s) as [s1 [x|e]]; cbn [fst] in *.
  - rewrite Hk. exact Ha.
  - exact Ha.
Qed.

Lemma keeps_when (c : bool) (body : action unit) :
  keeps_self body -> keeps_self (when c body).
Proof. intro H. destruct c; [exact H | apply keeps_ret]. Qed.

Lemma keeps_for_each {A : Type} (l : list A) (body : A -> action unit) :
  (forall x, keeps_self (body x)) -> keeps_self (for_each l body).
Proof.
  intro H. induction l as [|x l IH]; cbn [for_each].
  - apply keeps_ret.
  - apply keeps_bind; [apply H | intros _; exact IH].
Qed.

#[local] Hint Resolve keeps_ret keeps_raise keeps_throw keeps_lift keeps_get_self
  keeps_get_db keeps_now keeps_update_db keeps_write_row keeps_get_doc keeps_bind keeps_when
  keeps_for_each : frame.

Ltac frame :=
  repeat first
    [ progress intros
    | solve [auto with frame]
    | apply keeps_bind
    | apply keeps_when
    | apply keeps_for_each
    | match goal with
      | |- keeps_self (match ?x with _ => _ end) => destruct x
      | |- keeps_self (if ?b then _ else _) => destruct b
      end ].

Lemma keeps_notify (who : pyval) (kind msg : pystr) : keeps_self (notify who kind msg).
Proof. unfold notify. frame. Qed.

#[local] Hint Resolve keeps_notify : frame.

Lemma keeps_send_notifications : keeps_self send_notifications.
Proof.
  unfold send_notifications, send_mention_notification,
    send_follower_notifications, send_department_notifications.
  frame.
Qed.

Lemma keeps_update_user_activity : keeps_self update_user_activity.
Proof. unfold update_user_activity. frame. Qed.

Lemma keeps_create_activity_log : keeps_self create_activity_log.
Proof. unfold create_activity_log. frame. Qed.

Lemma keeps_validate_content : keeps_self validate_content.
Proof. unfold validate_content. frame. Qed.

Lemma keeps_validate_mentions : keeps_self validate_mentions.
Proof. unfold validate_mentions. frame. Qed.

Lemma keeps_validate_location : keeps_self validate_location.
Proof. unfold validate_location. frame. Qed.

Lemma keeps_validate_moment_data : keeps_self validate_moment_data.
Proof. unfold validate_moment_data. frame. Qed.

(** ** Safety analysis *)

Lemma bind_ok {A B : Type} (a : action A) (k : A -> action B) (s s' : state) (y : B) :
  bind a k s = (s', Ok y) ->
  exists s1 x, a s = (s1, Ok x) /\ k x s1 = (s', Ok y).
Proof.
  unfold bind. destruct (a s) as [s1 [x|e]]; intro H.
  - exists s1, x. auto.
  - discriminate.
Qed.

Lemma keeps_self_run {A : Type} (a : action A) (s s' : state) (r : result A) :
  keeps_self a -> a s = (s', r) -> fst s' = fst s.
Proof. intros Hk H. specialize (Hk s). rewrite H in Hk. exact Hk. Qed.

(** A document that [validate] accepts keeps its content, and the content
    holds no inappropriate word. *)
Lemma validate_ok (m : Moment) (d : DB) (s' : state) :
  validate (m, d) = (s', Ok tt) ->
  content (fst s') = content m /\ contains_inappropriate_content m = false.
Proof.
  unfold validate. intro H.
  apply bind_ok in H. destruct H as (s1 & [] & H1 & H).
  apply bind_ok in H. destruct H as (s2 & [] & H2 & H).
  apply bind_ok in H. destruct H as (s3 & [] & H3 & H).
  apply bind_ok in H. destruct H as (s4 & [] & H4 & H5).
  rewrite validate_moment_data_run in H1.
  assert (s1 = (m, d)) by congruence. subst s1.
  destruct (set_defaults_run m d) as (m' & Hd & Hc & _).
  rewrite Hd in H2. assert (s2 = (m', d)) by congruence. subst s2.
  rewrite validate_content_run in H3.
  assert (s3 = (m', d)) by congruence. subst s3.
  apply (keeps_self_run _ _ _ _ keeps_validate_mentions) in H4.
  apply (keeps_self_run _ _ _ _ keeps_validate_location) in H5.
  cbn [fst] in H4. rewrite H5, H4. split; [exact Hc|].
  assert (Hi : contains_inappropriate_content m' = contains_inappropriate_content m)
    by (unfold contains_inappropriate_content; rewrite Hc; reflexivity).
  rewrite <- Hi.
  unfold contains_inappropriate_content in *.
  destruct (content m') as [[|x c]|]; try reflexivity.
  match type of H3 with
  | context [if ?b then _ else _] => destruct b; [discriminate|]
  end.
  match type of H3 with
  | context [if ?b then _ else _] => destruct b; [discriminate | reflexivity]
  end.
Qed.

Lemma unsafe_incl : incl unsafe_words inappropriate_words.
Proof.
  unfold unsafe_words, inappropriate_words. intros w H.
  cbn [In] in *. tauto.
Qed.

Lemma not_inappropriate_clean (m : Moment) (c : pystr) :
  contains_inappropriate_content m = false -> content m = Some c -> clean c.
Proof.
  unfold contains_inappropriate_content. intros H Hc. rewrite Hc in H.
  destruct c as [|x c]; [apply clean_nil|].
  intros w Hw Hocc. apply contains_occurs in Hocc.
  assert (Ht : existsb (fun word => contains word (lower (x :: c))) inappropriate_words = true).
  { apply existsb_exists. exists w. split; [apply unsafe_incl; exact Hw | exact Hocc]. }
  cbv zeta in H. congruence.
Qed.

Lemma count_in_clean (c : pystr) : clean c -> count_in unsafe_words (lower c) = 0.
Proof.
  intro H. unfold count_in.
  assert (Hf : forall ws, incl ws unsafe_words ->
            filter (fun word => contains word (lower c)) ws = []).
  { induction ws as [|w ws IH]; intro Hi; simpl; [reflexivity|].
    assert (Hw : contains w (lower c) = false).
    { apply contains_false. apply H. apply Hi. left. reflexivity. }
    rewrite Hw. apply IH. intros x Hx. apply Hi. right. exact Hx. }
  rewrite Hf; [reflexivity | apply incl_refl].
Qed.

Lemma analyze_safety_clean (m : Moment) :
  (forall c, content m = Some c -> clean c) -> analyze_safety m = 1%float.
Proof.
  intro H. unfold analyze_safety.
  destruct (content m) as [[|x c]|]; try reflexivity.
  cbv zeta. rewrite (count_in_clean _ (H _ eq_refl)). reflexivity.
Qed.

(** What [before_save] makes of the content. *)
Lemma before_save_content (m : Moment) (d : DB) (s' : state) :
  before_save (m, d) = (s', Ok tt) ->
  content (fst s')
  = match content m with
    | Some ((_ :: _) as c) => Some (processed c)
    | o => o
    end.
Proof.
  intro H.
  assert (Hblank : (content m = None \/ content m = Some []) ->
                   content (fst s') = content m).
  { intro Hb. unfold before_save in H.
    apply bind_ok in H. destruct H as (s1 & [] & H1 & H).
    apply bind_ok in H. destruct H as (s2 & [] & H2 & H).
    apply bind_ok in H. destruct H as (s3 & [] & H3 & H).
    apply bind_ok in H. destruct H as (s4 & [] & H4 & H5).
    assert (E1 : s1 = (m, d)).
    { unfold process_content in H1. revert H1. run.
      destruct Hb as [-> | ->]; intro H1; congruence. }
    subst s1.
    assert (E2 : s2 = (m, d)).
    { unfold extract_hashtags in H2. revert H2. run.
      destruct Hb as [-> | ->]; intro H2; congruence. }
    subst s2.
    assert (E3 : s3 = (m, d)).
    { unfold extract_mentions in H3. revert H3. run.
      destruct Hb as [-> | ->]; intro H3; congruence. }
    subst s3.
    destruct (set_privacy_settings_run m d) as [v Hv].
    rewrite Hv in H4. assert (s4 = (set_visibility (Some v) m, d)) by congruence.
    subst s4.
    unfold generate_preview in H5. revert H5. run. cbn.
    repeat match goal with
           | |- context [match ?x with _ => _ end] => destruct x; cbn
           end; intro H5; try discriminate; injection H5 as <-; reflexivity. }
  destruct (content m) as [[|x c]|] eqn:Hc; auto.
  destruct (before_save_run m d (x :: c) Hc ltac:(discriminate))
    as (m' & d' & Hrun & Hcontent & _).
  rewrite Hrun in H. injection H as <-. exact Hcontent.
Qed.

(** C8. The words [analyze_safety] looks for are among those for which
    [validate_content] rejects a document. So [analyze_safety] gives 1.0 for
    every document that [validate] accepts, before and after the defaults
    are set. The same holds for the content as [before_save] leaves it for
    the row that is written and for [process_ai_analysis], the processed
    content, which holds none of the words either (emoji being caseless).
    [process_ai_analysis] itself stops at [now().isoformat()] and leaves
    the document as it is: it records no other score. *)
Theorem analyze_safety_validated :
  incl unsafe_words inappropriate_words
  /\ (forall m d s', validate (m, d) = (s', Ok tt) ->
        analyze_safety m = 1%float /\ analyze_safety (fst s') = 1%float)
  /\ (emoji_caseless ->
      forall m d s1 s2,
        validate (m, d) = (s1, Ok tt) -> before_save s1 = (s2, Ok tt) ->
        analyze_safety (fst s2) = 1%float
        /\ analyze_safety (fst (fst (write_row s2))) = 1%float)
  /\ (forall save s, process_ai_analysis save s = (s, Raise AttributeError)).
Proof.
  split; [exact unsafe_incl|]. split; [|split].
  - intros m d s' H. apply validate_ok in H. destruct H as [Hc Hi].
    split; apply analyze_safety_clean; intros c Hcontent.
    + exact (not_inappropriate_clean m c Hi Hcontent).
    + rewrite Hc in Hcontent. exact (not_inappropriate_clean m c Hi Hcontent).
  - intros Hcase m d [m1 d1] [m2 d2] H1 H2.
    apply validate_ok in H1. cbn [fst] in H1. destruct H1 as [Hc1 Hi].
    apply before_save_content in H2. cbn [fst] in H2. rewrite Hc1 in H2.
    assert (Hclean2 : forall c, content m2 = Some c -> clean c).
    { intros c Hc. rewrite H2 in Hc. destruct (content m) as [[|x c0]|] eqn:Em.
      - injection Hc as <-. apply clean_nil.
      - injection Hc as <-. apply processed_clean; [exact Hcase|].
        exact (not_inappropriate_clean m _ Hi Em).
      - discriminate. }
    split; exact (analyze_safety_clean m2 Hclean2).
  - exact process_ai_analysis_run.
Qed.

(** ** Lists and options *)

Lemma opt_str_eqb_refl (a : option pystr) : opt_str_eqb a a = true.
Proof. apply opt_str_eqb_eq. reflexivity. Qed.

Lemma NoDup_snoc {A : Type} (l : list A) (x : A) :
  NoDup l -> ~ In x l -> NoDup (l ++ [x]).
Proof.
  induction l as [|y l IH]; simpl; intros Hnd Hx.
  - repeat constructor. intros [].
  - inversion Hnd as [|? ? Hy Hl]; subst. constructor.
    + intro Hin. apply in_app_or in Hin. destruct Hin as [Hin|[<-|[]]]; tauto.
    + apply IH; tauto.
Qed.


(** ** The feed: order and size *)

Lemma date_leb_total (a b : option timestamp) : date_leb a b = false -> date_leb b a = true.
Proof.
  destruct a as [x|], b as [y|]; simpl; try discriminate; auto.
  intro H. apply N.leb_gt in H. apply N.leb_le. lia.
Qed.

Lemma date_leb_trans (a b c : option timestamp) :
  date_leb a b = true -> date_leb b c = true -> date_leb a c = true.
Proof.
  destruct a as [x|], b as [y|], c as [z|]; simpl; try discriminate; auto.
  intros H1 H2. apply N.leb_le in H1, H2. apply N.leb_le. lia.
Qed.

Lemma insert_desc_sorted (m : Moment) (l : list Moment) :
  StronglySorted not_posted_after l -> StronglySorted not_posted_after (insert_desc m l).
Proof.
  induction l as [|x l IH]; simpl; intro H.
  - repeat constructor.
  - inversion H as [|? ? Hl Hx]; subst.
    destruct (date_leb (posted_date m) (posted_date x)) eqn:E.
    + constructor; [apply IH; exact Hl|].
      apply Forall_forall. intros y Hy. apply In_insert_desc in Hy.
      destruct Hy as [->|Hy]; [exact E|].
      rewrite Forall_forall in Hx. apply Hx. exact Hy.
    + apply date_leb_total in E. constructor; [exact H|].
      constructor; [exact E|].
      apply Forall_forall. intros y Hy. rewrite Forall_forall in Hx.
      unfold not_posted_after in *.
      apply (date_leb_trans _ (posted_date x)); [apply Hx; exact Hy | exact E].
Qed.

Lemma order_by_sorted (l : list Moment) :
  StronglySorted not_posted_after (order_by_posted_date_desc l).
Proof.
  unfold order_by_posted_date_desc. induction l as [|x l IH]; simpl.
  - constructor.
  - apply insert_desc_sorted. exact IH.
Qed.

Lemma StronglySorted_skipn {A : Type} (R : A -> A -> Prop) (n : nat) (l : list A) :
  StronglySorted R l -> StronglySorted R (skipn n l).
Proof.
  revert l. induction n as [|n IH]; intros l H; [exact H|].
  destruct l as [|x l]; [constructor|]. simpl.
  inversion H; subst. apply IH. assumption.
Qed.

Lemma StronglySorted_firstn {A : Type} (R : A -> A -> Prop) (n : nat) (l : list A) :
  StronglySorted R l -> StronglySorted R (firstn n l).
Proof.
  revert l. induction n as [|n IH]; intros l H; [constructor|].
  destruct l as [|x l]; [constructor|]. simpl.
  inversion H as [|? ? Hl Hx]; subst. constructor; [apply IH; exact Hl|].
  apply Forall_forall. intros y Hy. rewrite Forall_forall in Hx.
  apply Hx. apply (In_firstn n l y Hy).
Qed.

Lemma StronglySorted_map_columns (l : list Moment) :
  StronglySorted not_posted_after l ->
  StronglySorted not_posted_after (map selected_columns l).
Proof.
  induction 1 as [|x l Hl IH Hx]; simpl; constructor; [exact IH|].
  apply Forall_forall. intros y Hy. apply in_map_iff in Hy.
  destruct Hy as (z & <- & Hz). rewrite Forall_forall in Hx. exact (Hx z Hz).
Qed.

(** The rows of the feed in terms of the table. *)
Lemma get_moment_feed_run (user : pystr) (limit offset : nat) (s s' : state)
    (rows : list Moment) :
  get_moment_feed user limit offset s = (s', Ok rows) ->
  exists dep,
    department_subquery (snd s) user = Ok dep
    /\ s' = s
    /\ rows = map selected_columns
                (firstn limit (skipn offset (order_by_posted_date_desc
                   (filter (feed_where (followed_by (snd s) user)
                              (users_of_department (snd s) dep))
                      (tabMoment (snd s)))))).
Proof.
  destruct s as [self d]. unfold get_moment_feed. run.
  destruct (department_subquery d user) as [dep|e]; [|discriminate].
  intro H. injection H as <- <-. exists dep. auto.
Qed.

(** X7. The feed is read only, holds at most [limit] rows, and its rows come
    by posting date, latest first, the rows without a date last. *)
Theorem feed_page (user : pystr) (limit offset : nat) (s s' : state) (rows : list Moment) :
  get_moment_feed user limit offset s = (s', Ok rows) ->
  s' = s
  /\ List.length rows <= limit
  /\ StronglySorted not_posted_after rows.
Proof.
  intro H. apply get_moment_feed_run in H. destruct H as (dep & _ & -> & ->).
  split; [reflexivity|]. split.
  - rewrite length_map, length_firstn. lia.
  - apply StronglySorted_map_columns, StronglySorted_firstn, StronglySorted_skipn,
      order_by_sorted.
Qed.

Lemma length_insert_desc (m : Moment) (l : list Moment) :
  List.length (insert_desc m l) = S (List.length l).
Proof.
  induction l as [|x l IH]; simpl; [reflexivity|].
  destruct (date_leb (posted_date m) (posted_date x)); simpl; [rewrite IH|]; reflexivity.
Qed.

Lemma length_order_by (l : list Moment) :
  List.length (order_by_posted_date_desc l) = List.length l.
Proof.
  unfold order_by_posted_date_desc. induction l as [|x l IH]; simpl; [reflexivity|].
  rewrite length_insert_desc, IH. reflexivity.
Qed.

Lemma followed_by_In (d : DB) (user a : pystr) :
  In {| follower := user; following := a |} (tabUserFollow d) ->
  existsb (Str.eqb a) (followed_by d user) = true.
Proof.
  intro H. apply existsb_exists. exists a. split; [|apply str_eqb_refl].
  unfold followed_by. apply in_map_iff.
  exists {| follower := user; following := a |}. split; [reflexivity|].
  apply filter_In. split; [exact H | apply str_eqb_refl].
Qed.

Lemma visible_feed_where (d : DB) (user : pystr) (dep : option pystr) (m : Moment) :
  department_subquery d user = Ok dep ->
  visible d user m ->
  feed_where (followed_by d user) (users_of_department d dep) m = true.
Proof.
  intros Hdep Hv. unfold feed_where, author_in.
  destruct Hv as [H|[[H (a & Ha & Hin)]|[H (a & dp & Ha & Hu & Hin)]]]; rewrite H.
  - rewrite opt_str_eqb_refl. reflexivity.
  - rewrite Ha, (followed_by_In d user a Hin), opt_str_eqb_refl.
    cbn [andb]. rewrite orb_true_r. reflexivity.
  - rewrite Ha.
    assert (Hd : dep = Some dp).
    { unfold department_subquery in Hdep.
      assert (Hf : In {| employee_user := user; department := Some dp |}
                     (filter (fun e => Str.eqb (employee_user e) user) (tabEmployee d)))
        by (apply filter_In; split; [exact Hu | apply str_eqb_refl]).
      destruct (filter _ (tabEmployee d)) as [|e [|e' l]]; try discriminate.
      - destruct Hf.
      - destruct Hf as [->|[]]. cbn in Hdep. congruence. }
    subst dep. cbn [users_of_department].
    assert (Hex : existsb (Str.eqb a)
                    (map employee_user
                       (filter (fun e => opt_str_eqb (department e) (Some dp))
                          (tabEmployee d))) = true).
    { apply existsb_exists. exists a. split; [|apply str_eqb_refl].
      apply in_map_iff. exists {| employee_user := a; department := Some dp |}.
      split; [reflexivity|]. apply filter_In. split; [exact Hin|].
      apply opt_str_eqb_refl. }
    rewrite Hex, opt_str_eqb_refl. cbn [andb]. apply orb_true_r.
Qed.

(** X8. With a page that covers the table, the feed leaves no visible moment
    out: every row of the Moment table that the user may see is returned. *)
Theorem feed_complete (user : pystr) (s s' : state) (rows : list Moment) (m : Moment) :
  get_moment_feed user (List.length (tabMoment (snd s))) 0 s = (s', Ok rows) ->
  In m (tabMoment (snd s)) ->
  visible (snd s) user m ->
  In (selected_columns m) rows.
Proof.
  intros H Hin Hv. apply get_moment_feed_run in H.
  destruct H as (dep & Hdep & _ & ->).
  apply in_map. cbn [skipn]. rewrite firstn_all2.
  - apply In_order_by. apply filter_In. split; [exact Hin|].
    apply (visible_feed_where _ _ dep); assumption.
  - rewrite length_order_by. apply filter_length_le.
Qed.


(** ** The details of a moment *)

Lemma In_insert_by {A : Type} (leb : A -> A -> bool) (x y : A) (l : list A) :
  In y (insert_by leb x l) <-> y = x \/ In y l.
Proof.
  induction l as [|z l IH]; simpl.
  - intuition congruence.
  - destruct (leb x z); simpl; [|rewrite IH]; intuition congruence.
Qed.

Lemma In_sort_by {A : Type} (leb : A -> A -> bool) (y : A) (l : list A) :
  In y (sort_by leb l) <-> In y l.
Proof.
  unfold sort_by. induction l as [|x l IH]; simpl; [reflexivity|].
  rewrite In_insert_by, IH. intuition congruence.
Qed.

Lemma insert_by_sorted {A : Type} (leb : A -> A -> bool) (x : A) (l : list A) :
  (forall a b, leb a b = false -> leb b a = true) ->
  (forall a b c, leb a b = true -> leb b c = true -> leb a c = true) ->
  StronglySorted (fun a b => leb a b = true) l ->
  StronglySorted (fun a b => leb a b = true) (insert_by leb x l).
Proof.
  intros Htot Htrans. induction l as [|z l IH]; simpl; intro H.
  - repeat constructor.
  - inversion H as [|? ? Hl Hz]; subst.
    destruct (leb x z) eqn:E.
    + constructor; [exact H|]. constructor; [exact E|].
      apply Forall_forall. intros y Hy. rewrite Forall_forall in Hz.
      apply (Htrans x z y E). apply Hz. exact Hy.
    + constructor; [apply IH; exact Hl|].
      apply Forall_forall. intros y Hy. apply In_insert_by in Hy.
      destruct Hy as [->|Hy]; [apply Htot; exact E|].
      rewrite Forall_forall in Hz. apply Hz. exact Hy.
Qed.

Lemma sort_by_sorted {A : Type} (leb : A -> A -> bool) (l : list A) :
  (forall a b, leb a b = false -> leb b a = true) ->
  (forall a b c, leb a b = true -> leb b c = true -> leb a c = true) ->
  StronglySorted (fun a b => leb a b = true) (sort_by leb l).
Proof.
  intros Htot Htrans. unfold sort_by. induction l as [|x l IH]; simpl.
  - constructor.
  - apply insert_by_sorted; assumption.
Qed.

Lemma StronglySorted_map {A B : Type} (R : A -> A -> Prop) (R' : B -> B -> Prop)
    (f : A -> B) (l : list A) :
  (forall a b, R a b -> R' (f a) (f b)) ->
  StronglySorted R l -> StronglySorted R' (map f l).
Proof.
  intro Hf. induction 1 as [|x l Hl IH Hx]; simpl; constructor; [exact IH|].
  apply Forall_forall. intros y Hy. apply in_map_iff in Hy.
  destruct Hy as (z & <- & Hz). rewrite Forall_forall in Hx. apply Hf, Hx, Hz.
Qed.

Lemma get_moment_details_run (id : pystr) (s s' : state) (r : MomentDetails) :
  get_moment_details id s = (s', Ok r) ->
  s' = s
  /\ moment_by_id (snd s) id = Some (details_moment r)
  /\ details_comments r
     = map comment_row
         (sort_by (fun a b => (comment_date a <=? comment_date b)%N)
            (comments_of (snd s) (name (details_moment r))))
  /\ details_likes r
     = map like_row
         (sort_by (fun a b => (like_date b <=? like_date a)%N)
            (likes_of (snd s) (name (details_moment r)))).
Proof.
  destruct s as [self d]. unfold get_moment_details. run.
  destruct (moment_by_id d id) as [m|]; [|discriminate].
  intro H. injection H as <- <-. cbn. auto.
Qed.

(** X10. [get_moment_details] is read only. The document it returns is a row
    of the Moment table with the identifier asked for; its comments are
    exactly the comment records of that document, oldest first; its likes
    are exactly the like records of that document, latest first. *)
Theorem moment_details (id : pystr) (s s' : state) (r : MomentDetails) :
  get_moment_details id s = (s', Ok r) ->
  s' = s
  /\ In (details_moment r) (tabMoment (snd s))
  /\ moment_id (details_moment r) = Some id
  /\ (forall row, In row (details_comments r) <->
        exists c, In c (tabMomentComment (snd s))
                  /\ name (details_moment r) <> None
                  /\ comment_moment c = name (details_moment r)
                  /\ row = comment_row c)
  /\ (forall row, In row (details_likes r) <->
        exists l, In l (tabMomentLike (snd s))
                  /\ name (details_moment r) <> None
                  /\ like_moment_name l = name (details_moment r)
                  /\ row = like_row l)
  /\ StronglySorted (fun a b => (c_comment_date a <= c_comment_date b)%N) (details_comments r)
  /\ StronglySorted (fun a b => (l_like_date b <= l_like_date a)%N) (details_likes r).
Proof.
  intro H. apply get_moment_details_run in H.
  destruct H as (-> & Hm & Hc & Hl).
  split; [reflexivity|].
  unfold moment_by_id in Hm. apply find_some in Hm. destruct Hm as [Hin Hid].
  apply opt_str_eqb_eq in Hid.
  split; [exact Hin|]. split; [exact Hid|].
  rewrite Hc, Hl. repeat split.
  - intro Hrow. apply in_map_iff in Hrow. destruct Hrow as (c & <- & Hc').
    apply In_sort_by in Hc'. unfold comments_of in Hc'.
    destruct (name (details_moment r)) as [n|]; [|destruct Hc'].
    apply filter_In in Hc'. destruct Hc' as [Hc1 Hc2].
    apply opt_str_eqb_eq in Hc2. exists c. repeat split; auto. discriminate.
  - intros (c & Hc1 & Hn & Hc2 & ->). apply in_map. apply In_sort_by.
    unfold comments_of. destruct (name (details_moment r)) as [n|]; [|congruence].
    apply filter_In. split; [exact Hc1 | apply opt_str_eqb_eq; exact Hc2].
  - intro Hrow. apply in_map_iff in Hrow. destruct Hrow as (l & <- & Hl').
    apply In_sort_by in Hl'. unfold likes_of in Hl'.
    destruct (name (details_moment r)) as [n|]; [|destruct Hl'].
    apply filter_In in Hl'. destruct Hl' as [Hl1 Hl2].
    apply opt_str_eqb_eq in Hl2. exists l. repeat split; auto. discriminate.
  - intros (l & Hl1 & Hn & Hl2 & ->). apply in_map. apply In_sort_by.
    unfold likes_of. destruct (name (details_moment r)) as [n|]; [|congruence].
    apply filter_In. split; [exact Hl1 | apply opt_str_eqb_eq; exact Hl2].
  - apply (StronglySorted_map
             (fun a b => (comment_date a <=? comment_date b)%N = true)).
    + intros a b Hab. apply N.leb_le. exact Hab.
    + apply sort_by_sorted.
      * intros a b Hab. apply N.leb_gt in Hab. apply N.leb_le. lia.
      * intros a b c Hab Hbc. apply N.leb_le in Hab, Hbc. apply N.leb_le. lia.
  - apply (StronglySorted_map (fun a b => (like_date b <=? like_date a)%N = true)).
    + intros a b Hab. apply N.leb_le. exact Hab.
    + apply sort_by_sorted.
      * intros a b Hab. apply N.leb_gt in Hab. apply N.leb_le. lia.
      * intros a b c Hab Hbc. apply N.leb_le in Hab, Hbc. apply N.leb_le. lia.
Qed.


(** ** Validation and defaults *)

Lemma keeps_db_ret {A : Type} (x : A) : keeps_db (ret x).
Proof. intros s. reflexivity. Qed.

Lemma keeps_db_raise {A : Type} (e : exn) : keeps_db (@raise A e).
Proof. intros s. reflexivity. Qed.

Lemma keeps_db_throw {A : Type} (msg : pystr) : keeps_db (@throw A msg).
Proof. intros s. reflexivity. Qed.

Lemma keeps_db_lift {A : Type} (r : result A) : keeps_db (lift r).
Proof. intros s. reflexivity. Qed.

Lemma keeps_db_get_self : keeps_db get_self.
Proof. intros s. reflexivity. Qed.

Lemma keeps_db_get_db : keeps_db get_db.
Proof. intros s. reflexivity. Qed.

Lemma keeps_db_now : keeps_db now.
Proof. intros s. reflexivity. Qed.

Lemma keeps_db_update_self (f : Moment -> Moment) : keeps_db (update_self f).
Proof. intros s. reflexivity. Qed.

Lemma keeps_db_bind {A B : Type} (a : action A) (k : A -> action B) :
  keeps_db a -> (forall x, keeps_db (k x)) -> keeps_db (bind a k).
Proof.
  intros Ha Hk s. unfold bind. specialize (Ha s).
  destruct (a s) as [s1 [x|e]]; cbn [fst] in *.
  - rewrite Hk. exact Ha.
  - exact Ha.
Qed.

Lemma keeps_db_when (c : bool) (body : action unit) :
  keeps_db body -> keeps_db (when c body).
Proof. intro H. destruct c; [exact H | apply keeps_db_ret]. Qed.

Lemma keeps_db_for_each {A : Type} (l : list A) (body : A -> action unit) :
  (forall x, keeps_db (body x)) -> keeps_db (for_each l body).
Proof.
  intro H. induction l as [|x l IH]; cbn [for_each].
  - apply keeps_db_ret.
  - apply keeps_db_bind; [apply H | intros _; exact IH].
Qed.

Create HintDb readonly.

#[local] Hint Resolve keeps_db_ret keeps_db_raise keeps_db_throw keeps_db_lift
  keeps_db_get_self keeps_db_get_db keeps_db_now keeps_db_update_self keeps_db_bind
  keeps_db_when keeps_db_for_each : readonly.

Ltac readonly :=
  repeat first
    [ progress intros
    | solve [auto with readonly]
    | apply keeps_db_bind
    | apply keeps_db_when
    | apply keeps_db_for_each
    | match goal with
      | |- keeps_db (match ?x with _ => _ end) => destruct x
      | |- keeps_db (if ?b then _ else _) => destruct b
      end ].

Lemma keeps_db_validate : keeps_db validate.
Proof.
  unfold validate, validate_moment_data, set_defaults, validate_content,
    validate_mentions, validate_location.
  readonly.
Qed.

Lemma keeps_db_run {A : Type} (a : action A) (s s' : state) (r : result A) :
  keeps_db a -> a s = (s', r) -> snd s' = snd s.
Proof. intros Hk H. specialize (Hk s). rewrite H in Hk. exact Hk. Qed.

(** What [set_defaults] makes of a document. *)
Lemma set_defaults_result (m : Moment) (d : DB) :
  exists m',
    set_defaults (m, d) = ((m', d), Ok tt)
    /\ moment_type m' = (if truthy_str (moment_type m) then moment_type m
                         else Some (lit "Text"))
    /\ privacy m' = (if truthy_str (privacy m) then privacy m else Some (lit "Public"))
    /\ status m' = (if truthy_str (status m) then status m else Some (lit "Published"))
    /\ posted_date m' = (match posted_date m with
                         | Some t => Some t
                         | None => Some (clock d)
                         end)
    /\ content m' = content m /\ attachments m' = attachments m
    /\ author m' = author m /\ mentions m' = mentions m
    /\ location m' = location m /\ name m' = name m.
Proof.
  unfold set_defaults. run.
  destruct (truthy_str (moment_type m)); destruct (truthy_str (privacy m));
    destruct (truthy_str (status m)); destruct (posted_date m) eqn:E; cbn;
    eexists; (split; [reflexivity|]); cbn; rewrite ?E; repeat split; reflexivity.
Qed.

Lemma set_defaults_filled (m : Moment) (d : DB) :
  exists m',
    set_defaults (m, d) = ((m', d), Ok tt)
    /\ (~ blank (moment_type m') /\ ~ blank (privacy m') /\ ~ blank (status m')
        /\ posted_date m' <> None)
    /\ ((~ blank (moment_type m) -> moment_type m' = moment_type m)
        /\ (~ blank (privacy m) -> privacy m' = privacy m)
        /\ (~ blank (status m) -> status m' = status m)
        /\ (posted_date m <> None -> posted_date m' = posted_date m))
    /\ set_defaults (m', d) = ((m', d), Ok tt).
Proof.
  destruct (set_defaults_result m d) as (m' & Hrun & Ht & Hp & Hs & Hd & _).
  exists m'. split; [exact Hrun|].
  assert (Hfill : forall (o : option pystr) (v : pystr),
            v <> [] -> ~ blank (if truthy_str o then o else Some v)).
  { intros o v Hv. rewrite <- truthy_str_false.
    destruct (truthy_str o) eqn:E; [congruence|].
    destruct v; [congruence | cbn; discriminate]. }
  assert (Hkeep : forall (o : option pystr) (v : pystr),
            ~ blank o -> (if truthy_str o then o else Some v) = o).
  { intros o v Hb. destruct (truthy_str o) eqn:E; [reflexivity|].
    apply truthy_str_false in E. contradiction. }
  split; [|split].
  - rewrite Ht, Hp, Hs, Hd. repeat split; try (apply Hfill; discriminate).
    destruct (posted_date m); discriminate.
  - rewrite Ht, Hp, Hs, Hd. repeat split; try apply Hkeep.
    destruct (posted_date m); congruence.
  - unfold set_defaults. run.
    assert (Htrue : forall (o : option pystr) (v : pystr),
              v <> [] -> truthy_str (if truthy_str o then o else Some v) = true).
    { intros o v Hv. destruct (truthy_str o) eqn:E; [exact E|].
      destruct v; [congruence | reflexivity]. }
    rewrite Ht, Hp, Hs, Hd.
    rewrite !Htrue by discriminate. cbn.
    destruct (posted_date m); reflexivity.
Qed.

(** X12. [set_defaults] fills what is blank and nothing else: afterwards the
    moment type, the privacy and the status are not blank and the posting
    date is set; each of them that was set before is unchanged; and a second
    call changes nothing. *)
Theorem set_defaults_fills (m : Moment) (d : DB) :
  exists m',
    set_defaults (m, d) = ((m', d), Ok tt)
    /\ (~ blank (moment_type m') /\ ~ blank (privacy m') /\ ~ blank (status m')
        /\ posted_date m' <> None)
    /\ ((~ blank (moment_type m) -> moment_type m' = moment_type m)
        /\ (~ blank (privacy m) -> privacy m' = privacy m)
        /\ (~ blank (status m) -> status m' = status m)
        /\ (posted_date m <> None -> posted_date m' = posted_date m))
    /\ set_defaults (m', d) = ((m', d), Ok tt).
Proof. exact (set_defaults_filled m d). Qed.

(** X13. [validate] never writes to the database, whatever its outcome. When
    it returns, the moment type is the one the document came with (the
    default "Text" is never applied, a document without a type being
    rejected first), privacy, status and posting date are set, and content,
    attachments, author, mentions and location are untouched. *)
Theorem validate_effect (m : Moment) (d : DB) :
  snd (fst (validate (m, d))) = d
  /\ (forall s', validate (m, d) = (s', Ok tt) ->
        moment_type (fst s') = moment_type m /\ ~ blank (moment_type m)
        /\ ~ blank (privacy (fst s')) /\ ~ blank (status (fst s'))
        /\ posted_date (fst s') <> None
        /\ content (fst s') = content m /\ attachments (fst s') = attachments m
        /\ author (fst s') = author m /\ mentions (fst s') = mentions m
        /\ location (fst s') = location m).
Proof.
  split; [apply (keeps_db_validate (m, d))|].
  intros s' H. unfold validate in H.
  apply bind_ok in H. destruct H as (s1 & [] & H1 & H).
  apply bind_ok in H. destruct H as (s2 & [] & H2 & H).
  apply bind_ok in H. destruct H as (s3 & [] & H3 & H).
  apply bind_ok in H. destruct H as (s4 & [] & H4 & H5).
  rewrite validate_moment_data_run in H1.
  assert (Htype : truthy_str (moment_type m) = true).
  { destruct (negb (truthy_str (content m)) && is_empty (attachments m));
      [discriminate|].
    destruct (negb (truthy_str (author m))); [discriminate|].
    destruct (truthy_str (moment_type m)); [reflexivity | discriminate]. }
  assert (s1 = (m, d)) by congruence. subst s1.
  destruct (set_defaults_filled m d) as (m' & Hd & (Hb1 & Hb2 & Hb3 & Hb4) & (Hk & _) & _).
  destruct (set_defaults_result m d) as (m'' & Hd' & _ & _ & _ & _ & Hc & Ha & Hau & Hme & Hl & _).
  assert (m'' = m') by congruence. subst m''.
  rewrite Hd in H2. assert (s2 = (m', d)) by congruence. subst s2.
  apply (keeps_self_run _ _ _ _ keeps_validate_content) in H3.
  apply (keeps_self_run _ _ _ _ keeps_validate_mentions) in H4.
  apply (keeps_self_run _ _ _ _ keeps_validate_location) in H5.
  cbn [fst] in H3. rewrite H5, H4, H3.
  assert (Hnb : ~ blank (moment_type m)).
  { intro Hb. apply truthy_str_false in Hb. congruence. }
  repeat split; auto.
Qed.

(** ** Saving: what [before_save] needs and what it leaves *)

Arguments findall : simpl never.
Arguments processed : simpl never.

Lemma create_hashtag_record_run (h : pystr) (m : Moment) (d : DB) :
  create_hashtag_record h (m, d)
  = ((m, set_tabHashtag (record_hashtag (clock d) (tabHashtag d) h) d), Ok tt).
Proof.
  unfold create_hashtag_record, record_hashtag, hashtag_exists. run.
  destruct (existsb (fun r => Str.eqb (hashtag r) h) (tabHashtag d)); reflexivity.
Qed.

Lemma for_each_create_hashtag_record (tags : list pystr) (m : Moment) (d : DB) :
  for_each tags create_hashtag_record (m, d)
  = ((m, set_tabHashtag (fold_left (record_hashtag (clock d)) tags (tabHashtag d)) d),
     Ok tt).
Proof.
  revert d. induction tags as [|h tags IH]; intro d; cbn [for_each fold_left].
  - destruct d; reflexivity.
  - unfold bind. rewrite create_hashtag_record_run, IH. destruct d; reflexivity.
Qed.

Lemma for_each_create_mention_record (found : list pystr) (m : Moment) (d : DB) :
  for_each found create_mention_record (m, d)
  = ((m, set_tabMomentMention
           (tabMomentMention d ++ map (mention_record m (clock d)) found) d),
     Ok tt).
Proof.
  revert d. induction found as [|u found IH]; intro d; cbn [for_each map].
  - rewrite app_nil_r. destruct d; reflexivity.
  - unfold bind at 1. unfold create_mention_record at 1. run. rewrite IH.
    destruct d; cbn. rewrite <- app_assoc. reflexivity.
Qed.

(** The document and the database that [before_save] leaves for a document
    with content. *)
Lemma before_save_result (m : Moment) (d : DB) (c : pystr) :
  content m = Some c -> c <> [] ->
  exists m',
    before_save (m, d)
    = ((m',
        set_tabMomentMention
          (tabMomentMention d
           ++ map (mention_record m (clock d)) (findall mention_pattern (processed c)))
          (set_tabHashtag
             (fold_left (record_hashtag (clock d)) (findall hashtag_pattern (processed c))
                (tabHashtag d)) d)),
       Ok tt)
    /\ content m' = Some (processed c)
    /\ hashtags m' = Some (Dumps (PList (map PStr (findall hashtag_pattern (processed c)))))
    /\ mentions m'
       = MentionsText (Dumps (PList (map PStr (findall mention_pattern (processed c)))))
    /\ name m' = name m /\ author m' = author m /\ privacy m' = privacy m.
Proof.
  intros Hc Hne. pose proof (processed_nonempty c Hne) as Hp.
  unfold before_save, bind.
  rewrite (process_content_run m d c Hc Hne).
  assert (E2 : forall m0 d0, content m0 = Some (processed c) ->
            extract_hashtags (m0, d0)
            = ((set_hashtags (Some (Dumps (PList (map PStr
                  (findall hashtag_pattern (processed c)))))) m0,
                set_tabHashtag (fold_left (record_hashtag (clock d0))
                  (findall hashtag_pattern (processed c)) (tabHashtag d0)) d0), Ok tt)).
  { intros m0 d0 H0. unfold extract_hashtags. run. rewrite H0.
    destruct (processed c) as [|x p] eqn:Ep; [congruence|]. cbv beta iota zeta.
    rewrite for_each_create_hashtag_record. reflexivity. }
  assert (E3 : forall m0 d0, content m0 = Some (processed c) ->
            extract_mentions (m0, d0)
            = ((set_mentions (MentionsText (Dumps (PList (map PStr
                  (findall mention_pattern (processed c)))))) m0,
                set_tabMomentMention
                  (tabMomentMention d0
                   ++ map (mention_record m0 (clock d0))
                        (findall mention_pattern (processed c))) d0), Ok tt)).
  { intros m0 d0 H0. unfold extract_mentions. run. rewrite H0.
    destruct (processed c) as [|x p] eqn:Ep; [congruence|]. cbv beta iota zeta.
    rewrite for_each_create_mention_record. reflexivity. }
  rewrite E2 by reflexivity. rewrite E3 by reflexivity.
  match goal with
  | |- context [set_privacy_settings (?m3, ?d3)] =>
      destruct (set_privacy_settings_run m3 d3) as [v ->]
  end.
  match goal with
  | |- context [generate_preview (?m4, ?d4)] =>
      destruct (generate_preview_run m4 d4 (processed c) _ _ eq_refl eq_refl eq_refl)
        as [p ->]
  end.
  eexists. split; [reflexivity|]. repeat split; reflexivity.
Qed.

(** X14. A document whose content is [None] cannot be saved, although
    [validate] accepts it when it has attachments: [before_save] then raises
    a [TypeError] (the preview takes the length of the content) and has
    written nothing to the database. *)
Theorem before_save_without_content (m : Moment) (d : DB) :
  content m = None ->
  (exists m', before_save (m, d) = ((m', d), Raise TypeError))
  /\ (forall s1, validate (m, d) = (s1, Ok tt) ->
        attachments m <> []
        /\ exists m', before_save s1 = ((m', d), Raise TypeError)).
Proof.
  intro Hc.
  assert (Hrun : forall m0 d0, content m0 = None ->
            exists m', before_save (m0, d0) = ((m', d0), Raise TypeError)).
  { intros m0 d0 H0.
    assert (E1 : process_content (m0, d0) = ((m0, d0), Ok tt))
      by (unfold process_content; run; rewrite H0; reflexivity).
    assert (E2 : extract_hashtags (m0, d0) = ((m0, d0), Ok tt))
      by (unfold extract_hashtags; run; rewrite H0; reflexivity).
    assert (E3 : extract_mentions (m0, d0) = ((m0, d0), Ok tt))
      by (unfold extract_mentions; run; rewrite H0; reflexivity).
    destruct (set_privacy_settings_run m0 d0) as [v E4].
    unfold before_save, bind. rewrite E1, E2, E3, E4.
    unfold generate_preview. run. cbn. rewrite H0. eexists. reflexivity. }
  split; [apply Hrun; exact Hc|].
  intros [m1 d1] H.
  pose proof (keeps_db_run _ _ _ _ keeps_db_validate H) as Hd. cbn in Hd. subst d1.
  pose proof (validate_ok m d _ H) as [Hc1 _]. cbn [fst] in Hc1.
  split.
  - unfold validate in H. apply bind_ok in H. destruct H as (s0 & [] & H0 & _).
    rewrite validate_moment_data_run in H0. rewrite Hc in H0. cbn in H0.
    destruct (attachments m); [discriminate | discriminate].
  - apply Hrun. rewrite Hc1. exact Hc.
Qed.

(** X15. A document that went through [before_save] is not accepted by
    [validate] any more: its mentions are then a JSON text, whose characters
    have no [user], so that [validate] cannot return. *)
Theorem validate_after_before_save (m : Moment) (d d2 : DB) (c : pystr)
    (s1 s2 : state) (r : result unit) :
  content m = Some c -> c <> [] ->
  before_save (m, d) = (s1, Ok tt) ->
  validate (fst s1, d2) = (s2, r) ->
  exists e, r = Raise e.
Proof.
  intros Hc Hne Hsave Hval.
  assert (Hm : exists t, mentions (fst s1) = MentionsText t).
  { destruct (before_save_result m d c Hc Hne) as (m' & Hrun & _ & _ & Hmen & _).
    rewrite Hrun in Hsave. injection Hsave as <-. cbn [fst]. eexists. exact Hmen. }
  destruct Hm as [t Hm].
  destruct r as [[]|e]; [|eexists; reflexivity]. exfalso.
  unfold validate in Hval.
  apply bind_ok in Hval. destruct Hval as (a1 & [] & G1 & H).
  apply bind_ok in H. destruct H as (a2 & [] & G2 & H).
  apply bind_ok in H. destruct H as (a3 & [] & G3 & H).
  apply bind_ok in H. destruct H as (a4 & [] & G4 & _).
  rewrite validate_moment_data_run in G1.
  assert (a1 = (fst s1, d2)) by congruence. subst a1.
  destruct (set_defaults_result (fst s1) d2) as (m' & Hd & _ & _ & _ & _ & _ & _ & _ & Hme & _).
  rewrite Hd in G2. assert (a2 = (m', d2)) by congruence. subst a2.
  rewrite validate_content_run in G3. assert (a3 = (m', d2)) by congruence. subst a3.
  unfold validate_mentions in G4. revert G4. run. rewrite Hme, Hm. discriminate.
Qed.

(** ** The Hashtag and Moment Mention tables *)

Lemma map_hashtag_bump (h : pystr) (t : timestamp) (rows : list Hashtag) :
  map hashtag (bump_hashtag h t rows) = map hashtag rows.
Proof.
  induction rows as [|r rows IH]; simpl; [reflexivity|].
  destruct (Str.eqb (hashtag r) h); simpl; [reflexivity | rewrite IH; reflexivity].
Qed.

Lemma total_usage_app (a b : list Hashtag) :
  total_usage (a ++ b) = (total_usage a + total_usage b)%Z.
Proof.
  unfold total_usage. induction a as [|r a IH]; simpl; [reflexivity|].
  rewrite IH. lia.
Qed.

Lemma total_usage_bump (h : pystr) (t : timestamp) (rows : list Hashtag) :
  existsb (fun r => Str.eqb (hashtag r) h) rows = true ->
  total_usage (bump_hashtag h t rows) = (total_usage rows + 1)%Z.
Proof.
  unfold total_usage. induction rows as [|r rows IH]; simpl; [discriminate|].
  destruct (Str.eqb (hashtag r) h); simpl; intro H.
  - lia.
  - rewrite IH by exact H. lia.
Qed.

Lemma names_record_hashtag (t : timestamp) (rows : list Hashtag) (h : pystr) :
  map hashtag (record_hashtag t rows h)
  = if existsb (fun r => Str.eqb (hashtag r) h) rows
    then map hashtag rows else map hashtag rows ++ [h].
Proof.
  unfold record_hashtag.
  destruct (existsb (fun r => Str.eqb (hashtag r) h) rows).
  - apply map_hashtag_bump.
  - rewrite map_app. reflexivity.
Qed.

Lemma existsb_name (rows : list Hashtag) (h : pystr) :
  existsb (fun r => Str.eqb (hashtag r) h) rows = true <-> In h (map hashtag rows).
Proof.
  rewrite existsb_exists, in_map_iff. split.
  - intros (r & Hin & Hr). apply str_eqb_eq in Hr. eauto.
  - intros (r & Hr & Hin). exists r. split; [exact Hin | apply str_eqb_eq; exact Hr].
Qed.

Lemma record_hashtag_nodup (t : timestamp) (rows : list Hashtag) (h : pystr) :
  NoDup (map hashtag rows) -> NoDup (map hashtag (record_hashtag t rows h)).
Proof.
  intro H. rewrite names_record_hashtag.
  destruct (existsb (fun r => Str.eqb (hashtag r) h) rows) eqn:E; [exact H|].
  apply NoDup_snoc; [exact H|]. intro Hin. apply existsb_name in Hin. congruence.
Qed.

Lemma record_hashtag_names (t : timestamp) (rows : list Hashtag) (h x : pystr) :
  In x (map hashtag (record_hashtag t rows h)) <-> x = h \/ In x (map hashtag rows).
Proof.
  rewrite names_record_hashtag.
  destruct (existsb (fun r => Str.eqb (hashtag r) h) rows) eqn:E.
  - apply existsb_name in E. split; [auto|]. intros [->|H]; assumption.
  - rewrite in_app_iff. cbn [In]. split.
    + intros [H|[H|[]]]; [right; exact H | left; symmetry; exact H].
    + intros [H|H]; [right; left; symmetry; exact H | left; exact H].
Qed.

Lemma record_hashtag_usage (t : timestamp) (rows : list Hashtag) (h : pystr) :
  total_usage (record_hashtag t rows h) = (total_usage rows + 1)%Z.
Proof.
  unfold record_hashtag.
  destruct (existsb (fun r => Str.eqb (hashtag r) h) rows) eqn:E.
  - apply total_usage_bump. exact E.
  - rewrite total_usage_app. unfold total_usage at 2. simpl. lia.
Qed.

Lemma fold_record_hashtag (t : timestamp) (tags : list pystr) (rows : list Hashtag) :
  (NoDup (map hashtag rows) ->
   NoDup (map hashtag (fold_left (record_hashtag t) tags rows)))
  /\ (forall x, In x (map hashtag (fold_left (record_hashtag t) tags rows))
                <-> In x tags \/ In x (map hashtag rows))
  /\ total_usage (fold_left (record_hashtag t) tags rows)
     = (total_usage rows + Z.of_nat (List.length tags))%Z.
Proof.
  revert rows. induction tags as [|h tags IH]; intro rows; cbn [fold_left].
  - split; [intro H; exact H|]. split.
    + intro x. cbn [In]. split; [intro H; right; exact H | intros [[]|H]; exact H].
    + cbn [List.length]. lia.
  - destruct (IH (record_hashtag t rows h)) as (H1 & H2 & H3). split; [|split].
    + intro H. apply H1. apply record_hashtag_nodup. exact H.
    + intro x. rewrite H2, record_hashtag_names. cbn [In]. split.
      * intros [H|[H|H]]; [left; right; exact H | left; left; symmetry; exact H
                           | right; exact H].
      * intros [[H|H]|H]; [right; left; symmetry; exact H | left; exact H
                           | right; right; exact H].
    + rewrite H3, record_hashtag_usage. cbn [List.length]. lia.
Qed.

Lemma tabHashtag_after_save (ms : list MomentMention) (hs : list Hashtag) (d : DB) :
  tabHashtag (set_tabMomentMention ms (set_tabHashtag hs d)) = hs.
Proof. destruct d; reflexivity. Qed.

(** X16. [before_save] keeps the names of the Hashtag table distinct. After
    it, the names of the table are those it had and the hashtags found in
    the processed content, so that every hashtag found has a record and no
    record is lost. *)
Theorem hashtag_table_names (m : Moment) (d : DB) (c : pystr) (s' : state) :
  content m = Some c -> c <> [] ->
  before_save (m, d) = (s', Ok tt) ->
  (NoDup (map hashtag (tabHashtag d)) -> NoDup (map hashtag (tabHashtag (snd s'))))
  /\ (forall x, In x (map hashtag (tabHashtag (snd s')))
                <-> In x (findall hashtag_pattern (processed c))
                    \/ In x (map hashtag (tabHashtag d))).
Proof.
  intros Hc Hne H.
  destruct (before_save_result m d c Hc Hne) as (m' & Hrun & _).
  rewrite Hrun in H. injection H as <-. cbn [snd].
  rewrite tabHashtag_after_save.
  destruct (fold_record_hashtag (clock d) (findall hashtag_pattern (processed c))
              (tabHashtag d)) as (H1 & H2 & _).
  split; [exact H1 | exact H2].
Qed.

(** X17. [before_save] counts every hashtag it finds: the uses counted in
    the Hashtag table grow by the number of hashtags found in the processed
    content, repetitions included. *)
Theorem hashtag_usage_counted (m : Moment) (d : DB) (c : pystr) (s' : state) :
  content m = Some c -> c <> [] ->
  before_save (m, d) = (s', Ok tt) ->
  total_usage (tabHashtag (snd s'))
  = (total_usage (tabHashtag d)
     + Z.of_nat (List.length (findall hashtag_pattern (processed c))))%Z.
Proof.
  intros Hc Hne H.
  destruct (before_save_result m d c Hc Hne) as (m' & Hrun & _).
  rewrite Hrun in H. injection H as <-. cbn [snd].
  rewrite tabHashtag_after_save.
  apply (fold_record_hashtag (clock d) (findall hashtag_pattern (processed c))
           (tabHashtag d)).
Qed.

(** X18. [before_save] adds one Moment Mention record for each mention found
    in the processed content, in the order found, and writes to no table
    but Hashtag and Moment Mention: the nine others and the clock are as
    they were. *)
Theorem mention_records_added (m : Moment) (d : DB) (c : pystr) (s' : state) :
  content m = Some c -> c <> [] ->
  before_save (m, d) = (s', Ok tt) ->
  tabMomentMention (snd s')
  = tabMomentMention d
    ++ map (mention_record m (clock d)) (findall mention_pattern (processed c))
  /\ tabMoment (snd s') = tabMoment d
  /\ tabMomentNotification (snd s') = tabMomentNotification d
  /\ tabMomentLike (snd s') = tabMomentLike d
  /\ tabMomentComment (snd s') = tabMomentComment d
  /\ tabMomentShare (snd s') = tabMomentShare d
  /\ tabUserActivity (snd s') = tabUserActivity d
  /\ tabMomentActivity (snd s') = tabMomentActivity d
  /\ tabUser (snd s') = tabUser d
  /\ tabUserFollow (snd s') = tabUserFollow d
  /\ tabEmployee (snd s') = tabEmployee d
  /\ clock (snd s') = clock d.
Proof.
  intros Hc Hne H.
  destruct (before_save_result m d c Hc Hne) as (m' & Hrun & _).
  rewrite Hrun in H. injection H as <-. destruct d; cbn. repeat split; reflexivity.
Qed.

(** ** What [after_insert] records *)

(** *** Notifications *)

Lemma set_notifications_twice (a b : list MomentNotification) (d : DB) :
  set_tabMomentNotification b (set_tabMomentNotification a d) = set_tabMomentNotification b d.
Proof. destruct d; reflexivity. Qed.

Lemma notify_run (who : pyval) (kind msg : pystr) (self : Moment) (d : DB) :
  notify who kind msg (self, d)
  = ((self, set_tabMomentNotification
              (tabMomentNotification d ++ [notification self (clock d) who kind msg]) d),
     Ok tt).
Proof. reflexivity. Qed.

(** A loop whose body writes one notification writes one for each element,
    in order. *)
Lemma for_each_notification {B : Type} (body : B -> action unit)
    (n : B -> MomentNotification) (self : Moment) (t : timestamp) (l : list B) :
  (forall x d, clock d = t ->
     body x (self, d)
     = ((self, set_tabMomentNotification (tabMomentNotification d ++ [n x]) d), Ok tt)) ->
  forall d, clock d = t ->
    for_each l body (self, d)
    = ((self, set_tabMomentNotification (tabMomentNotification d ++ map n l) d), Ok tt).
Proof.
  intro Hbody. induction l as [|x l IH]; intros d Ht; cbn [for_each map].
  - unfold ret. rewrite app_nil_r. destruct d; reflexivity.
  - unfold bind. rewrite (Hbody x d Ht). rewrite IH by (destruct d; exact Ht).
    rewrite set_notifications_twice. f_equal. f_equal. f_equal.
    destruct d; cbn. rewrite <- app_assoc. reflexivity.
Qed.

Lemma send_follower_notifications_run (self : Moment) (d : DB) :
  send_follower_notifications (self, d)
  = ((self, set_tabMomentNotification
              (tabMomentNotification d
               ++ map (follower_notification self (clock d)) (followers_of d (author self))) d),
     Ok tt).
Proof.
  unfold send_follower_notifications, bind, get_self, get_db. cbn [fst snd].
  apply (for_each_notification _ _ self (clock d)); [|reflexivity].
  intros x d0 Ht. rewrite notify_run, Ht. reflexivity.
Qed.

Lemma send_department_notifications_run (self : Moment) (d : DB) :
  send_department_notifications (self, d)
  = ((self, set_tabMomentNotification
              (tabMomentNotification d
               ++ map (department_notification self (clock d))
                    (department_audience d (author self))) d),
     Ok tt).
Proof.
  unfold send_department_notifications, department_audience, bind, get_self, get_db.
  cbn [fst snd].
  destruct (department_of d (author self)) as [[|c dep]|];
    try (unfold ret; cbn [map]; rewrite app_nil_r; destruct d; reflexivity).
  apply (for_each_notification _ _ self (clock d)); [|reflexivity].
  intros x d0 Ht. rewrite notify_run, Ht. reflexivity.
Qed.

(** X19. [send_follower_notifications] always returns and writes one "New
    Moment" notification for each User Follow record whose [following] is
    the author, in the order of the table, and nothing else; a document
    without an author notifies nobody. *)
Theorem follower_notifications (self : Moment) (d : DB) :
  send_follower_notifications (self, d)
  = ((self, set_tabMomentNotification
              (tabMomentNotification d
               ++ map (follower_notification self (clock d)) (followers_of d (author self))) d),
     Ok tt)
  /\ (forall u, In u (followers_of d (author self))
                <-> exists a, author self = Some a
                              /\ In {| follower := u; following := a |} (tabUserFollow d)).
Proof.
  split; [apply send_follower_notifications_run|].
  - intro u. unfold followers_of. rewrite in_map_iff. split.
    + intros ([u' a] & Hu & Hin). cbn in Hu. subst u'.
      apply filter_In in Hin. destruct Hin as [Hin Ha]. cbn [following] in Ha.
      apply opt_str_eqb_eq in Ha. exists a. split; [symmetry; exact Ha | exact Hin].
    + intros (a & Ha & Hin). exists {| follower := u; following := a |}.
      split; [reflexivity|]. apply filter_In. split; [exact Hin|].
      cbn [following]. rewrite Ha. apply opt_str_eqb_refl.
Qed.

(** X20. [send_department_notifications] always returns and never writes to
    the author: it writes one "Department Moment" notification for each
    Employee record of another user in the department of the author's first
    Employee record, and none when the author has no department. *)
Theorem department_notifications (self : Moment) (d : DB) :
  send_department_notifications (self, d)
  = ((self, set_tabMomentNotification
              (tabMomentNotification d
               ++ map (department_notification self (clock d))
                    (department_audience d (author self))) d),
     Ok tt)
  /\ (forall u, In u (department_audience d (author self))
                <-> exists a dep,
                      author self = Some a /\ u <> a
                      /\ department_of d (Some a) = Some dep /\ dep <> []
                      /\ In {| employee_user := u; department := Some dep |} (tabEmployee d)).
Proof.
  split; [apply send_department_notifications_run|].
  intro u. unfold department_audience. split.
  - destruct (department_of d (author self)) as [[|c dep]|] eqn:Hd; try (intros []).
    unfold department_members. rewrite in_map_iff.
    intros ([u' dp] & Hu & Hin). cbn in Hu. subst u'.
    apply filter_In in Hin. destruct Hin as [Hin Hf]. cbn [department employee_user] in Hf.
    apply andb_true_iff in Hf. destruct Hf as [Hdp Hne].
    apply opt_str_eqb_eq in Hdp. subst dp.
    destruct (author self) as [a|]; [|discriminate].
    exists a, (c :: dep). split; [reflexivity|]. split.
    + intros ->. rewrite str_eqb_refl in Hne. discriminate.
    + split; [exact Hd|]. split; [discriminate | exact Hin].
  - intros (a & dep & Ha & Hne & Hd & Hdep & Hin). rewrite Ha, Hd.
    destruct dep as [|c dep]; [congruence|].
    unfold department_members. apply in_map_iff.
    exists {| employee_user := u; department := Some (c :: dep) |}.
    split; [reflexivity|]. apply filter_In. split; [exact Hin|].
    cbn [department employee_user]. rewrite opt_str_eqb_refl. cbn [andb].
    destruct (Str.eqb u a) eqn:E; [|reflexivity].
    apply str_eqb_eq in E. contradiction.
Qed.


(** *** The activity of the author *)

Lemma find_bump_activity_same (u : option pystr) (rows : list UserActivity) :
  existsb (fun r => opt_str_eqb (activity_user r) u) rows = true ->
  exists r r',
    find (fun r => opt_str_eqb (activity_user r) u) rows = Some r
    /\ find (fun r => opt_str_eqb (activity_user r) u) (bump_activity u rows) = Some r'
    /\ moments_count r' = (moments_count r + 1)%Z.
Proof.
  induction rows as [|x rows IH]; cbn [existsb find bump_activity]; [discriminate|].
  destruct (opt_str_eqb (activity_user x) u) eqn:E; cbn [orb].
  - intros _. do 2 eexists. split; [reflexivity|].
    cbn [find activity_user]. rewrite E. split; reflexivity.
  - intro H. cbn [find]. rewrite E. apply IH. exact H.
Qed.

Lemma find_bump_activity_other (u v : option pystr) (rows : list UserActivity) :
  v <> u ->
  option_map moments_count
    (find (fun r => opt_str_eqb (activity_user r) v) (bump_activity u rows))
  = option_map moments_count (find (fun r => opt_str_eqb (activity_user r) v) rows).
Proof.
  intro Hne. induction rows as [|x rows IH]; cbn [find bump_activity]; [reflexivity|].
  destruct (opt_str_eqb (activity_user x) u) eqn:E.
  - apply opt_str_eqb_eq in E. cbn [find activity_user].
    destruct (opt_str_eqb (activity_user x) v) eqn:Ev; [|reflexivity].
    apply opt_str_eqb_eq in Ev. congruence.
  - cbn [find]. destruct (opt_str_eqb (activity_user x) v); [reflexivity | exact IH].
Qed.

Lemma existsb_activity (d : DB) (u : option pystr) :
  existsb (fun r => opt_str_eqb (activity_user r) u) (tabUserActivity d) = true
  <-> has_activity d u.
Proof.
  unfold has_activity. rewrite existsb_exists. split.
  - intros (r & Hin & Hr). apply opt_str_eqb_eq in Hr. eauto.
  - intros (r & Hin & Hr). exists r. split; [exact Hin|].
    apply opt_str_eqb_eq. exact Hr.
Qed.

Lemma update_user_activity_missing (self : Moment) (d : DB) :
  ~ has_activity d (author self) ->
  update_user_activity (self, d) = ((self, d), Raise DoesNotExistError).
Proof.
  intro H. unfold update_user_activity, get_doc. run.
  rewrite find_none_existsb; [reflexivity|].
  apply not_true_is_false. intro E. apply H. apply existsb_activity. exact E.
Qed.

Lemma update_user_activity_run (self : Moment) (d : DB) :
  has_activity d (author self) ->
  update_user_activity (self, d)
  = ((self, set_tabUserActivity (bump_activity (author self) (tabUserActivity d)) d),
     Ok tt).
Proof.
  intro H. apply existsb_activity in H.
  unfold update_user_activity, get_doc. run.
  destruct (find_some_existsb _ _ H) as [r ->]. cbn [doc_truthy negb fst snd].
  destruct d; reflexivity.
Qed.

Lemma update_user_activity_counts (self : Moment) (d : DB) :
  has_activity d (author self) ->
  moments_of (set_tabUserActivity (bump_activity (author self) (tabUserActivity d)) d)
    (author self)
  = (moments_of d (author self) + 1)%Z
  /\ (forall u, u <> author self ->
        moments_of (set_tabUserActivity (bump_activity (author self) (tabUserActivity d)) d) u
        = moments_of d u).
Proof.
  intro H. apply existsb_activity in H.
  assert (Hset : forall rows u,
            moments_of (set_tabUserActivity rows d) u
            = match find (fun r => opt_str_eqb (activity_user r) u) rows with
              | Some r => moments_count r
              | None => 0%Z
              end)
    by (intros; destruct d; reflexivity).
  split; [|intros u Hu]; rewrite Hset; unfold moments_of.
  - destruct (find_bump_activity_same _ _ H) as (r & r' & -> & -> & Hr). exact Hr.
  - pose proof (find_bump_activity_other (author self) u (tabUserActivity d) Hu) as Ho.
    destruct (find _ (bump_activity _ _)), (find _ (tabUserActivity d));
      cbn in Ho; congruence.
Qed.

(** X21. [update_user_activity] counts one more moment for an author who has
    a User Activity row: it returns, the count of the author's first row has
    grown by one, the counts of the other users are what they were, and so
    are the document and the other tables. For an author without a row it
    raises [DoesNotExistError] at [get_doc] and changes nothing: the lines
    that would create the row are never reached. *)
Theorem user_activity_counted (self : Moment) (d : DB) :
  (has_activity d (author self) ->
     update_user_activity (self, d)
     = ((self, set_tabUserActivity (bump_activity (author self) (tabUserActivity d)) d),
        Ok tt)
     /\ moments_of (snd (fst (update_user_activity (self, d)))) (author self)
        = (moments_of d (author self) + 1)%Z
     /\ (forall u, u <> author self ->
           moments_of (snd (fst (update_user_activity (self, d)))) u = moments_of d u))
  /\ (~ has_activity d (author self) ->
        update_user_activity (self, d) = ((self, d), Raise DoesNotExistError)).
Proof.
  split.
  - intro H. rewrite (update_user_activity_run self d H). cbn [fst snd].
    split; [reflexivity|]. exact (update_user_activity_counts self d H).
  - exact (update_user_activity_missing self d).
Qed.

(** *** The analysis that is never recorded *)

Lemma create_activity_log_run (self : Moment) (d : DB) :
  create_activity_log (self, d)
  = ((self, set_tabMomentActivity
              (tabMomentActivity d ++ [created_record self (clock d)]) d),
     Ok tt).
Proof. reflexivity. Qed.


Lemma frames_process_ai_analysis {T : Type} (f : state -> T) (save : action unit) :
  frames f (process_ai_analysis save).
Proof. intros s. rewrite process_ai_analysis_run. reflexivity. Qed.

Lemma ai_analysis_after_insert (save : action unit) :
  frames (fun s => ai_analysis (fst s)) (after_insert save).
Proof.
  unfold after_insert. apply frames_bind; [|intros _].
  { unfold send_notifications, send_mention_notification, send_follower_notifications,
      send_department_notifications, notify. framed. }
  apply frames_bind; [|intros _].
  { unfold update_user_activity. framed. }
  apply frames_bind; [|intros _].
  { unfold create_activity_log. framed. }
  apply frames_process_ai_analysis.
Qed.

Lemma after_insert_stops (save : action unit) (s s3 : state) :
  (send_notifications ;; update_user_activity ;; create_activity_log) s = (s3, Ok tt) ->
  after_insert save s = (s3, Raise AttributeError).
Proof.
  unfold after_insert, bind.
  destruct (send_notifications s) as [s1 [[]|e1]]; [|discriminate].
  destruct (update_user_activity s1) as [s2 [[]|e2]]; [|discriminate].
  destruct (create_activity_log s2) as [s3' [[]|e3]]; [|discriminate].
  intro H. injection H as <-. apply process_ai_analysis_run.
Qed.

(** X22. [process_ai_analysis] stops with [AttributeError] at
    [now().isoformat()], whatever the document: nothing is assigned to
    [ai_analysis] and [self.save()] is not reached. So [after_insert] never
    returns and never changes [ai_analysis]; when its first three steps
    return it stops with that error right after them. [create_activity_log],
    the third, always returns and appends one "Created" record of the
    document and its author. An [insert] never returns either. *)
Theorem after_insert_outcome (save : action unit) (depth : nat) (fresh : pystr) (s : state) :
  process_ai_analysis save s = (s, Raise AttributeError)
  /\ (exists e, snd (after_insert save s) = Raise e)
  /\ ai_analysis (fst (fst (after_insert save s))) = ai_analysis (fst s)
  /\ (forall s3,
        (send_notifications ;; update_user_activity ;; create_activity_log) s = (s3, Ok tt) ->
        after_insert save s = (s3, Raise AttributeError))
  /\ create_activity_log s
     = ((fst s, set_tabMomentActivity
                  (tabMomentActivity (snd s) ++ [created_record (fst s) (clock (snd s))])
                  (snd s)),
        Ok tt)
  /\ (exists e, snd (insert depth fresh s) = Raise e).
Proof.
  split; [apply process_ai_analysis_run|].
  split; [apply never_returns_after_insert|].
  split; [apply (ai_analysis_after_insert save s)|].
  split; [intro s3; apply after_insert_stops|].
  split; [destruct s; apply create_activity_log_run|].
  apply never_returns_insert_hooks.
Qed.

(** *** The notifications of a new document *)

(** A [validate] that returns leaves the document as [set_defaults] makes
    it. *)
Lemma validate_defaults (m : Moment) (d : DB) (s' : state) :
  validate (m, d) = (s', Ok tt) -> set_defaults (m, d) = (s', Ok tt).
Proof.
  intro H. pose proof (keeps_db_run _ _ _ _ keeps_db_validate H) as Hd.
  unfold validate in H.
  apply bind_ok in H. destruct H as (s1 & [] & H1 & H).
  apply bind_ok in H. destruct H as (s2 & [] & H2 & H).
  apply bind_ok in H. destruct H as (s3 & [] & H3 & H).
  apply bind_ok in H. destruct H as (s4 & [] & H4 & H5).
  pose proof (keeps_self_run _ _ _ _ keeps_validate_moment_data H1) as K1.
  assert (D1 : snd s1 = snd (m, d)).
  { apply (keeps_db_run validate_moment_data (m, d) s1 (Ok tt)); [|exact H1].
    unfold validate_moment_data. readonly. }
  pose proof (keeps_self_run _ _ _ _ keeps_validate_content H3) as K3.
  pose proof (keeps_self_run _ _ _ _ keeps_validate_mentions H4) as K4.
  pose proof (keeps_self_run _ _ _ _ keeps_validate_location H5) as K5.
  destruct s1 as [m1 d1]. cbn [fst snd] in K1, D1. subst m1 d1.
  rewrite H2. f_equal.
  destruct (set_defaults_result m d) as (m' & Hrun & _).
  rewrite Hrun in H2. injection H2 as <-.
  destruct s' as [m2 d2]. cbn [fst snd] in *. subst d2. f_equal. congruence.
Qed.

Lemma send_notifications_run (self : Moment) (d : DB) (l : list pystr) :
  mentions self = MentionsText (Dumps (PList (map PStr l))) ->
  send_notifications (self, d)
  = ((self, set_tabMomentNotification
              (tabMomentNotification d
               ++ map (mention_notification self (clock d)) l
               ++ map (follower_notification self (clock d)) (followers_of d (author self))
               ++ (if opt_str_eqb (privacy self) (Some (lit "Department"))
                   then map (department_notification self (clock d))
                          (department_audience d (author self))
                   else [])) d),
     Ok tt).
Proof.
  intro Hm. unfold send_notifications, bind, get_self. cbn [fst snd]. rewrite Hm.
  unfold lift. cbn [loads py_iter].
  rewrite (for_each_notification send_mention_notification
             (fun v => notification self (clock d) v (lit "Mention")
                         (lit "You were mentioned in a moment by " ++ fmt (author self)))
             self (clock d) (map PStr l));
    [| intros x d0 Ht; unfold send_mention_notification, bind, get_self; cbn [fst snd];
       rewrite notify_run, Ht; reflexivity
     | reflexivity ].
  cbv beta iota.
  rewrite send_follower_notifications_run. rewrite set_notifications_twice.
  cbv beta iota. cbn [fst snd]. unfold when, ret.
  assert (Hread : forall ns, clock (set_tabMomentNotification ns d) = clock d
                             /\ tabUserFollow (set_tabMomentNotification ns d) = tabUserFollow d
                             /\ tabEmployee (set_tabMomentNotification ns d) = tabEmployee d
                             /\ tabMomentNotification (set_tabMomentNotification ns d) = ns)
    by (intro ns; destruct d; repeat split; reflexivity).
  assert (Hf : forall ns a, followers_of (set_tabMomentNotification ns d) a = followers_of d a).
  { intros ns a. unfold followers_of. destruct (Hread ns) as (_ & -> & _). reflexivity. }
  assert (Ha : forall ns a, department_audience (set_tabMomentNotification ns d) a
                            = department_audience d a).
  { intros ns a. unfold department_audience, department_of, department_members.
    destruct (Hread ns) as (_ & _ & -> & _). reflexivity. }
  destruct (opt_str_eqb (privacy self) (Some (lit "Department"))).
  - rewrite send_department_notifications_run. rewrite set_notifications_twice.
    f_equal. f_equal.
    repeat match goal with
           | |- context [clock (set_tabMomentNotification ?ns d)] =>
               rewrite (proj1 (Hread ns))
           | |- context [tabMomentNotification (set_tabMomentNotification ?ns d)] =>
               rewrite (proj2 (proj2 (proj2 (Hread ns))))
           end.
    rewrite !Hf, !Ha, map_map, <- !app_assoc. reflexivity.
  - f_equal. f_equal.
    repeat match goal with
           | |- context [clock (set_tabMomentNotification ?ns d)] =>
               rewrite (proj1 (Hread ns))
           | |- context [tabMomentNotification (set_tabMomentNotification ?ns d)] =>
               rewrite (proj2 (proj2 (proj2 (Hread ns))))
           end.
    rewrite !Hf, map_map, app_nil_r, <- !app_assoc. reflexivity.
Qed.

Lemma privacy_default (o : option pystr) :
  opt_str_eqb (if truthy_str o then o else Some (lit "Public")) (Some (lit "Department"))
  = opt_str_eqb o (Some (lit "Department")).
Proof. destruct o as [[|c s]|]; reflexivity. Qed.


(** X23. On a document with content that [validate] and [before_save] have
    accepted, and whose row is written, [send_notifications] returns and
    writes these notifications, in this order, and no others: a "Mention"
    for each mention found in the processed content, whether such a user
    exists or not; a "New Moment" for each follower of the author; and, when
    the privacy of the document is "Department", a "Department Moment" for
    each other member of the author's department. *)
Theorem insert_notifications (m : Moment) (d : DB) (c : pystr) (s1 s2 : state) :
  content m = Some c -> c <> [] ->
  validate (m, d) = (s1, Ok tt) -> before_save s1 = (s2, Ok tt) ->
  exists s3,
    send_notifications (fst (write_row s2)) = (s3, Ok tt)
    /\ fst s3 = fst s2
    /\ tabMomentNotification (snd s3)
       = tabMomentNotification d
         ++ map (mention_notification m (clock d)) (findall mention_pattern (processed c))
         ++ map (follower_notification m (clock d)) (followers_of d (author m))
         ++ (if opt_str_eqb (privacy m) (Some (lit "Department"))
             then map (department_notification m (clock d))
                    (department_audience d (author m))
             else []).
Proof.
  intros Hc Hne H1 H2.
  apply validate_defaults in H1.
  destruct (set_defaults_result m d)
    as (m1 & Hrun & _ & Hp1 & _ & _ & Hc1 & _ & Ha1 & _ & _ & Hn1).
  rewrite Hrun in H1. injection H1 as <-.
  rewrite Hc in Hc1.
  destruct (before_save_result m1 d c Hc1 Hne)
    as (m2 & Hsave & _ & _ & Hm2 & Hn2 & Ha2 & Hp2).
  rewrite Hsave in H2. injection H2 as <-.
  unfold write_row. cbn [fst snd].
  match goal with
  | |- context [send_notifications (_, ?d3)] => set (db3 := d3)
  end.
  assert (R3 : clock db3 = clock d /\ tabUserFollow db3 = tabUserFollow d
               /\ tabEmployee db3 = tabEmployee d
               /\ tabMomentNotification db3 = tabMomentNotification d)
    by (subst db3; destruct d; repeat split; reflexivity).
  clearbody db3. destruct R3 as (Rc & Rf & Re & Rn).
  rewrite (send_notifications_run m2 db3 _ Hm2).
  eexists. split; [reflexivity|]. split; [reflexivity|]. cbn [snd].
  assert (Hset : forall ns, tabMomentNotification (set_tabMomentNotification ns db3) = ns)
    by (intro ns; destruct db3; reflexivity).
  rewrite Hset, Rn, Rc.
  assert (Hf : followers_of db3 (author m2) = followers_of d (author m)).
  { unfold followers_of. rewrite Rf, Ha2, Ha1. reflexivity. }
  assert (Hd : department_audience db3 (author m2) = department_audience d (author m)).
  { unfold department_audience, department_of, department_members.
    rewrite Re, Ha2, Ha1. reflexivity. }
  rewrite Hf, Hd, Hp2, Hp1, privacy_default.
  unfold mention_notification, follower_notification, department_notification, notification.
  rewrite Hn2, Hn1, Ha2, Ha1. reflexivity.
Qed.

(** ** Names and identifiers *)



(** ** Saving, and coordinates of zero *)

Lemma falsy_coordinate_location (m : Moment) (d : DB) (k : pystr) :
  k = lit "latitude" \/ k = lit "longitude" ->
  dict_get (location m) k <> PNone -> truthy (dict_get (location m) k) = false ->
  validate_location (m, d)
  = ((m, d), Raise (ValidationError (lit "Invalid location data"))).
Proof.
  intros Hk Hset Hfalsy. rewrite validate_location_run.
  destruct (location m) as [|kv l] eqn:El; [cbn in Hset; congruence|].
  cbn [is_empty negb andb].
  destruct Hk as [-> | ->]; rewrite Hfalsy; cbn [negb orb]; [reflexivity|].
  rewrite orb_true_r. reflexivity.
Qed.

(** X29. [save] never returns, however much room the stack has, and neither
    do the hooks that call it: [on_update] calls
    [update_engagement_metrics], which ends with [self.save()], which runs
    [on_update] again. With any [save] that does not return,
    [update_engagement_metrics] and [on_update] do not return. *)
Theorem save_never_returns (depth : nat) (fresh : pystr) (s : state) :
  (exists e, snd (save depth fresh s) = Raise e)
  /\ (exists e, snd (update_engagement_metrics (save depth fresh) s) = Raise e)
  /\ (exists e, snd (on_update (save depth fresh) s) = Raise e)
  /\ snd (save 0 fresh s) = Raise RecursionError
  /\ (forall save' : action unit,
        never_returns save' ->
        never_returns (update_engagement_metrics save') /\ never_returns (on_update save')).
Proof.
  pose proof (never_returns_save depth fresh) as H.
  split; [apply H|].
  split; [apply never_returns_update_engagement_metrics; exact H|].
  split; [apply never_returns_on_update; exact H|].
  split; [reflexivity|].
  intros save' H'. split.
  - apply never_returns_update_engagement_metrics. exact H'.
  - apply never_returns_on_update. exact H'.
Qed.

(** X30. A latitude or a longitude that is there but falsy, such as 0 or
    0.0, is taken for a missing one: [validate_location] throws "Invalid
    location data", and [validate] does not accept the document. *)
Theorem validate_rejects_zero_coordinate (m : Moment) (d : DB) (k : pystr) :
  k = lit "latitude" \/ k = lit "longitude" ->
  dict_get (location m) k = PInt 0 \/ dict_get (location m) k = PFloat 0%float ->
  validate_location (m, d)
  = ((m, d), Raise (ValidationError (lit "Invalid location data")))
  /\ exists e, snd (validate (m, d)) = Raise e.
Proof.
  intros Hk Hzero.
  assert (Hset : dict_get (location m) k <> PNone)
    by (destruct Hzero as [-> | ->]; discriminate).
  assert (Hfalsy : truthy (dict_get (location m) k) = false)
    by (destruct Hzero as [-> | ->]; reflexivity).
  split; [exact (falsy_coordinate_location m d k Hk Hset Hfalsy)|].
  destruct (validate (m, d)) as [s' [[]|e]] eqn:H; [|exists e; reflexivity].
  exfalso. unfold validate in H.
  apply bind_ok in H. destruct H as (s1 & [] & H1 & H).
  apply bind_ok in H. destruct H as (s2 & [] & H2 & H).
  apply bind_ok in H. destruct H as (s3 & [] & H3 & H).
  apply bind_ok in H. destruct H as (s4 & [] & H4 & H5).
  rewrite validate_moment_data_run in H1.
  assert (s1 = (m, d)) by congruence. subst s1.
  destruct (set_defaults_run m d) as (m' & Hd & _ & _ & Hl & _).
  rewrite Hd in H2. assert (s2 = (m', d)) by congruence. subst s2.
  rewrite validate_content_run in H3.
  assert (s3 = (m', d)) by congruence. subst s3.
  apply (keeps_self_run _ _ _ _ keeps_validate_mentions) in H4.
  destruct s4 as [m4 d4]. cbn [fst] in H4. subst m4.
  rewrite <- Hl in Hset, Hfalsy.
  rewrite (falsy_coordinate_location m' d4 k Hk Hset Hfalsy) in H5. discriminate.
Qed.

End Moment.

(** ** The model on sample inputs *)

Example contains_sample :
  contains (lit "happy") (lit "unhappy") = true
  /\ contains (lit "happy") (lit "hapy") = false.
Proof. split; reflexivity. Qed.

Example findall_sample :
  map ascii_text (findall (hashtag_pattern no_unicode_alnum) (lit "hi #foo and ##bar_1 # x#y#"))
  = ["foo"; "bar_1"; "y"]%string.
Proof. reflexivity. Qed.

Example url_pattern_sample :
  option_map (fun p => (ascii_text (fst p), ascii_text (snd p)))
    (url_pattern (lit "https://a.com/x%20y#z rest"))
  = Some ("https://a.com/x%20y", "#z rest")%string.
Proof. reflexivity. Qed.

Example processed_sample :
  ascii_text (processed no_unicode_alnum (lit "see http://a.b #tag"))
  = ascii_text (lit "see <a href=" ++ [dq] ++ lit "http://a.b" ++ [dq] ++ lit " target=" ++ [dq]
          ++ lit "_blank" ++ [dq] ++ lit ">http://a.b</a> <a href=" ++ [dq]
          ++ lit "/hashtag/tag" ++ [dq] ++ lit " class=" ++ [dq] ++ lit "hashtag" ++ [dq]
          ++ lit ">#tag</a>").
Proof. reflexivity. Qed.

Example sentiment_sample :
  ascii_text (analyze_sentiment identity_lower (post "I LOVE it, great")) = "positive"%string
  /\ ascii_text (analyze_sentiment identity_lower (post "sad and bad, but happy")) = "negative"%string
  /\ ascii_text (analyze_sentiment identity_lower (post "happy and sad")) = "neutral"%string.
Proof. repeat split; reflexivity. Qed.

(** 1 like, 2 comments, 3 shares and 3 views: [14 + 3 * 0.1] in binary64,
    which is the float nearest to 14.3. Without views the score is the float
    of the integer part. *)
Example engagement_sample :
  calculate_engagement_score
    (with_counters (Some 1%Z) (Some 2%Z) (Some 3%Z) (Some 3%Z) (post "hi"))
  = Ok 0x1.c99999999999ap+3%float
  /\ calculate_engagement_score
       (with_counters (Some 1%Z) (Some 2%Z) (Some 3%Z) None (post "hi"))
     = Ok 14%float
  /\ calculate_engagement_score (post "hi") = Ok 0%float.
Proof. repeat split; reflexivity. Qed.

(** ** The specification's list of validation failures is not complete *)

(** C1, as stated, fails: a post with content and an author but no moment
    type meets none of the five listed conditions, and [validate] throws
    "Moment type is required". *)
Lemma validate_listed_counterexample :
  validate identity_lower (untyped_post "hi", sample_db)
  = ((untyped_post "hi", sample_db),
     Raise (ValidationError (lit "Moment type is required")))
  /\ raises (validate identity_lower (untyped_post "hi", sample_db))
  /\ ~ listed_failure identity_lower sample_db (untyped_post "hi").
Proof.
  split; [reflexivity|]. split; [eexists; reflexivity|].
  intros [[[H|H] _]|[[H|H]|[(rows & r & H & Hin & _)|[(c & H & Hlen)|(c & w & H & Hin & Hocc)]]]];
    try discriminate.
  - injection H as <-. destruct Hin.
  - injection H as <-. unfold lit in Hlen. simpl in Hlen. lia.
  - injection H as <-. apply contains_occurs in Hocc.
    cbn [In inappropriate_words] in Hin.
    repeat (destruct Hin as [<-|Hin]; [discriminate|]). destruct Hin.
Qed.

Lemma validate_spec_witness :
  mentions (post "hi") = MentionRows []
  /\ coordinates_truthy (post "hi")
  /\ (raises (validate identity_lower (post "hi", sample_db))
      <-> validation_failure identity_lower sample_db (post "hi"))
  /\ (snd (validate identity_lower (post "hi", sample_db)) = Ok tt
      <-> ~ validation_failure identity_lower sample_db (post "hi")).
Proof.
  assert (Hc : coordinates_truthy (post "hi")) by (intros k _; left; reflexivity).
  split; [reflexivity|]. split; [exact Hc|].
  exact (validate_spec identity_lower sample_db (post "hi") [] eq_refl Hc).
Defined.

(** ** Substrings are not words *)

(** C5, as stated, fails: "happy" is no word of "unhappy", so the counts by
    words are equal and the bag-of-words reading gives "neutral", while
    [analyze_sentiment] finds "happy" inside "unhappy" and gives
    "positive". *)
Lemma sentiment_words_counterexample :
  analyze_sentiment identity_lower (post "unhappy") = lit "positive"
  /\ sentiment_by_words identity_lower no_unicode_alnum (post "unhappy") = lit "neutral".
Proof. split; reflexivity. Qed.

Lemma analyze_sentiment_spec_witness :
  occurrences (lower identity_lower (lit "so Happy")) positive_words 1
  /\ occurrences (lower identity_lower (lit "so Happy")) negative_words 0
  /\ analyze_sentiment identity_lower (post "so Happy") = lit "positive".
Proof.
  assert (Hp : occurrences (lower identity_lower (lit "so Happy")) positive_words 1)
    by (apply occurrences_count; reflexivity).
  assert (Hn : occurrences (lower identity_lower (lit "so Happy")) negative_words 0)
    by (apply occurrences_count; reflexivity).
  split; [exact Hp|]. split; [exact Hn|].
  apply (proj2 (analyze_sentiment_spec identity_lower (post "so Happy"))
           (lit "so Happy") 1 0 eq_refl ltac:(discriminate) Hp Hn).
  exact (le_n 1).
Defined.

(** ** Instances of the theorems on the sample data *)

Lemma like_moment_outcome_witness :
  let save := save identity_lower no_unicode_alnum 3 series in
  (liked (liked_db (post "hi")) (post "hi") bob
   /\ like_moment save bob (post "hi", liked_db (post "hi"))
      = ((post "hi", liked_db (post "hi")),
         Raise (ValidationError (lit "You have already liked this moment"))))
  /\ (~ liked posted_db (post "hi") bob
      /\ exists s' e, like_moment save bob (post "hi", posted_db) = (s', Raise e)).
Proof.
  intro save.
  assert (Hyes : liked (liked_db (post "hi")) (post "hi") bob).
  { eexists. split; [left; reflexivity|]. split; reflexivity. }
  assert (Hno : ~ liked posted_db (post "hi") bob).
  { intros (l & Hin & _). destruct Hin. }
  split.
  - split; [exact Hyes|].
    exact (proj1 (like_moment_outcome identity_lower no_unicode_alnum 3 series bob
                    (post "hi") (liked_db (post "hi"))) Hyes).
  - split; [exact Hno|].
    destruct (proj2 (like_moment_outcome identity_lower no_unicode_alnum 3 series bob
                       (post "hi") posted_db) Hno) as (s' & e & _ & H).
    exists s', e. exact H.
Defined.

Lemma add_comment_outcome_witness :
  let save := save identity_lower no_unicode_alnum 3 series in
  (lit "nice" <> []
   /\ exists s' e, add_comment save bob (lit "nice") (post "hi", posted_db) = (s', Raise e))
  /\ add_comment save bob [] (post "hi", posted_db)
     = ((post "hi", posted_db),
        Raise (ValidationError (lit "Comment content is required"))).
Proof.
  intro save.
  assert (Hne : lit "nice" <> []) by discriminate.
  split.
  - split; [exact Hne|].
    destruct (proj2 (add_comment_outcome identity_lower no_unicode_alnum 3 series bob
                       (lit "nice") (post "hi") posted_db) Hne) as (s' & e & _ & H).
    exists s', e. exact H.
  - exact (proj1 (add_comment_outcome identity_lower no_unicode_alnum 3 series bob []
                    (post "hi") posted_db) eq_refl).
Defined.

Lemma unlike_moment_outcome_witness :
  let save := save identity_lower no_unicode_alnum 3 series in
  (~ liked posted_db (post "hi") bob
   /\ unlike_moment save bob (post "hi", posted_db)
      = ((post "hi", posted_db), Raise DoesNotExistError))
  /\ (liked stored_db (post "hi") bob
      /\ exists s' e, unlike_moment save bob (post "hi", stored_db) = (s', Raise e)).
Proof.
  intro save.
  assert (Hyes : liked stored_db (post "hi") bob).
  { eexists. split; [left; reflexivity|]. split; reflexivity. }
  assert (Hno : ~ liked posted_db (post "hi") bob).
  { intros (l & Hin & _). destruct Hin. }
  split.
  - split; [exact Hno|].
    exact (proj1 (unlike_moment_outcome identity_lower no_unicode_alnum 3 series bob
                    (post "hi") posted_db) Hno).
  - split; [exact Hyes|].
    destruct (proj2 (unlike_moment_outcome identity_lower no_unicode_alnum 3 series bob
                       (post "hi") stored_db) Hyes) as (s' & e & _ & H).
    exists s', e. exact H.
Defined.

(** The four calls on the stored post "hi": the like, the comment and the
    share end in the exception of the nested [save], in which [validate]
    meets the mentions that [before_save] has turned into a text; the unlike
    of a post that bob has not liked ends at [get_doc]. With no room left on
    the stack the like ends in [RecursionError]. *)
Example rpc_sample :
  let full_stack := save identity_lower no_unicode_alnum 0 series in
  let save := save identity_lower no_unicode_alnum 3 series in
  snd (like_moment save bob (post "hi", posted_db)) = Raise AttributeError
  /\ snd (unlike_moment save bob (post "hi", posted_db)) = Raise DoesNotExistError
  /\ snd (unlike_moment save bob (post "hi", stored_db)) = Raise AttributeError
  /\ snd (add_comment save bob (lit "nice") (post "hi", posted_db)) = Raise AttributeError
  /\ snd (share_moment save bob (post "hi", posted_db)) = Raise AttributeError
  /\ snd (like_moment full_stack bob (post "hi", posted_db)) = Raise RecursionError.
Proof. intros full_stack save. repeat split; vm_compute; reflexivity. Qed.

(** The content "go #team :smile:" after [before_save]: the hashtag is a
    link, the emoji code an emoji, and the hashtags are the one tag. *)
Lemma before_save_hashtags_witness :
  let p := lit "go <a href=" ++ [dq] ++ lit "/hashtag/team" ++ [dq] ++ lit " class="
           ++ [dq] ++ lit "hashtag" ++ [dq] ++ lit ">#team</a> " ++ [128522%N] in
  content (post "go #team :smile:") = Some (lit "go #team :smile:")
  /\ lit "go #team :smile:" <> []
  /\ exists m' d',
       before_save no_unicode_alnum (post "go #team :smile:", sample_db) = ((m', d'), Ok tt)
       /\ content m' = Some p
       /\ tag_matches no_unicode_alnum 35 p [lit "team"]
       /\ hashtags m' = Some (Dumps (PList [PStr (lit "team")])).
Proof.
  intro p.
  assert (Hne : lit "go #team :smile:" <> []) by discriminate.
  split; [reflexivity|]. split; [exact Hne|].
  destruct (before_save_hashtags no_unicode_alnum (post "go #team :smile:") sample_db
              (lit "go #team :smile:") eq_refl Hne)
    as (m' & d' & p' & tags & Hrun & Hp & Hcontent & Hm & _ & Htags).
  assert (Ep : Some p' = Some p) by (rewrite <- Hp; vm_compute; reflexivity).
  injection Ep as ->.
  assert (Et : hashtags m' = Some (Dumps (PList [PStr (lit "team")]))).
  { replace m' with (fst (fst (before_save no_unicode_alnum
                                 (post "go #team :smile:", sample_db))))
      by (rewrite Hrun; reflexivity).
    vm_compute. reflexivity. }
  assert (Etags : tags = [lit "team"]).
  { rewrite Htags in Et. injection Et as Et.
    revert Et. clear. revert tags.
    intros [|t [|t' tags]] H; try discriminate H. injection H as ->. reflexivity. }
  exists m', d'. split; [exact Hrun|]. split; [exact Hcontent|].
  split; [rewrite <- Etags; exact Hm | exact Et].
Defined.

Example hashtags_sample :
  map ascii_text (findall (hashtag_pattern no_unicode_alnum)
              (processed no_unicode_alnum (lit "go #team :smile:")))
  = ["team"]%string.
Proof. reflexivity. Qed.

(** The scan is of the processed content: in "#http://a.b" the link is
    rewritten first, and the '#' that is left is followed by '<'. *)
Example hashtags_after_links_sample :
  findall (hashtag_pattern no_unicode_alnum) (lit "#http://a.b") = [lit "http"]
  /\ hashtags (fst (fst (before_save no_unicode_alnum (post "#http://a.b", sample_db))))
     = Some (Dumps (PList [])).
Proof. split; vm_compute; reflexivity. Qed.

Lemma engagement_score_spec_witness :
  let m := with_counters (Some 1%Z) (Some 2%Z) (Some 3%Z) (Some 3%Z) (post "hi") in
  let x := 0x1.c99999999999ap+3%float in
  calculate_engagement_score m = Ok x
  /\ update_engagement_metrics write_row (m, sample_db)
     = write_row (set_engagement_score (Some x) m, sample_db)
  /\ engagement_score
       (fst (fst (update_engagement_metrics (save identity_lower no_unicode_alnum 3 series)
                    (m, posted_db))))
     = Some x.
Proof.
  intros m x.
  assert (H : calculate_engagement_score m = Ok x) by (vm_compute; reflexivity).
  split; [exact H|]. split.
  - exact (proj1 (proj2 (engagement_score_spec identity_lower no_unicode_alnum m sample_db))
             write_row x H).
  - exact (proj2 (proj2 (engagement_score_spec identity_lower no_unicode_alnum m posted_db))
             3 series x H).
Defined.

Lemma feed_visibility_witness :
  let public := draft (Some ann) (Some (lit "hello")) (Some (lit "Text")) (Some (lit "Public")) in
  get_moment_feed ann 20 0 (post "hi", feed_db)
  = ((post "hi", feed_db), Ok [selected_columns public])
  /\ In (selected_columns public) [selected_columns public]
  /\ (exists m, In m (tabMoment feed_db) /\ selected_columns public = selected_columns m
                /\ visible feed_db ann m)
  /\ privacy (selected_columns public) <> Some (lit "Private").
Proof.
  intro public.
  assert (H : get_moment_feed ann 20 0 (post "hi", feed_db)
              = ((post "hi", feed_db), Ok [selected_columns public]))
    by (vm_compute; reflexivity).
  assert (Hin : In (selected_columns public) [selected_columns public])
    by (left; reflexivity).
  split; [exact H|]. split; [exact Hin|].
  exact (feed_visibility ann 20 0 (post "hi", feed_db) _ _ (selected_columns public) H Hin).
Defined.

Lemma analyze_safety_validated_witness :
  let m := post "go #team :smile:" in
  let s1 := fst (validate identity_lower (m, sample_db)) in
  let s2 := fst (before_save no_unicode_alnum s1) in
  emoji_caseless identity_lower
  /\ validate identity_lower (m, sample_db) = (s1, Ok tt)
  /\ before_save no_unicode_alnum s1 = (s2, Ok tt)
  /\ analyze_safety identity_lower m = 1%float
  /\ analyze_safety identity_lower (fst s1) = 1%float
  /\ analyze_safety identity_lower (fst s2) = 1%float.
Proof.
  intros m s1 s2.
  assert (Hcase : emoji_caseless identity_lower) by (intros e _; reflexivity).
  pose proof (analyze_safety_validated identity_lower no_unicode_alnum)
    as (_ & Hvalid & Hsave & _).
  assert (H1 : validate identity_lower (m, sample_db) = (s1, Ok tt))
    by (vm_compute; reflexivity).
  assert (H2 : before_save no_unicode_alnum s1 = (s2, Ok tt))
    by (vm_compute; reflexivity).
  split; [exact Hcase|]. split; [exact H1|]. split; [exact H2|].
  destruct (Hvalid _ _ _ H1) as [Ha Hb].
  split; [exact Ha|]. split; [exact Hb|].
  exact (proj1 (Hsave Hcase _ _ _ _ H1 H2)).
Defined.

(** ** Instances of the further theorems on the sample data *)

Lemma feed_page_witness :
  let public := draft (Some ann) (Some (lit "hello")) (Some (lit "Text")) (Some (lit "Public")) in
  get_moment_feed ann 20 0 (post "hi", feed_db)
  = ((post "hi", feed_db), Ok [selected_columns public])
  /\ List.length [selected_columns public] <= 20
  /\ StronglySorted not_posted_after [selected_columns public].
Proof.
  intro public.
  assert (H : get_moment_feed ann 20 0 (post "hi", feed_db)
              = ((post "hi", feed_db), Ok [selected_columns public]))
    by (vm_compute; reflexivity).
  split; [exact H|].
  exact (proj2 (feed_page ann 20 0 (post "hi", feed_db) _ _ H)).
Defined.

Lemma feed_complete_witness :
  let public := draft (Some ann) (Some (lit "hello")) (Some (lit "Text")) (Some (lit "Public")) in
  get_moment_feed ann (List.length (tabMoment (snd (post "hi", feed_db)))) 0 (post "hi", feed_db)
  = ((post "hi", feed_db), Ok [selected_columns public])
  /\ In public (tabMoment (snd (post "hi", feed_db)))
  /\ visible (snd (post "hi", feed_db)) ann public
  /\ In (selected_columns public) [selected_columns public].
Proof.
  intro public.
  assert (H : get_moment_feed ann (List.length (tabMoment (snd (post "hi", feed_db)))) 0
                (post "hi", feed_db)
              = ((post "hi", feed_db), Ok [selected_columns public]))
    by (vm_compute; reflexivity).
  assert (Hin : In public (tabMoment (snd (post "hi", feed_db)))) by (left; reflexivity).
  assert (Hv : visible (snd (post "hi", feed_db)) ann public) by (left; reflexivity).
  split; [exact H|]. split; [exact Hin|]. split; [exact Hv|].
  exact (feed_complete ann (post "hi", feed_db) _ _ public H Hin Hv).
Defined.

Lemma moment_details_witness :
  let s := (post "hi", stored_db) in
  let r := {| details_moment := post "hi";
              details_comments :=
                [ {| c_user := bob; c_comment := lit "nice";
                     c_comment_date := 1699999998%N |} ];
              details_likes := [ {| l_user := bob; l_like_date := 1699999999%N |} ] |} in
  get_moment_details (lit "MOM-2024-01-00001") s = (s, Ok r)
  /\ In (details_moment r) (tabMoment (snd s))
  /\ moment_id (details_moment r) = Some (lit "MOM-2024-01-00001").
Proof.
  intros s r.
  assert (H : get_moment_details (lit "MOM-2024-01-00001") s = (s, Ok r))
    by (vm_compute; reflexivity).
  split; [exact H|].
  destruct (moment_details (lit "MOM-2024-01-00001") s s r H) as (_ & Hin & Hid & _).
  split; [exact Hin | exact Hid].
Defined.

Lemma set_defaults_fills_witness :
  ~ blank (moment_type (post "hi"))
  /\ exists m',
       set_defaults (post "hi", sample_db) = ((m', sample_db), Ok tt)
       /\ moment_type m' = moment_type (post "hi")
       /\ ~ blank (privacy m').
Proof.
  assert (Hnb : ~ blank (moment_type (post "hi"))) by (intros [H|H]; discriminate H).
  split; [exact Hnb|].
  destruct (set_defaults_fills (post "hi") sample_db)
    as (m' & Hrun & (_ & Hp & _) & (Hk & _) & _).
  exists m'. split; [exact Hrun|]. split; [exact (Hk Hnb) | exact Hp].
Defined.

Lemma validate_effect_witness :
  let s' := fst (validate identity_lower (post "hi", sample_db)) in
  validate identity_lower (post "hi", sample_db) = (s', Ok tt)
  /\ moment_type (fst s') = moment_type (post "hi")
  /\ ~ blank (privacy (fst s')).
Proof.
  intro s'.
  assert (H : validate identity_lower (post "hi", sample_db) = (s', Ok tt))
    by (vm_compute; reflexivity).
  split; [exact H|].
  destruct (proj2 (validate_effect identity_lower (post "hi") sample_db) s' H)
    as (Ht & _ & Hp & _).
  split; [exact Ht | exact Hp].
Defined.

Lemma before_save_without_content_witness :
  content picture = None
  /\ (exists m', before_save no_unicode_alnum (picture, sample_db)
                 = ((m', sample_db), Raise TypeError))
  /\ validate identity_lower (picture, sample_db)
     = (fst (validate identity_lower (picture, sample_db)), Ok tt)
  /\ exists m', before_save no_unicode_alnum (fst (validate identity_lower (picture, sample_db)))
                = ((m', sample_db), Raise TypeError).
Proof.
  assert (Hc : content picture = None) by reflexivity.
  assert (H : validate identity_lower (picture, sample_db)
              = (fst (validate identity_lower (picture, sample_db)), Ok tt))
    by (vm_compute; reflexivity).
  destruct (before_save_without_content identity_lower no_unicode_alnum picture sample_db Hc)
    as [H1 H2].
  split; [exact Hc|]. split; [exact H1|]. split; [exact H|].
  exact (proj2 (H2 _ H)).
Defined.

Lemma validate_after_before_save_witness :
  let s1 := fst (before_save no_unicode_alnum (post "hi", sample_db)) in
  content (post "hi") = Some (lit "hi")
  /\ lit "hi" <> []
  /\ before_save no_unicode_alnum (post "hi", sample_db) = (s1, Ok tt)
  /\ exists e, snd (validate identity_lower (fst s1, sample_db)) = Raise e.
Proof.
  intro s1.
  assert (Hc : content (post "hi") = Some (lit "hi")) by reflexivity.
  assert (Hne : lit "hi" <> []) by discriminate.
  assert (H : before_save no_unicode_alnum (post "hi", sample_db) = (s1, Ok tt))
    by (vm_compute; reflexivity).
  split; [exact Hc|]. split; [exact Hne|]. split; [exact H|].
  exact (validate_after_before_save identity_lower no_unicode_alnum (post "hi")
           sample_db sample_db (lit "hi") s1
           (fst (validate identity_lower (fst s1, sample_db)))
           (snd (validate identity_lower (fst s1, sample_db)))
           Hc Hne H (surjective_pairing _)).
Defined.

Lemma hashtag_table_names_witness :
  let c := lit "go #team :smile:" in
  let s' := fst (before_save no_unicode_alnum (post "go #team :smile:", sample_db)) in
  content (post "go #team :smile:") = Some c
  /\ c <> []
  /\ before_save no_unicode_alnum (post "go #team :smile:", sample_db) = (s', Ok tt)
  /\ NoDup (map hashtag (tabHashtag sample_db))
  /\ NoDup (map hashtag (tabHashtag (snd s'))).
Proof.
  intros c s'.
  assert (Hc : content (post "go #team :smile:") = Some c) by reflexivity.
  assert (Hne : c <> []) by discriminate.
  assert (H : before_save no_unicode_alnum (post "go #team :smile:", sample_db) = (s', Ok tt))
    by (vm_compute; reflexivity).
  assert (Hnd : NoDup (map hashtag (tabHashtag sample_db))) by constructor.
  split; [exact Hc|]. split; [exact Hne|]. split; [exact H|]. split; [exact Hnd|].
  exact (proj1 (hashtag_table_names no_unicode_alnum (post "go #team :smile:") sample_db
                  c s' Hc Hne H) Hnd).
Defined.

Lemma hashtag_usage_counted_witness :
  let c := lit "#a and #a" in
  let s' := fst (before_save no_unicode_alnum (post "#a and #a", sample_db)) in
  content (post "#a and #a") = Some c
  /\ c <> []
  /\ before_save no_unicode_alnum (post "#a and #a", sample_db) = (s', Ok tt)
  /\ total_usage (tabHashtag (snd s'))
     = (total_usage (tabHashtag sample_db)
        + Z.of_nat (List.length (findall (hashtag_pattern no_unicode_alnum)
                                   (processed no_unicode_alnum c))))%Z.
Proof.
  intros c s'.
  assert (Hc : content (post "#a and #a") = Some c) by reflexivity.
  assert (Hne : c <> []) by discriminate.
  assert (H : before_save no_unicode_alnum (post "#a and #a", sample_db) = (s', Ok tt))
    by (vm_compute; reflexivity).
  split; [exact Hc|]. split; [exact Hne|]. split; [exact H|].
  exact (hashtag_usage_counted no_unicode_alnum (post "#a and #a") sample_db c s' Hc Hne H).
Defined.

Lemma mention_records_added_witness :
  let c := lit "hi @bob" in
  let s' := fst (before_save no_unicode_alnum (post "hi @bob", sample_db)) in
  content (post "hi @bob") = Some c
  /\ c <> []
  /\ before_save no_unicode_alnum (post "hi @bob", sample_db) = (s', Ok tt)
  /\ tabMomentMention (snd s')
     = [ mention_record (post "hi @bob") (clock sample_db) bob ]
  /\ tabUserFollow (snd s') = tabUserFollow sample_db
  /\ tabEmployee (snd s') = tabEmployee sample_db
  /\ clock (snd s') = clock sample_db.
Proof.
  intros c s'.
  assert (Hc : content (post "hi @bob") = Some c) by reflexivity.
  assert (Hne : c <> []) by discriminate.
  assert (H : before_save no_unicode_alnum (post "hi @bob", sample_db) = (s', Ok tt))
    by (vm_compute; reflexivity).
  split; [exact Hc|]. split; [exact Hne|]. split; [exact H|].
  destruct (mention_records_added no_unicode_alnum (post "hi @bob") sample_db c s'
              Hc Hne H) as (Hm & _ & _ & _ & _ & _ & _ & _ & _ & Hf & He & Hk).
  split; [exact Hm|]. split; [exact Hf|]. split; [exact He | exact Hk].
Defined.

Lemma follower_notifications_witness :
  (exists a, author (post "hi") = Some a
             /\ In {| follower := bob; following := a |} (tabUserFollow team_db))
  /\ In bob (followers_of team_db (author (post "hi"))).
Proof.
  assert (H : exists a, author (post "hi") = Some a
                        /\ In {| follower := bob; following := a |} (tabUserFollow team_db)).
  { exists ann. split; [reflexivity | left; reflexivity]. }
  split; [exact H|].
  exact (proj2 (proj2 (follower_notifications (post "hi") team_db) bob) H).
Defined.

Lemma department_notifications_witness :
  (exists a dep,
     author (post "hi") = Some a /\ bob <> a
     /\ department_of team_db (Some a) = Some dep /\ dep <> []
     /\ In {| employee_user := bob; department := Some dep |} (tabEmployee team_db))
  /\ In bob (department_audience team_db (author (post "hi"))).
Proof.
  assert (Hne : bob <> ann).
  { intro E. assert (Eb : Str.eqb bob ann = true) by (apply str_eqb_eq; exact E).
    vm_compute in Eb. discriminate Eb. }
  assert (H : exists a dep,
                author (post "hi") = Some a /\ bob <> a
                /\ department_of team_db (Some a) = Some dep /\ dep <> []
                /\ In {| employee_user := bob; department := Some dep |}
                     (tabEmployee team_db)).
  { exists ann, (lit "eng"). split; [reflexivity|]. split; [exact Hne|].
    split; [reflexivity|]. split; [discriminate|]. right. left. reflexivity. }
  split; [exact H|].
  exact (proj2 (proj2 (department_notifications (post "hi") team_db) bob) H).
Defined.

Lemma user_activity_counted_witness :
  (has_activity active_db (author (post "hi"))
   /\ Some bob <> author (post "hi")
   /\ snd (update_user_activity (post "hi", active_db)) = Ok tt
   /\ moments_of (snd (fst (update_user_activity (post "hi", active_db)))) (Some ann) = 3%Z
   /\ moments_of (snd (fst (update_user_activity (post "hi", active_db)))) (Some bob) = 0%Z)
  /\ (~ has_activity sample_db (author (post "hi"))
      /\ update_user_activity (post "hi", sample_db)
         = ((post "hi", sample_db), Raise DoesNotExistError)).
Proof.
  assert (Hyes : has_activity active_db (author (post "hi")))
    by (eexists; split; [left; reflexivity | reflexivity]).
  assert (Hno : ~ has_activity sample_db (author (post "hi")))
    by (intros (r & [] & _)).
  assert (Hne : Some bob <> author (post "hi")).
  { intro E. assert (Eb : opt_str_eqb (Some bob) (author (post "hi")) = true)
      by (apply opt_str_eqb_eq; exact E).
    vm_compute in Eb. discriminate Eb. }
  split.
  - destruct (proj1 (user_activity_counted (post "hi") active_db) Hyes)
      as (Hrun & Hsame & Hother).
    split; [exact Hyes|]. split; [exact Hne|].
    split; [rewrite Hrun; reflexivity|].
    split; [exact Hsame | exact (Hother _ Hne)].
  - split; [exact Hno|].
    exact (proj2 (user_activity_counted (post "hi") sample_db) Hno).
Defined.

Lemma after_insert_outcome_witness :
  let s := (post "hi", active_db) in
  let s3 := fst ((send_notifications ;; update_user_activity ;; create_activity_log) s) in
  (send_notifications ;; update_user_activity ;; create_activity_log) s = (s3, Ok tt)
  /\ after_insert identity_lower write_row s = (s3, Raise AttributeError)
  /\ tabMomentActivity (snd s3) = [created_record (post "hi") (clock active_db)]
  /\ ai_analysis (fst s3) = None.
Proof.
  intros s s3.
  assert (H : (send_notifications ;; update_user_activity ;; create_activity_log) s
              = (s3, Ok tt))
    by (vm_compute; reflexivity).
  destruct (after_insert_outcome identity_lower no_unicode_alnum write_row 3 series s)
    as (_ & _ & _ & Hstop & _).
  split; [exact H|]. split; [exact (Hstop s3 H)|].
  split; vm_compute; reflexivity.
Defined.

Lemma insert_notifications_witness :
  let m := post "hi @bob" in
  let c := lit "hi @bob" in
  let s1 := fst (validate identity_lower (m, team_db)) in
  let s2 := fst (before_save no_unicode_alnum s1) in
  content m = Some c
  /\ c <> []
  /\ validate identity_lower (m, team_db) = (s1, Ok tt)
  /\ before_save no_unicode_alnum s1 = (s2, Ok tt)
  /\ exists s3,
       send_notifications (fst (write_row s2)) = (s3, Ok tt)
       /\ tabMomentNotification (snd s3)
          = [ mention_notification m (clock team_db) bob;
              follower_notification m (clock team_db) bob ].
Proof.
  intros m c s1 s2.
  assert (Hc : content m = Some c) by reflexivity.
  assert (Hne : c <> []) by discriminate.
  assert (H1 : validate identity_lower (m, team_db) = (s1, Ok tt))
    by (vm_compute; reflexivity).
  assert (H2 : before_save no_unicode_alnum s1 = (s2, Ok tt))
    by (vm_compute; reflexivity).
  split; [exact Hc|]. split; [exact Hne|]. split; [exact H1|]. split; [exact H2|].
  destruct (insert_notifications identity_lower no_unicode_alnum m team_db c s1 s2
              Hc Hne H1 H2) as (s3 & Hrun & _ & Hn).
  exists s3. split; [exact Hrun | exact Hn].
Defined.

Lemma found_tags_are_words_witness :
  In (lit "foo") (findall (hashtag_pattern no_unicode_alnum) (lit "hi #foo"))
  /\ lit "foo" <> []
  /\ Forall (fun c => is_word no_unicode_alnum c = true) (lit "foo").
Proof.
  assert (H : In (lit "foo") (findall (hashtag_pattern no_unicode_alnum) (lit "hi #foo")))
    by (left; reflexivity).
  split; [exact H|].
  destruct (proj1 (found_tags_are_words no_unicode_alnum (lit "hi #foo") (lit "foo")) H)
    as (Hne & Hall & _).
  split; [exact Hne | exact Hall].
Defined.

Lemma plain_text_unchanged_witness :
  plain (lit "hello")
  /\ processed no_unicode_alnum (lit "hello") = lit "hello"
  /\ findall (hashtag_pattern no_unicode_alnum) (lit "hello") = []
  /\ findall (mention_pattern no_unicode_alnum) (lit "hello") = [].
Proof.
  assert (H : plain (lit "hello"))
    by (split; [|split]; apply not_in_dec; reflexivity).
  split; [exact H|].
  exact (plain_text_unchanged no_unicode_alnum (lit "hello") H).
Defined.

Lemma processing_keeps_tags_witness :
  ~ In 58%N (lit "yo #a @b")
  /\ findall (hashtag_pattern no_unicode_alnum) (processed no_unicode_alnum (lit "yo #a @b"))
     = findall (hashtag_pattern no_unicode_alnum) (lit "yo #a @b")
  /\ findall (mention_pattern no_unicode_alnum) (processed no_unicode_alnum (lit "yo #a @b"))
     = findall (mention_pattern no_unicode_alnum) (lit "yo #a @b").
Proof.
  assert (H : ~ In 58%N (lit "yo #a @b")) by (apply not_in_dec; reflexivity).
  split; [exact H|].
  exact (proj2 (processing_keeps_tags no_unicode_alnum (lit "yo #a @b")) H).
Defined.


Lemma save_never_returns_witness :
  never_returns (A := unit) (raise RecursionError)
  /\ never_returns (update_engagement_metrics (raise RecursionError))
  /\ never_returns (on_update (raise RecursionError)).
Proof.
  assert (H : never_returns (A := unit) (raise RecursionError))
    by (intros s; exists RecursionError; reflexivity).
  split; [exact H|].
  destruct (save_never_returns identity_lower no_unicode_alnum 3 series (post "hi", posted_db))
    as (_ & _ & _ & _ & Hany).
  exact (Hany (raise RecursionError) H).
Defined.

Lemma validate_rejects_zero_coordinate_witness :
  lit "latitude" = lit "latitude"
  /\ dict_get (location equator_post) (lit "latitude") = PFloat 0%float
  /\ validate_location (equator_post, sample_db)
     = ((equator_post, sample_db), Raise (ValidationError (lit "Invalid location data")))
  /\ exists e, snd (validate identity_lower (equator_post, sample_db)) = Raise e.
Proof.
  assert (Hz : dict_get (location equator_post) (lit "latitude") = PFloat 0%float)
    by reflexivity.
  split; [reflexivity|]. split; [exact Hz|].
  exact (validate_rejects_zero_coordinate identity_lower equator_post sample_db
           (lit "latitude") (or_introl eq_refl) (or_intror Hz)).
Defined.

(** A new post of an author without a User Activity row: the insert ends at
    [get_doc] in [update_user_activity]. With the row it ends at
    [now().isoformat()]. *)
Example insert_sample :
  snd (insert identity_lower no_unicode_alnum 3 series (post "hi", sample_db))
  = Raise DoesNotExistError
  /\ snd (insert identity_lower no_unicode_alnum 3 series (post "hi", active_db))
     = Raise AttributeError.
Proof. split; vm_compute; reflexivity. Qed.
